(** * NSE market-prediction pipeline: feature engine, label builder,
      model trainer and prediction engine

    A shallow embedding of
      - src/analysis/technical_analyzer.py  (TechnicalAnalyzer)
      - src/ml_model/trainer.py             (MLModelTrainer)
      - src/ml_model/predictor.py           (PredictionEngine)
      - backtest.py                         (Backtester)
      - agent.py                            (NSEPredictionAgent: the daily run)
      - src/utils.py                        (sentiment and confidence labels)

    Conventions.
    - A float64 is a [cell]: an exact rational, one of the two infinities,
      or NaN.  Arithmetic on finite values is exact; division by zero follows
      IEEE 754 (0/0 is NaN, x/0 is an infinity of the sign of x).
    - A pandas DataFrame is an index (timestamps) and an ordered list of
      named columns.
    - A Python method that catches every exception and returns [None]
      returns an [option]; the exception paths are written out.
    - The data collector (yfinance) is outside the repository's own code:
      what it delivers is an argument of the functions that call it.
    - TA-Lib and scikit-learn are not part of the repository.  The four
      TA-Lib indicators and [train_test_split] are parameters, with a
      reference instance of each for evaluation on concrete inputs;
      [StandardScaler] is written out (mean, variance, input validation). *)

From Stdlib Require Import ZArith QArith Qabs Qround Lqa Lia Bool Sorted.
From stdpp Require Import gmap strings pretty list fin_maps.

Local Open Scope Z_scope.
Local Open Scope nat_scope.
Local Open Scope string_scope.
Local Open Scope list_scope.

(** ** Floating-point cells *)

Inductive cell : Type :=
  | Num (q : Q)
  | PInf
  | NInf
  | NaN.

Definition isna (c : cell) : bool :=
  match c with NaN => true | _ => false end.

Definition isinf (c : cell) : bool :=
  match c with PInf | NInf => true | _ => false end.

Definition isfinite (c : cell) : bool :=
  match c with Num _ => true | _ => false end.

Definition Qlt_bool (x y : Q) : bool := negb (Qle_bool y x).

(** [a > b] on floats: false as soon as one side is NaN. *)
Definition fgt (a b : cell) : bool :=
  match a, b with
  | NaN, _ | _, NaN => false
  | Num x, Num y => Qlt_bool y x
  | PInf, PInf => false
  | PInf, _ => true
  | _, PInf => false
  | NInf, _ => false
  | Num _, NInf => true
  end.

Definition fneg (a : cell) : cell :=
  match a with
  | Num x => Num (Qred (- x))
  | PInf => NInf
  | NInf => PInf
  | NaN => NaN
  end.

Definition fadd (a b : cell) : cell :=
  match a, b with
  | NaN, _ | _, NaN => NaN
  | Num x, Num y => Num (Qred (x + y))
  | PInf, NInf | NInf, PInf => NaN
  | PInf, _ | _, PInf => PInf
  | NInf, _ | _, NInf => NInf
  end.

Definition fsub (a b : cell) : cell := fadd a (fneg b).

(** The sign of an infinite quotient [x / 0] or [inf / y]. *)
Definition inf_of_sign (positive : bool) : cell :=
  if positive then PInf else NInf.

(** IEEE division.  A zero divisor gives NaN for a zero dividend and an
    infinity otherwise. *)
Definition fdiv (a b : cell) : cell :=
  match a, b with
  | NaN, _ | _, NaN => NaN
  | Num x, Num y =>
      if Qeq_bool y 0 then
        if Qeq_bool x 0 then NaN else inf_of_sign (Qlt_bool 0 x)
      else Num (Qred (x / y))
  | Num _, (PInf | NInf) => Num 0
  | (PInf | NInf), (PInf | NInf) => NaN
  | PInf, Num y => inf_of_sign (Qle_bool 0 y)
  | NInf, Num y => inf_of_sign (negb (Qle_bool 0 y))
  end.

(** ** DataFrames *)

Record DataFrame : Type := mkDataFrame {
  df_index : list Z;
  df_data : list (string * list cell)
}.

(** [len(df)] *)
Definition df_len (df : DataFrame) : nat := length (df_index df).

(** [df.columns] *)
Definition df_columns (df : DataFrame) : list string := (df_data df).*1.

(** Every column is as long as the index. *)
Definition df_wf (df : DataFrame) : Prop :=
  Forall (fun c : string * list cell => length c.2 = df_len df) (df_data df).

Fixpoint assoc {A : Type} (name : string) (l : list (string * A)) : option A :=
  match l with
  | [] => None
  | (k, v) :: l' => if String.eqb k name then Some v else assoc name l'
  end.

(** [df[name]]; [None] is pandas' KeyError. *)
Definition getitem (df : DataFrame) (name : string) : option (list cell) :=
  assoc name (df_data df).

Fixpoint assoc_set {A : Type} (name : string) (v : A) (l : list (string * A))
  : list (string * A) :=
  match l with
  | [] => [(name, v)]
  | (k, w) :: l' =>
      if String.eqb k name then (k, v) :: l' else (k, w) :: assoc_set name v l'
  end.

(** [df[name] = col]: replaces the column in place, or appends it. *)
Definition setitem (df : DataFrame) (name : string) (col : list cell) : DataFrame :=
  mkDataFrame (df_index df) (assoc_set name col (df_data df)).

(** [df[names]]: the named columns in the order asked for. *)
Definition getitems (df : DataFrame) (names : list string) : option DataFrame :=
  cols ← mapM (fun n => pair n <$> getitem df n) names;
  Some (mkDataFrame (df_index df) cols).

(** Row [i] holds a NaN in some column. *)
Definition row_has_na (df : DataFrame) (i : nat) : bool :=
  existsb (fun c : string * list cell =>
             match c.2 !! i with Some v => isna v | None => false end)
          (df_data df).

Fixpoint mask {A : Type} (keep : list bool) (l : list A) : list A :=
  match keep, l with
  | k :: keep', x :: l' => if k then x :: mask keep' l' else mask keep' l'
  | _, _ => []
  end.

Definition dropna_keep (df : DataFrame) : list bool :=
  map (fun i => negb (row_has_na df i)) (seq 0 (df_len df)).

(** [df.dropna()] *)
Definition dropna (df : DataFrame) : DataFrame :=
  let keep := dropna_keep df in
  mkDataFrame (mask keep (df_index df))
              (map (fun c : string * list cell => (c.1, mask keep c.2)) (df_data df)).

(** [df[:k]] on rows. *)
Definition df_take (k : nat) (df : DataFrame) : DataFrame :=
  mkDataFrame (take k (df_index df))
              (map (fun c : string * list cell => (c.1, take k c.2)) (df_data df)).

(** Row [i] as the list of its values, column by column; [None] is IndexError. *)
Definition df_row (df : DataFrame) (i : nat) : option (list cell) :=
  mapM (fun c : string * list cell => c.2 !! i) (df_data df).

(** All rows, as [df.values] gives them. *)
Definition df_values (df : DataFrame) : option (list (list cell)) :=
  mapM (df_row df) (seq 0 (df_len df)).

(** ** MLModelTrainer.create_labels (trainer.py, lines 30-49) *)

Definition BULL_LABEL : Z := 1%Z.
Definition BEAR_LABEL : Z := 0%Z.

(** The loop body, run over the values of [range(len(data) - 1)] that are
    left; a failed look-up is the exception the method catches. *)
Fixpoint create_labels_loop (data : DataFrame) (range : list nat)
    (labels : list Z) : option (list Z) :=
  match range with
  | [] => Some labels
  | i :: range' =>
      close ← getitem data "close";
      nxt ← close !! (i + 1);
      cur ← close !! i;
      create_labels_loop data range'
        (labels ++ [if fgt nxt cur then BULL_LABEL else BEAR_LABEL])
  end.

Definition create_labels (data : DataFrame) : option (list Z) :=
  create_labels_loop data (seq 0 (df_len data - 1)) [].

(** The label of row [i] of a [close] column, as the loop body computes it. *)
Definition label_at (close : list cell) (i : nat) : option Z :=
  nxt ← close !! (i + 1);
  cur ← close !! i;
  Some (if fgt nxt cur then BULL_LABEL else BEAR_LABEL).

(** ** scikit-learn's StandardScaler

    [mean_] and [var_] are the per-column mean and population variance of
    the matrix the scaler was fitted on; [scale_] is the square root of
    [var_] with a zero replaced by one.  [feature_names_in_] records the
    column names when the scaler was fitted on a DataFrame. *)

Record StandardScaler : Type := mkStandardScaler {
  feature_names_in_ : option (list string);
  mean_ : list Q;
  var_ : list Q;
  scale_ : list Q
}.

(** A scaler object is created unfitted. *)
Inductive ScalerObj : Type :=
  | Unfitted
  | Fitted (sc : StandardScaler).

(** Square root to twelve decimal places (rounded down). *)
Definition sqrtQ (x : Q) : Q :=
  if Qle_bool x 0 then 0%Q
  else Qred (Z.sqrt (Qfloor (x * ((10 ^ 24)%Z # 1))%Q) # (10 ^ 12)%positive).

Definition Qsum (l : list Q) : Q := fold_right (fun x acc => Qred (x + acc)) 0%Q l.

Definition Qmean (l : list Q) : Q := Qred (Qsum l / (Z.of_nat (length l) # 1)).

(** Population variance: the mean of the squared deviations. *)
Definition Qvar (l : list Q) : Q :=
  let m := Qmean l in
  Qmean (map (fun x => Qred ((x - m) * (x - m))) l).

Definition handle_zeros_in_scale (s : Q) : Q :=
  if Qeq_bool s 0 then 1%Q else s.

(** The finite values of a column; an infinity or a NaN gives [None]. *)
Definition finite_column (col : list cell) : option (list Q) :=
  mapM (fun c => match c with Num q => Some q | _ => None end) col.

(** [StandardScaler().fit(X)].  scikit-learn raises ValueError on an empty
    matrix and on an infinity; NaN never reaches it here ([dropna]). *)
Definition scaler_fit (X : DataFrame) : option StandardScaler :=
  if (df_len X =? 0)%nat then None
  else if (length (df_data X) =? 0)%nat then None
  else
    cols ← mapM (fun c : string * list cell => finite_column c.2) (df_data X);
    let vars := map Qvar cols in
    Some (mkStandardScaler (Some (df_columns X)) (map Qmean cols) vars
            (map (fun v => handle_zeros_in_scale (sqrtQ v)) vars)).

Definition scale_cell (c : cell) (m s : Q) : cell :=
  fdiv (fsub c (Num m)) (Num s).

Fixpoint scale_row (row : list cell) (ms ss : list Q) : list cell :=
  match row, ms, ss with
  | c :: row', m :: ms', s :: ss' => scale_cell c m s :: scale_row row' ms' ss'
  | _, _, _ => []
  end.

Definition list_eqb (l1 l2 : list string) : bool := bool_decide (l1 = l2).

(** [scaler.transform(X)] on a DataFrame.  The input is validated first:
    the column names must be the ones seen at fit time when both are
    known, the number of columns must be the fitted one, and an infinity
    is refused. *)
Definition scaler_transform (sc : StandardScaler) (X : DataFrame)
  : option (list (list cell)) :=
  let names_ok :=
    match feature_names_in_ sc with
    | Some names => list_eqb names (df_columns X)
    | None => true
    end in
  if negb names_ok then None
  else if negb (length (df_data X) =? length (mean_ sc))%nat then None
  else
    rows ← df_values X;
    if existsb (existsb isinf) rows then None
    else Some (map (fun r => scale_row r (mean_ sc) (scale_ sc)) rows).

Definition scalerobj_transform (s : ScalerObj) (X : DataFrame)
  : option (list (list cell)) :=
  match s with
  | Unfitted => None
  | Fitted sc => scaler_transform sc X
  end.

(** ** Classifiers

    A fitted estimator as the trainer and the predictor use it: [predict]
    on a matrix, and [predict_proba] when the estimator has the method.
    [None] is an exception raised by the estimator. *)

Record Classifier : Type := mkClassifier {
  clf_predict : list (list cell) -> option (list Z);
  clf_predict_proba : option (list (list cell) -> option (list (list Q)))
}.

(** ** MLModelTrainer (trainer.py) *)

Record MLModelTrainer : Type := mkTrainer {
  model_type : string;
  model : option Classifier;
  scaler : option ScalerObj;
  feature_columns : option (list string)
}.

(** config.py *)
Definition MODEL_TYPE : string := "xgboost".
Definition TRAIN_TEST_SPLIT : Q := (8 # 10)%Q.
Definition PREDICTION_THRESHOLD : Q := (6 # 10)%Q.

(** [MLModelTrainer.__init__] *)
Definition MLModelTrainer_init : MLModelTrainer :=
  mkTrainer MODEL_TYPE None None None.

Definition exclude_cols : list string :=
  ["open"; "high"; "low"; "close"; "volume"].

(** [[col for col in columns if col not in exclude_cols]] *)
Definition feature_cols_of (columns : list string) : list string :=
  List.filter (fun col => negb (bool_decide (col ∈ exclude_cols))) columns.

(** Lines 73-78: match the lengths of [X] and [y]. *)
Definition align_X (X : DataFrame) (y : list Z) : DataFrame :=
  if (length y <? df_len X)%nat then df_take (df_len X - 1) X else X.

Definition align_y (X : DataFrame) (y : list Z) : list Z :=
  if (df_len X <? length y)%nat then take (df_len X) y else y.

Definition PreparedData : Type :=
  (list (list cell) * list (list cell) * list Z * list Z)%type.

Section Trainer.

(** [sklearn.model_selection.train_test_split]: the row numbers of the
    train and of the test part, chosen from the number of samples, the
    test share, the seed and the labels to stratify on; [None] when it
    raises (too few members of a class, an empty part). *)
Variable train_test_split :
  forall (n_samples : nat) (test_size : Q) (random_state : Z)
         (stratify : list Z), option (list nat * list nat).

(** The aligned feature matrix and labels of lines 62-78; [None] on an
    exception. *)
Definition aligned_data (data : DataFrame) : option (DataFrame * list Z) :=
  let feature_cols := feature_cols_of (df_columns data) in
  X0 ← getitems data feature_cols;
  let X := dropna X0 in
  y ← create_labels data;
  let X := align_X X y in
  let y := align_y X y in
  Some (X, y).

(** [prepare_data]: the trainer after the call, and the four arrays or
    [None] (the method's [(None, None, None, None)]). *)
Definition prepare_data (self : MLModelTrainer) (data : DataFrame)
    (test_size : Q) : MLModelTrainer * option PreparedData :=
  let feature_cols := feature_cols_of (df_columns data) in
  let self := mkTrainer (model_type self) (model self) (scaler self)
                        (Some feature_cols) in
  match aligned_data data with
  | None => (self, None)
  | Some (X, y) =>
      let self := mkTrainer (model_type self) (model self) (Some Unfitted)
                            (feature_columns self) in
      match scaler_fit X with
      | None => (self, None)
      | Some sc =>
          let self := mkTrainer (model_type self) (model self)
                                (Some (Fitted sc)) (feature_columns self) in
          (self,
           X_scaled ← scaler_transform sc X;
           '(train, test) ← train_test_split (length X_scaled)
                              (Qred (1 - test_size)) 42%Z y;
           X_train ← mapM (fun i => X_scaled !! i) train;
           X_test ← mapM (fun i => X_scaled !! i) test;
           y_train ← mapM (fun i => y !! i) train;
           y_test ← mapM (fun i => y !! i) test;
           Some (X_train, X_test, y_train, y_test))
      end
  end.

End Trainer.

(** *** Persisted artifacts

    [models_dir]: for a file name stem, what the pickle of the model
    ([_model.pkl]) and the pickle of the scaler ([_scaler.pkl]) hold, and
    the lines of the feature list ([_features.txt]) as
    [f.read().strip().split('\n')] reads them.  [joblib.dump] pickles
    whatever the attribute holds, [None] included, and [joblib.load] gives
    it back.  Errors of the file system itself (a full disk, a missing
    permission) are not part of the model. *)

Record ModelsDir : Type := mkModelsDir {
  model_pkl : gmap string (option Classifier);
  scaler_pkl : gmap string (option ScalerObj);
  features_txt : gmap string (list string)
}.

Definition ModelsDir_empty : ModelsDir := mkModelsDir ∅ ∅ ∅.

(** What is read back from the text ['\n'.join(cols)]: the names
    themselves, and [['']] for an empty list, whose text is empty.  (The
    column names of the pipeline are identifiers; a name with a line break
    in it, or white space at either end of the text, would not read back
    as it was written.) *)
Definition written_lines (cols : list string) : list string :=
  match cols with
  | [] => [""]
  | _ => cols
  end.

(** [save_model].  The two dumps come first and succeed whatever the
    attributes hold.  The feature file is then opened for writing, which
    empties it, before ['\n'.join(self.feature_columns)] is evaluated: for
    a trainer without a feature list the join raises, and the method
    returns [False] with both pickles written and an empty feature file
    left behind. *)
Definition save_model (self : MLModelTrainer) (fs : ModelsDir)
    (filename : string) : ModelsDir * bool :=
  let fs := mkModelsDir (<[filename := model self]> (model_pkl fs))
                        (scaler_pkl fs) (features_txt fs) in
  let fs := mkModelsDir (model_pkl fs)
                        (<[filename := scaler self]> (scaler_pkl fs))
                        (features_txt fs) in
  match feature_columns self with
  | None =>
      (mkModelsDir (model_pkl fs) (scaler_pkl fs)
                   (<[filename := written_lines []]> (features_txt fs)), false)
  | Some cols =>
      (mkModelsDir (model_pkl fs) (scaler_pkl fs)
                   (<[filename := written_lines cols]> (features_txt fs)), true)
  end.

(** [load_model]: the three files are read in turn, each assigned as soon
    as it is read; a missing file ends the call with [False]. *)
Definition load_model (fs : ModelsDir) (self : MLModelTrainer)
    (filename : string) : MLModelTrainer * bool :=
  match model_pkl fs !! filename with
  | None => (self, false)
  | Some m =>
      let self := mkTrainer (model_type self) m (scaler self)
                            (feature_columns self) in
      match scaler_pkl fs !! filename with
      | None => (self, false)
      | Some s =>
          let self := mkTrainer (model_type self) (model self) s
                                (feature_columns self) in
          match features_txt fs !! filename with
          | None => (self, false)
          | Some cols =>
              (mkTrainer (model_type self) (model self) (scaler self)
                         (Some cols), true)
          end
      end
  end.

(** ** PredictionEngine (predictor.py)

    The engine owns one trainer object, created by [__init__], and a dict
    from instrument to trainer object.  Objects live in a heap and are
    named by their address, so that two dict entries holding the same
    object are the same address. *)

Definition addr : Type := nat.

Record PredictionEngine : Type := mkEngine {
  heap : gmap addr MLModelTrainer;
  trainer : addr;
  models : gmap string addr
}.

(** [PredictionEngine.__init__]: [self.trainer = MLModelTrainer()],
    [self.models = {}]. *)
Definition PredictionEngine_init : PredictionEngine :=
  mkEngine {[ 0 := MLModelTrainer_init ]} 0 ∅.

(** [PredictionEngine.load_model]: [self.trainer.load_model(filename)]
    updates the engine's trainer object in place (its result is not
    looked at), and [self.models[instrument] = self.trainer] stores that
    same object. *)
Definition engine_load_model (fs : ModelsDir) (self : PredictionEngine)
    (instrument filename : string) : PredictionEngine * bool :=
  match heap self !! trainer self with
  | None => (self, false)
  | Some t =>
      let t' := (load_model fs t filename).1 in
      (mkEngine (<[trainer self := t']> (heap self)) (trainer self)
                (<[instrument := trainer self]> (models self)), true)
  end.

Inductive Signal : Type := BULL | BEAR.

Record Prediction : Type := mkPrediction {
  p_instrument : string;
  p_signal : Signal;
  p_prediction : Z;
  p_confidence : Q;
  p_alert_triggered : bool;
  p_timestamp : Z;
  p_features_used : list string
}.

(** [data.iloc[[-1]]]: the last row as a one-row frame; [None] is the
    IndexError of an empty frame. *)
Definition iloc_last (data : DataFrame) : option DataFrame :=
  let n := df_len data in
  if (n =? 0)%nat then None
  else
    t ← df_index data !! (n - 1);
    cols ← mapM (fun c : string * list cell =>
                   v ← c.2 !! (n - 1); Some (c.1, [v])) (df_data data);
    Some (mkDataFrame [t] cols).

(** Python's [max] of a sequence; [None] is the ValueError of an empty one. *)
Definition Qmax_list (l : list Q) : option Q :=
  match l with
  | [] => None
  | x :: l' => Some (fold_left (fun m y => if Qlt_bool m y then y else m) l' x)
  end.

(** Lines 49-54: the last row and the feature columns read off it. *)
Definition predict_feature_cols (data : DataFrame) : option (list string) :=
  last_record ← iloc_last data;
  Some (feature_cols_of (df_columns last_record)).

(** Lines 49-55: the frame [X] handed to the scaler. *)
Definition predict_features (data : DataFrame) : option DataFrame :=
  last_record ← iloc_last data;
  feature_cols ← predict_feature_cols data;
  getitems last_record feature_cols.

(** Lines 63-68: the confidence of a prediction. *)
Definition predict_confidence (m : Classifier) (X_scaled : list (list cell))
  : option Q :=
  match clf_predict_proba m with
  | Some predict_proba =>
      probabilities ← predict_proba X_scaled ≫= head;
      Qmax_list probabilities
  | None => Some (1 # 2)%Q
  end.

(** [predict_next_day]; [None] is the method's [None]: no model for the
    instrument, or an exception on the way. *)
Definition predict_next_day (self : PredictionEngine) (data : DataFrame)
    (instrument : string) (confidence_threshold : Q) : option Prediction :=
  a ← models self !! instrument;
  tr ← heap self !! a;
  feature_cols ← predict_feature_cols data;
  X ← predict_features data;
  sc ← scaler tr;
  X_scaled ← scalerobj_transform sc X;
  m ← model tr;
  prediction ← clf_predict m X_scaled ≫= head;
  confidence ← predict_confidence m X_scaled;
  let signal := if (prediction =? 1)%Z then BULL else BEAR in
  let alert_triggered := Qle_bool confidence_threshold confidence in
  timestamp ← last (df_index data);
  Some (mkPrediction instrument signal prediction confidence alert_triggered
                     timestamp feature_cols).

(** [predict_batch]: the loop over [data_dict.items()], in the dict's
    order. *)
Fixpoint predict_batch_loop (self : PredictionEngine)
    (items : list (string * DataFrame)) (confidence_threshold : Q)
    (predictions : list Prediction) : list Prediction :=
  match items with
  | [] => predictions
  | (instrument, data) :: items' =>
      let result := predict_next_day self data instrument confidence_threshold in
      predict_batch_loop self items' confidence_threshold
        match result with
        | Some r => predictions ++ [r]
        | None => predictions
        end
  end.

Definition predict_batch (self : PredictionEngine)
    (data_dict : list (string * DataFrame)) (confidence_threshold : Q)
  : list Prediction :=
  predict_batch_loop self data_dict confidence_threshold [].

(** The instruments of the predictions whose alert flag is set. *)
Definition alerted (predictions : list Prediction) : list string :=
  map p_instrument (List.filter p_alert_triggered predictions).

(** ** TechnicalAnalyzer (technical_analyzer.py) *)

(** The four TA-Lib functions the analyzer imports.  Each takes the close
    prices as a float array and returns arrays. *)
Record TALib : Type := mkTALib {
  SMA : list cell -> nat -> list cell;
  RSI : list cell -> nat -> list cell;
  MACD : list cell -> nat -> nat -> nat -> list cell * list cell * list cell;
  BBANDS : list cell -> nat -> Q -> Q -> list cell * list cell * list cell
}.

(** [pd.Series(values, index=data.index)]: pandas raises ValueError when
    the lengths differ. *)
Definition mk_series (data : DataFrame) (values : list cell) : option (list cell) :=
  if (length values =? df_len data)%nat then Some values else None.

(** The finite values of the window of [period] entries that ends at [i]. *)
Definition window (col : list cell) (i period : nat) : option (list Q) :=
  if (i + 1 <? period)%nat then None
  else finite_column (take period (drop (i + 1 - period) col)).

(** A statistic over a sliding window; NaN until the window is full, and
    where the window holds a value that is not finite. *)
Definition rolling (stat : list Q -> cell) (period : nat) (col : list cell)
  : list cell :=
  map (fun i => match window col i period with
                | Some w => stat w
                | None => NaN
                end) (seq 0 (length col)).

(** [series.rolling(window=period).mean()] *)
Definition rolling_mean (period : nat) (col : list cell) : list cell :=
  rolling (fun w => Num (Qmean w)) period col.

Section Analyzer.

Variable ta : TALib.

(** [calculate_rsi] *)
Definition calculate_rsi (data : DataFrame) (period : nat) : option (list cell) :=
  if (df_len data <? period)%nat then None
  else
    close ← getitem data "close";
    mk_series data (RSI ta close period).

(** [calculate_macd]: the columns [macd], [signal], [histogram]. *)
Definition calculate_macd (data : DataFrame) (fast slow signal : nat)
  : option (list cell * list cell * list cell) :=
  if (df_len data <? slow)%nat then None
  else
    close ← getitem data "close";
    let '(macd, signal_line, histogram) := MACD ta close fast slow signal in
    macd ← mk_series data macd;
    signal_line ← mk_series data signal_line;
    histogram ← mk_series data histogram;
    Some (macd, signal_line, histogram).

(** [calculate_bollinger_bands]: the columns [upper], [middle], [lower]. *)
Definition calculate_bollinger_bands (data : DataFrame) (period : nat)
    (std_dev : Q) : option (list cell * list cell * list cell) :=
  if (df_len data <? period)%nat then None
  else
    close ← getitem data "close";
    let '(upper, middle, lower) := BBANDS ta close period std_dev std_dev in
    upper ← mk_series data upper;
    middle ← mk_series data middle;
    lower ← mk_series data lower;
    Some (upper, middle, lower).

(** The loop of [calculate_moving_averages]; [None] is an exception. *)
Fixpoint moving_averages_loop (data : DataFrame) (periods : list nat)
    (result : list (string * list cell)) : option (list (string * list cell)) :=
  match periods with
  | [] => Some result
  | period :: periods' =>
      if (df_len data <? period)%nat then
        moving_averages_loop data periods' result
      else
        close ← getitem data "close";
        sma ← mk_series data (SMA ta close period);
        moving_averages_loop data periods'
          (assoc_set ("sma_" +:+ pretty period) sma result)
  end.

(** [calculate_moving_averages]: a dict; empty after an exception. *)
Definition calculate_moving_averages (data : DataFrame) (periods : list nat)
  : list (string * list cell) :=
  default [] (moving_averages_loop data periods []).

(** [calculate_volume_ratio] *)
Definition calculate_volume_ratio (data : DataFrame) (period : nat)
  : option (list cell) :=
  if (df_len data <? period)%nat then None
  else
    volume ← getitem data "volume";
    let avg_volume := rolling_mean period volume in
    Some (zip_with fdiv volume avg_volume).

(** [calculate_price_ratios]: the columns [hl_ratio], [co_ratio]. *)
Definition calculate_price_ratios (data : DataFrame)
  : option (list cell * list cell) :=
  high ← getitem data "high";
  low ← getitem data "low";
  close ← getitem data "close";
  open ← getitem data "open";
  Some (zip_with fdiv (zip_with fsub high low) close,
        zip_with fdiv (zip_with fsub close open) open).

(** Lines 204-215: the Bollinger columns and the band position. *)
Definition add_bollinger (data features_df : DataFrame) : option DataFrame :=
  match calculate_bollinger_bands data 20 2 with
  | None => Some features_df
  | Some (upper, middle, lower) =>
      let features_df := setitem features_df "bb_upper" upper in
      let features_df := setitem features_df "bb_middle" middle in
      let features_df := setitem features_df "bb_lower" lower in
      close ← getitem data "close";
      Some (setitem features_df "bb_position"
              (zip_with fdiv (zip_with fsub close lower)
                             (zip_with fsub upper lower)))
  end.

(** Lines 181-226: the frame before [dropna]. *)
Definition all_features (data : DataFrame) : option DataFrame :=
  let features_df := data in
  let features_df :=
    match assoc "sma_20" (calculate_moving_averages data [20]) with
    | Some sma_20 => setitem features_df "sma_20" sma_20
    | None => features_df
    end in
  let features_df :=
    match assoc "sma_50" (calculate_moving_averages data [50]) with
    | Some sma_50 => setitem features_df "sma_50" sma_50
    | None => features_df
    end in
  let features_df :=
    match calculate_rsi data 14 with
    | Some rsi => setitem features_df "rsi" rsi
    | None => features_df
    end in
  let features_df :=
    match calculate_macd data 12 26 9 with
    | Some (macd, signal, histogram) =>
        setitem (setitem (setitem features_df "macd" macd)
                         "macd_signal" signal) "macd_hist" histogram
    | None => features_df
    end in
  features_df ← add_bollinger data features_df;
  let features_df :=
    match calculate_volume_ratio data 20 with
    | Some volume_ratio => setitem features_df "volume_ratio" volume_ratio
    | None => features_df
    end in
  let features_df :=
    match calculate_price_ratios data with
    | Some (hl_ratio, co_ratio) =>
        setitem (setitem features_df "hl_ratio" hl_ratio) "co_ratio" co_ratio
    | None => features_df
    end in
  Some features_df.

(** [extract_all_features]; [None] is the method's [None]. *)
Definition extract_all_features (data : DataFrame) : option DataFrame :=
  features_df ← all_features data;
  Some (dropna features_df).

End Analyzer.

(** The fixed feature schema: the columns [extract_all_features] adds when
    every indicator is computed. *)
Definition feature_schema : list string :=
  ["sma_20"; "sma_50"; "rsi"; "macd"; "macd_signal"; "macd_hist";
   "bb_upper"; "bb_middle"; "bb_lower"; "bb_position";
   "volume_ratio"; "hl_ratio"; "co_ratio"].

(** ** Candles *)

Record Candle : Type := mkCandle {
  timestamp : Z;
  c_open : Q;
  c_high : Q;
  c_low : Q;
  c_close : Q;
  c_volume : Q
}.

(** The frame the data collector hands over: columns [open], [high],
    [low], [close], [volume], indexed by time. *)
Definition candles_df (cs : list Candle) : DataFrame :=
  mkDataFrame (map timestamp cs)
    [("open", map (fun c => Num (c_open c)) cs);
     ("high", map (fun c => Num (c_high c)) cs);
     ("low", map (fun c => Num (c_low c)) cs);
     ("close", map (fun c => Num (c_close c)) cs);
     ("volume", map (fun c => Num (c_volume c)) cs)].

(** ** A reference instance of TA-Lib

    The indicator definitions of TA-Lib's C sources, in exact arithmetic,
    for evaluating the analyzer on concrete candles.  Every output is NaN
    during the indicator's lookback.  TA-Lib treats a value below
    [TA_EPSILON], 0.00000000000001, as zero where it guards a square root
    or a division ([TA_IS_ZERO], [TA_IS_ZERO_OR_NEG] of ta_utility.h).
    TA-Lib's running sums are rounded floats and the sums here are exact:
    the two agree where the sums are binary fractions that no rounding
    touches, as for the candles [flat] and [nearly_flat] below, and can
    differ in the last bits elsewhere. *)

Module TA.

Definition EPSILON : Q := (1 # 100000000000000)%Q.

Definition IS_ZERO (v : Q) : bool :=
  Qlt_bool (- EPSILON) v && Qlt_bool v EPSILON.

Definition IS_ZERO_OR_NEG (v : Q) : bool := Qlt_bool v EPSILON.

Definition nans (n : nat) : list cell := replicate n NaN.

(** [SMA]: the mean of the last [period] closes. *)
Definition SMA (close : list cell) (period : nat) : list cell :=
  rolling (fun w => Num (Qmean w)) period close.

(** The moving standard deviation of [BBANDS]: zero when the variance is
    zero, negative or below the epsilon. *)
Definition stddev (w : list Q) : Q :=
  let v := Qvar w in
  if IS_ZERO_OR_NEG v then 0%Q else sqrtQ v.

(** [BBANDS] with a simple moving average: [(upper, middle, lower)]. *)
Definition BBANDS (close : list cell) (period : nat) (nbdevup nbdevdn : Q)
  : list cell * list cell * list cell :=
  (rolling (fun w => Num (Qred (Qmean w + nbdevup * stddev w))) period close,
   rolling (fun w => Num (Qmean w)) period close,
   rolling (fun w => Num (Qred (Qmean w - nbdevdn * stddev w))) period close).

Definition diffs (c : list Q) : list Q :=
  zip_with (fun prev cur => Qred (cur - prev)) c (tail c).

Definition gain (d : Q) : Q := if Qlt_bool 0 d then d else 0%Q.
Definition loss (d : Q) : Q := if Qlt_bool d 0 then Qred (- d) else 0%Q.

Definition rsi_value (g l : Q) : cell :=
  let s := (g + l)%Q in
  if IS_ZERO s then Num 0 else Num (Qred (100 * (g / s))).

(** Wilder's smoothing of the average gain and loss. *)
Fixpoint rsi_smooth (period : nat) (g l : Q) (ds : list Q) : list cell :=
  match ds with
  | [] => []
  | d :: ds' =>
      let p := (Z.of_nat period # 1)%Q in
      let g' := Qred ((g * (p - 1) + gain d) / p) in
      let l' := Qred ((l * (p - 1) + loss d) / p) in
      rsi_value g' l' :: rsi_smooth period g' l' ds'
  end.

(** [RSI]: lookback [period]. *)
Definition RSI (close : list cell) (period : nat) : list cell :=
  match finite_column close with
  | None => nans (length close)
  | Some c =>
      if (length c <=? period)%nat then nans (length c)
      else
        let d := diffs c in
        let first := take period d in
        let g := Qmean (map gain first) in
        let l := Qmean (map loss first) in
        nans period ++ rsi_value g l :: rsi_smooth period g l (drop period d)
  end.

Fixpoint ema_run (k prev : Q) (xs : list Q) : list Q :=
  match xs with
  | [] => []
  | x :: xs' =>
      let e := Qred ((x - prev) * k + prev) in
      e :: ema_run k e xs'
  end.

(** The exponential moving average from index [start] on, seeded with
    the simple average of the [period] values that end at [start]. *)
Definition ema_from (period start : nat) (c : list Q) : list Q :=
  let seed := Qmean (take period (drop (start + 1 - period) c)) in
  let k := Qred (2 / ((Z.of_nat period # 1) + 1)) in
  seed :: ema_run k seed (drop (start + 1) c).

(** [MACD]: [(macd, signal, histogram)], lookback
    [slow - 1 + signal - 1]. *)
Definition MACD (close : list cell) (fast slow signal : nat)
  : list cell * list cell * list cell :=
  let '(fast, slow) := if (slow <? fast)%nat then (slow, fast) else (fast, slow) in
  let n := length close in
  let lookback := slow - 1 + (signal - 1) in
  match finite_column close with
  | None => (nans n, nans n, nans n)
  | Some c =>
      if (n <=? lookback)%nat then (nans n, nans n, nans n)
      else
        let slow_ema := ema_from slow (slow - 1) c in
        let fast_ema := ema_from fast (slow - 1) c in
        let line := zip_with (fun f s => Qred (f - s)) fast_ema slow_ema in
        let sig := ema_from signal (signal - 1) line in
        let macd := drop (signal - 1) line in
        (nans lookback ++ map Num macd,
         nans lookback ++ map Num sig,
         nans lookback ++ map Num (zip_with (fun m s => Qred (m - s)) macd sig))
  end.

Definition lib : TALib := mkTALib SMA RSI MACD BBANDS.

End TA.

(** ** A reference instance of [train_test_split]

    The last [ceil(test_size * n)] rows are the test part and the rows
    before them the train part; it raises when a part is empty.
    scikit-learn's own choice of rows is a seeded shuffle within each
    class. *)
Definition tail_split (n_samples : nat) (test_size : Q) (random_state : Z)
    (stratify : list Z) : option (list nat * list nat) :=
  let n_test := Z.to_nat (Qceiling (test_size * (Z.of_nat n_samples # 1))) in
  if ((n_test =? 0) || (n_samples <=? n_test))%nat then None
  else Some (seq 0 (n_samples - n_test), seq (n_samples - n_test) n_test).

(** ** Notions the properties are stated with *)

(** A row of class probabilities over two classes. *)
Definition proba_row (p : list Q) : Prop :=
  exists p0 p1, p = [p0; p1] /\ (0 <= p0)%Q /\ (0 <= p1)%Q /\ (p0 + p1 == 1)%Q.

(** A classifier whose [predict_proba], when it has one, returns such rows. *)
Definition binary_proba (m : Classifier) : Prop :=
  forall predict_proba X probs,
    clf_predict_proba m = Some predict_proba ->
    predict_proba X = Some probs ->
    Forall proba_row probs.

(** The engine with the recorded feature schema of every trainer object
    replaced. *)
Definition set_feature_columns (fc : option (list string)) (tr : MLModelTrainer)
  : MLModelTrainer :=
  mkTrainer (model_type tr) (model tr) (scaler tr) fc.

Definition engine_set_feature_columns (fc : option (list string))
    (self : PredictionEngine) : PredictionEngine :=
  mkEngine (set_feature_columns fc <$> heap self) (trainer self) (models self).

(** ** Sample data *)

Module Sample.

(** A classifier that answers [label] with probabilities [proba] for
    every row. *)
Definition constant_clf (label : Z) (proba : list Q) : Classifier :=
  mkClassifier (fun X => Some (map (fun _ => label) X))
               (Some (fun X => Some (map (fun _ => proba) X))).

(** The same without [predict_proba]. *)
Definition bare_clf (label : Z) : Classifier :=
  mkClassifier (fun X => Some (map (fun _ => label) X)) None.

(** A feature table of three rows with the features [sma_20], [rsi]. *)
Definition features : DataFrame :=
  mkDataFrame [1; 2; 3]%Z
    [("open", [Num 100; Num 101; Num 103]);
     ("high", [Num 102; Num 104; Num 105]);
     ("low", [Num 99; Num 100; Num 101]);
     ("close", [Num 101; Num 103; Num 102]);
     ("volume", [Num 1000; Num 1200; Num 900]);
     ("sma_20", [Num 100; Num 101; Num 102]);
     ("rsi", [Num 55; Num 60; Num 48])].

(** The same table with the two feature columns in the other order. *)
Definition features_reordered : DataFrame :=
  mkDataFrame [1; 2; 3]%Z
    [("open", [Num 100; Num 101; Num 103]);
     ("high", [Num 102; Num 104; Num 105]);
     ("low", [Num 99; Num 100; Num 101]);
     ("close", [Num 101; Num 103; Num 102]);
     ("volume", [Num 1000; Num 1200; Num 900]);
     ("rsi", [Num 55; Num 60; Num 48]);
     ("sma_20", [Num 100; Num 101; Num 102])].

(** A scaler fitted on a DataFrame with the columns [sma_20], [rsi]. *)
Definition fitted_scaler : StandardScaler :=
  mkStandardScaler (Some ["sma_20"; "rsi"]) [100; 50]%Q [4; 100]%Q [2; 10]%Q.

(** The same parameters in a scaler that recorded no column names (one
    fitted on a plain array). *)
Definition nameless_scaler : StandardScaler :=
  mkStandardScaler None [100; 50]%Q [4; 100]%Q [2; 10]%Q.

(** A models directory with an artifact per instrument: the NIFTY50
    classifier always answers 1, the BANKNIFTY classifier always 0. *)
Definition models_dir : ModelsDir :=
  mkModelsDir
    {[ "nifty50_model" := Some (constant_clf 1 [(3 # 10); (7 # 10)]%Q);
       "banknifty_model" := Some (constant_clf 0 [(4 # 5); (1 # 5)]%Q);
       "nameless_model" := Some (bare_clf 1) ]}
    {[ "nifty50_model" := Some (Fitted fitted_scaler);
       "banknifty_model" := Some (Fitted fitted_scaler);
       "nameless_model" := Some (Fitted nameless_scaler) ]}
    {[ "nifty50_model" := ["sma_20"; "rsi"];
       "banknifty_model" := ["sma_20"; "rsi"];
       "nameless_model" := ["sma_20"; "rsi"] ]}.

(** The engine after [load_model("NIFTY50", "nifty50_model")]. *)
Definition engine1 : PredictionEngine :=
  (engine_load_model models_dir PredictionEngine_init
     "NIFTY50" "nifty50_model").1.

(** ... and then [load_model("BANKNIFTY", "banknifty_model")], as the
    agent's training loop does for its two instruments. *)
Definition engine2 : PredictionEngine :=
  (engine_load_model models_dir engine1 "BANKNIFTY" "banknifty_model").1.

(** The engine after [load_model("NIFTY50", "nameless_model")]. *)
Definition engine_nameless : PredictionEngine :=
  (engine_load_model models_dir PredictionEngine_init
     "NIFTY50" "nameless_model").1.

End Sample.

(** Every column name of a frame is one of [names]. *)
Definition cols_within (names : list string) (df : DataFrame) : Prop :=
  forall n, n ∈ df_columns df -> n ∈ names.

(** The columns of a feature table for fewer than 50 candles: no
    [sma_50]. *)
Definition short_history_columns : list string :=
  ["open"; "high"; "low"; "close"; "volume";
   "sma_20"; "rsi"; "macd"; "macd_signal"; "macd_hist";
   "bb_upper"; "bb_middle"; "bb_lower"; "bb_position";
   "volume_ratio"; "hl_ratio"; "co_ratio"].

(** A frame with one cell of a column replaced. *)
Definition perturb (df : DataFrame) (name : string) (i : nat) (v : cell)
  : DataFrame :=
  match getitem df name with
  | Some col => setitem df name (<[i := v]> col)
  | None => df
  end.

(** The fitted means of a trainer's scaler. *)
Definition fitted_mean (tr : MLModelTrainer) : option (list Q) :=
  match scaler tr with
  | Some (Fitted sc) => Some (mean_ sc)
  | _ => None
  end.

Fixpoint Qlist_eqb (l1 l2 : list Q) : bool :=
  match l1, l2 with
  | [], [] => true
  | x :: l1', y :: l2' => Qeq_bool x y && Qlist_eqb l1' l2'
  | _, _ => false
  end.

Definition same_mean (m1 m2 : option (list Q)) : bool :=
  match m1, m2 with
  | Some l1, Some l2 => Qlist_eqb l1 l2
  | None, None => true
  | _, _ => false
  end.

(** ** Sample candles and training tables *)

Module Candles.

Definition bar (i : nat) (close : Q) : Candle :=
  mkCandle (Z.of_nat i) close (close + 1)%Q (close - 1)%Q close 1000%Q.

(** [n] bars with strictly increasing closes 100, 101, ... *)
Definition rising (n : nat) : list Candle :=
  map (fun i => bar i (Z.of_nat (100 + i) # 1)) (seq 0 n).

(** [n] bars whose closes move up and down between 100 and 104. *)
Definition choppy (n : nat) : list Candle :=
  map (fun i => bar i (Z.of_nat (100 + (i * 7) mod 5) # 1)) (seq 0 n).

(** Twenty bars: nineteen closes of 1 and a last close of 1 + 5/2^26,
    with the high half as much above the close and the low half as much
    below it.  Every price is a binary fraction, hence a float as it
    stands, and so are the window sum 20 + 5/2^26 and the window mean
    1 + 1/2^28. *)
Definition nearly_flat : list Candle :=
  map (fun i =>
         let close := if (i =? 19)%nat then (67108869 # 67108864)%Q else 1%Q in
         mkCandle (Z.of_nat i) 1 (Qred ((3 # 2) * close)) (Qred ((1 # 2) * close))
                  close 1000)
      (seq 0 20).

(** Twenty bars that all close at 100. *)
Definition flat : list Candle :=
  map (fun i => mkCandle (Z.of_nat i) 100 101 99 100 1000) (seq 0 20).

(** A feature table of ten rows for training, with one feature. *)
Definition training : DataFrame :=
  mkDataFrame (map Z.of_nat (seq 0 10))
    [("close", map Num [100; 101; 100; 102; 101; 103; 102; 104; 103; 105]%Q);
     ("rsi", map Num [50; 52; 48; 55; 45; 60; 40; 58; 42; 50]%Q)].

(** The close column of [flat] and each of its three Bollinger bands. *)
Definition flat_close : list cell := replicate 20 (Num 100).
Definition flat_band : list cell := replicate 19 NaN ++ [Num 100].

(** What [prepare_data] makes of [training]: the aligned matrix, the
    labels and the fitted scaler. *)
Definition training_X : DataFrame :=
  mkDataFrame (map Z.of_nat (seq 0 9))
    [("rsi", map Num [50; 52; 48; 55; 45; 60; 40; 58; 42]%Q)].

Definition training_y : list Z := [1; 0; 1; 0; 1; 0; 1; 0; 1]%Z.

Definition training_scaler : StandardScaler :=
  mkStandardScaler (Some ["rsi"]) [50%Q] [(386 # 9)%Q]
    [(3274480450731 # 500000000000)%Q].

End Candles.

(** ** TechnicalAnalyzer: peaks, troughs and the pattern
    (technical_analyzer.py, lines 19-77 and 238-260) *)

(** An entry of [patterns['peaks']] or [patterns['troughs']]. *)
Record Extremum : Type := mkExtremum {
  e_index : nat;
  e_price : cell;
  e_time : Z
}.

Record Patterns : Type := mkPatterns {
  peaks : list Extremum;
  troughs : list Extremum;
  pattern_type : string
}.

(** One pass of the loop of lines 40-47 (with [col] = "high" and [cmp] =
    [>]) or of lines 50-57 ("low" and [<]): the entries found so far, and
    whether the loop ran to its end ([false]: an exception was raised).
    The second comparison is only made when the first one holds. *)
Fixpoint extrema_loop (data : DataFrame) (col : string)
    (cmp : cell -> cell -> bool) (range : list nat) (found : list Extremum)
  : list Extremum * bool :=
  match range with
  | [] => (found, true)
  | i :: range' =>
      match
        series ← getitem data col;
        cur ← series !! i;
        prev ← series !! (i - 1);
        if cmp cur prev then
          nxt ← series !! (i + 1);
          if cmp cur nxt then
            price ← series !! i;
            time ← df_index data !! i;
            Some (found ++ [mkExtremum i price time])
          else Some found
        else Some found
      with
      | Some found' => extrema_loop data col cmp range' found'
      | None => (found, false)
      end
  end.

(** [a < b] on floats. *)
Definition flt (a b : cell) : bool := fgt b a.

(** Lines 60-70: the pattern type from the last peak and the last trough;
    [None] is an exception. *)
Definition classify_pattern (data : DataFrame) (pks trs : list Extremum)
  : option string :=
  match last pks, last trs with
  | Some last_peak, Some last_trough =>
      close ← getitem data "close";
      current_close ← last close;
      if fgt current_close (e_price last_peak) then Some "bullish_breakout"
      else if flt current_close (e_price last_trough) then Some "bearish_breakdown"
      else Some "consolidation"
  | _, _ => Some "none"
  end.

(** [identify_candle_patterns].  An exception ends the method with the
    dict as it stands at that point. *)
Definition identify_candle_patterns (data : DataFrame) : Patterns :=
  if (df_len data <? 3)%nat then mkPatterns [] [] "none"
  else
    let range := seq 1 (df_len data - 2) in
    let '(pks, ok) := extrema_loop data "high" fgt range [] in
    if negb ok then mkPatterns pks [] "none"
    else
      let '(trs, ok) := extrema_loop data "low" flt range [] in
      if negb ok then mkPatterns pks trs "none"
      else mkPatterns pks trs (default "none" (classify_pattern data pks trs)).

(** [series.max()] and [series.min()]: NaN entries are skipped; NaN when
    nothing is left. *)
Definition series_max (col : list cell) : cell :=
  fold_left (fun m x =>
               if isna x then m
               else if isna m then x
               else if fgt x m then x else m) col NaN.

Definition series_min (col : list cell) : cell :=
  fold_left (fun m x =>
               if isna x then m
               else if isna m then x
               else if flt x m then x else m) col NaN.

(** [series.mean()]: the mean of the entries that are not NaN. *)
Definition series_mean (col : list cell) : cell :=
  let kept := List.filter (fun x => negb (isna x)) col in
  match kept with
  | [] => NaN
  | _ => fdiv (fold_left fadd kept (Num 0)) (Num (Z.of_nat (length kept) # 1))
  end.

Record PriceStats : Type := mkPriceStats {
  highest_price : cell;
  lowest_price : cell;
  opening_price : cell;
  closing_price : cell;
  avg_price : cell
}.

(** The dict [get_peak_trough_analysis] returns: the patterns, the five
    price keys when the data is not empty, and [resistance] and [support]
    when they are set. *)
Record Analysis : Type := mkAnalysis {
  a_patterns : Patterns;
  a_stats : option PriceStats;
  a_resistance : option cell;
  a_support : option cell
}.

(** [get_peak_trough_analysis]; [None] is an exception, which this method
    does not catch. *)
Definition get_peak_trough_analysis (data : DataFrame) : option Analysis :=
  let analysis := identify_candle_patterns data in
  if (0 <? df_len data)%nat then
    high ← getitem data "high";
    low ← getitem data "low";
    open ← getitem data "open";
    opening ← head open;
    close ← getitem data "close";
    closing ← last close;
    let stats := mkPriceStats (series_max high) (series_min low) opening closing
                              (series_mean close) in
    let resistance :=
      if (2 <=? length (peaks analysis))%nat
      then e_price <$> last (peaks analysis) else None in
    let support :=
      if (2 <=? length (troughs analysis))%nat
      then e_price <$> last (troughs analysis) else None in
    Some (mkAnalysis analysis (Some stats) resistance support)
  else Some (mkAnalysis analysis None None None).

(** Row [i] of a column beats both its neighbours under [cmp]. *)
Definition is_extremum (cmp : cell -> cell -> bool) (series : list cell)
    (i : nat) : bool :=
  match series !! i, series !! (i - 1), series !! (i + 1) with
  | Some cur, Some prev, Some nxt => cmp cur prev && cmp cur nxt
  | _, _, _ => false
  end.

(** Row [i] is a local high of the column [high]. *)
Definition is_peak (high : list cell) (i : nat) : bool := is_extremum fgt high i.

(** Row [i] is a local low of the column [low]. *)
Definition is_trough (low : list cell) (i : nat) : bool := is_extremum flt low i.

(** What the loops record about an entry: its row, the value of the
    column there, and the time of the row. *)
Definition extremum_of (data : DataFrame) (cmp : cell -> cell -> bool)
    (series : list cell) (e : Extremum) : Prop :=
  1 <= e_index e /\ e_index e + 1 < df_len data /\
  is_extremum cmp series (e_index e) = true /\
  series !! e_index e = Some (e_price e) /\
  df_index data !! e_index e = Some (e_time e).

(** One step of a running maximum or minimum that skips NaN: [x]
    replaces the running value [m] when [better x m]. *)
Definition best_step (better : cell -> cell -> bool) (m x : cell) : cell :=
  if isna x then m else if isna m then x else if better x m then x else m.

(** ** PredictionEngine.get_prediction_summary (predictor.py, lines 111-137) *)

Record PredictionSummary : Type := mkSummary {
  total_predictions : nat;
  bull_signals : nat;
  bear_signals : nat;
  triggered_alerts : nat;
  average_confidence : cell;
  details : list Prediction
}.

Definition is_bull (p : Prediction) : bool :=
  match p_signal p with BULL => true | BEAR => false end.

Definition is_bear (p : Prediction) : bool :=
  match p_signal p with BEAR => true | BULL => false end.

(** [sum(1 for p in predictions if cond(p))] *)
Definition count_if {A : Type} (cond : A -> bool) (l : list A) : nat :=
  length (List.filter cond l).

(** [np.mean(values)]: NaN for an empty list (numpy warns and returns
    nan). *)
Definition np_mean (values : list Q) : cell :=
  match values with
  | [] => NaN
  | _ => Num (Qmean values)
  end.

(** [get_prediction_summary]; [None] is the method's [None]. *)
Definition get_prediction_summary (predictions : list Prediction)
  : option PredictionSummary :=
  let bull := count_if is_bull predictions in
  let bear := count_if is_bear predictions in
  let alerts := count_if p_alert_triggered predictions in
  let avg_confidence := np_mean (map p_confidence predictions) in
  Some (mkSummary (length predictions) bull bear alerts avg_confidence predictions).

(** [df.iloc[k:]]: the frame without its first [k] rows. *)
Definition df_drop (k : nat) (df : DataFrame) : DataFrame :=
  mkDataFrame (drop k (df_index df))
              (map (fun c : string * list cell => (c.1, drop k c.2)) (df_data df)).

(** Every classifier of the engine returns proper class probabilities. *)
Definition engine_binary_proba (self : PredictionEngine) : Prop :=
  forall a tr m, heap self !! a = Some tr -> model tr = Some m -> binary_proba m.

(** ** MLModelTrainer: create_model, train, evaluate, train_from_data
    (trainer.py, lines 101-176 and 217-259) *)

(** The three estimators [create_model] knows. *)
Inductive ModelKind : Type := XGBoost | RandomForest | SVM.

Definition kind_of_type (model_type : string) : option ModelKind :=
  if String.eqb model_type "xgboost" then Some XGBoost
  else if String.eqb model_type "random_forest" then Some RandomForest
  else if String.eqb model_type "svm" then Some SVM
  else None.

(** What [train_from_data] returns on success. *)
Record TrainingResult (Metrics : Type) : Type := mkTrainingResult {
  tr_status : string;
  tr_metrics : Metrics;
  tr_model_path : string
}.

Arguments mkTrainingResult {Metrics} _ _ _.
Arguments tr_status {Metrics} _.
Arguments tr_metrics {Metrics} _.
Arguments tr_model_path {Metrics} _.

(** [str(self.models_dir / f"{filename}_model.pkl")] with the directory of
    config.py. *)
Definition model_path (filename : string) : string :=
  "models/" +:+ filename +:+ "_model.pkl".

Section Training.

(** scikit-learn and xgboost, as the trainer uses them: the splitter, the
    estimator constructors with the parameters of lines 105-131, [fit]
    (the estimator after fitting, or [None] when it raises) and the
    metrics of lines 158-169 computed from the true and the predicted
    labels ([None] when one of them raises). *)
Variable train_test_split :
  forall (n_samples : nat) (test_size : Q) (random_state : Z)
         (stratify : list Z), option (list nat * list nat).
Variable make_estimator : ModelKind -> Classifier.
Variable fit : Classifier -> list (list cell) -> list Z -> option Classifier.
Variable Metrics : Type.
Variable metrics_of : list Z -> list Z -> option Metrics.

(** [create_model] *)
Definition create_model (self : MLModelTrainer) : MLModelTrainer * bool :=
  match kind_of_type (model_type self) with
  | Some kind =>
      (mkTrainer (model_type self) (Some (make_estimator kind)) (scaler self)
                 (feature_columns self), true)
  | None => (self, false)
  end.

(** [train] *)
Definition train (self : MLModelTrainer) (X_train : list (list cell))
    (y_train : list Z) : MLModelTrainer * bool :=
  match model self ≫= fun m => fit m X_train y_train with
  | Some fitted =>
      (mkTrainer (model_type self) (Some fitted) (scaler self)
                 (feature_columns self), true)
  | None => (self, false)
  end.

(** [evaluate] *)
Definition evaluate (self : MLModelTrainer) (X_test : list (list cell))
    (y_test : list Z) : option Metrics :=
  m ← model self;
  y_pred ← clf_predict m X_test;
  metrics_of y_test y_pred.

(** [train_from_data]: the trainer and the models directory after the
    call, and the result dict or [None]. *)
Definition train_from_data (self : MLModelTrainer) (fs : ModelsDir)
    (data : DataFrame) (filename : string)
  : MLModelTrainer * ModelsDir * option (TrainingResult Metrics) :=
  let '(self, prepared) := prepare_data train_test_split self data TRAIN_TEST_SPLIT in
  match prepared with
  | None => (self, fs, None)
  | Some (X_train, X_test, y_train, y_test) =>
      let '(self, created) := create_model self in
      if negb created then (self, fs, None)
      else
        let '(self, trained) := train self X_train y_train in
        if negb trained then (self, fs, None)
        else
          match evaluate self X_test y_test with
          | None => (self, fs, None)
          | Some metrics =>
              let '(fs, saved) := save_model self fs filename in
              if negb saved then (self, fs, None)
              else (self, fs,
                    Some (mkTrainingResult "success" metrics (model_path filename)))
          end
  end.

End Training.

(** ** Backtester (backtest.py) *)

Record BacktestMetrics : Type := mkBacktestMetrics {
  win_rate : Q;
  total_correct : nat;
  bull_predictions : nat;
  bear_predictions : nat;
  bull_actuals : nat;
  bear_actuals : nat;
  bull_precision : Q;
  bear_precision : Q;
  bull_recall : Q;
  bear_recall : Q;
  avg_confidence : cell;
  high_confidence_trades : nat;
  high_conf_win_rate : Q
}.

(** [num / den if den > 0 else 0] *)
Definition ratio_or_zero (num den : nat) : Q :=
  if (0 <? den)%nat then Qred ((Z.of_nat num # 1) / (Z.of_nat den # 1)) else 0%Q.

(** [np.sum(cond(predictions, actuals))] for an elementwise condition. *)
Definition count_pairs (cond : Z -> Z -> bool) (predictions actuals : list Z) : nat :=
  count_if (fun pa : Z * Z => cond pa.1 pa.2) (zip predictions actuals).

(** The fixed threshold of lines 142-143. *)
Definition HIGH_CONFIDENCE : Q := (7 # 10)%Q.

Definition is_high (c : Q) : bool := Qle_bool HIGH_CONFIDENCE c.

(** [_calculate_backtest_metrics] (lines 111-163), for the three lists of
    equal length that [backtest_model] hands over. *)
Definition calculate_backtest_metrics (predictions actuals : list Z)
    (confidences : list Q) : BacktestMetrics :=
  let correct := count_pairs Z.eqb predictions actuals in
  let bull_predictions := count_if (Z.eqb 1) predictions in
  let bear_predictions := count_if (Z.eqb 0) predictions in
  let bull_actuals := count_if (Z.eqb 1) actuals in
  let bear_actuals := count_if (Z.eqb 0) actuals in
  let bull_tp := count_pairs (fun p a => (p =? 1)%Z && (a =? 1)%Z) predictions actuals in
  let bear_tp := count_pairs (fun p a => (p =? 0)%Z && (a =? 0)%Z) predictions actuals in
  let high_confidence_trades := count_if is_high confidences in
  let high_conf_correct :=
    count_if (fun pac : Z * Z * Q => (pac.1.1 =? pac.1.2)%Z && is_high pac.2)
             (zip (zip predictions actuals) confidences) in
  mkBacktestMetrics
    (ratio_or_zero correct (length predictions))
    correct bull_predictions bear_predictions bull_actuals bear_actuals
    (ratio_or_zero bull_tp bull_predictions)
    (ratio_or_zero bear_tp bear_predictions)
    (ratio_or_zero bull_tp bull_actuals)
    (ratio_or_zero bear_tp bear_actuals)
    (np_mean confidences)
    high_confidence_trades
    (ratio_or_zero high_conf_correct high_confidence_trades).

(** [features.iloc[[i]]]: row [i] as a one-row frame; [None] is
    IndexError. *)
Definition iloc_row (data : DataFrame) (i : nat) : option DataFrame :=
  t ← df_index data !! i;
  cols ← mapM (fun c : string * list cell =>
                 v ← c.2 !! i; Some (c.1, [v])) (df_data data);
  Some (mkDataFrame [t] cols).

(** The body of the loop of lines 62-96 for row [i]: the prediction, the
    actual label and the confidence, or [None] when the row raises and is
    skipped. *)
Definition backtest_row (tr : MLModelTrainer) (features : DataFrame) (i : nat)
  : option (Z * Z * Q) :=
  row_features ← iloc_row features i;
  close ← getitem features "close";
  nxt ← close !! (i + 1);
  cur ← close !! i;
  let actual := if fgt nxt cur then 1%Z else 0%Z in
  let feature_cols := feature_cols_of (df_columns row_features) in
  X ← getitems row_features feature_cols;
  sc ← scaler tr;
  X_scaled ← scalerobj_transform sc X;
  m ← model tr;
  pred ← clf_predict m X_scaled ≫= head;
  conf ← predict_confidence m X_scaled;
  Some (pred, actual, conf).

(** The loop: the three lists grow together. *)
Fixpoint backtest_loop (tr : MLModelTrainer) (features : DataFrame)
    (range : list nat) (predictions actuals : list Z) (confidences : list Q)
  : list Z * list Z * list Q :=
  match range with
  | [] => (predictions, actuals, confidences)
  | i :: range' =>
      match backtest_row tr features i with
      | Some (pred, actual, conf) =>
          backtest_loop tr features range'
            (predictions ++ [pred]) (actuals ++ [actual]) (confidences ++ [conf])
      | None => backtest_loop tr features range' predictions actuals confidences
      end
  end.

Record BacktestResult : Type := mkBacktestResult {
  bt_metrics : BacktestMetrics;
  total_backtests : nat;
  bt_ticker : string;
  bt_period : string
}.

Section Backtester.

Variable ta : TALib.

(** [backtest_model].  [fetched] is what the data collector returns for
    the ticker ([None]: nothing fetched); the result is [None] when the
    method returns [None]. *)
Definition backtest_model (fs : ModelsDir) (trainer : MLModelTrainer)
    (fetched : option DataFrame) (ticker model_name period : string)
  : MLModelTrainer * option BacktestResult :=
  let '(trainer, loaded) := load_model fs trainer model_name in
  if negb loaded then (trainer, None)
  else
    (trainer,
     data ← fetched;
     if (df_len data <? 100)%nat then None
     else
       features ← extract_all_features ta data;
       let '(predictions, actuals, confidences) :=
         backtest_loop trainer features (seq 0 (df_len features - 1)) [] [] [] in
       Some (mkBacktestResult
               (calculate_backtest_metrics predictions actuals confidences)
               (length predictions) ticker period)).

End Backtester.

(** ** NSEPredictionAgent (agent.py) *)

Section Agent.

Variable ta : TALib.

(** [DataCollector.get_previous_day_data] by ticker: what the data
    service delivers for the previous day; [None] is the method's
    [None]. *)
Variable get_previous_day_data : string -> option DataFrame.

(** The loop of lines 128-148 of [analyze_and_predict] over
    [instruments.items()]; [None] is an exception, which ends the method
    in its [except] branch. *)
Fixpoint collect_previous_day (instruments : list (string * string))
    (data_dict : list (string * DataFrame))
  : option (list (string * DataFrame)) :=
  match instruments with
  | [] => Some data_dict
  | (name, ticker) :: instruments' =>
      match get_previous_day_data ticker with
      | None => collect_previous_day instruments' data_dict
      | Some prev_day_data =>
          if (df_len prev_day_data =? 0)%nat
          then collect_previous_day instruments' data_dict
          else
            peak_analysis ← get_peak_trough_analysis prev_day_data;
            match extract_all_features ta prev_day_data with
            | Some features_data =>
                if (0 <? df_len features_data)%nat
                then collect_previous_day instruments'
                       (assoc_set name features_data data_dict)
                else collect_previous_day instruments' data_dict
            | None => collect_previous_day instruments' data_dict
            end
      end
  end.

(** [analyze_and_predict]; [None] is the method's [None]. *)
Definition analyze_and_predict (predictor : PredictionEngine)
    (instruments : list (string * string)) : option PredictionSummary :=
  data_dict ← collect_previous_day instruments [];
  match data_dict with
  | [] => None
  | _ =>
      let predictions := predict_batch predictor data_dict PREDICTION_THRESHOLD in
      get_prediction_summary predictions
  end.

(** [send_alerts] (lines 185-194) and the guard of [run_full_pipeline]
    (line 213): whether [send_all_alerts] is called with the summary. *)
Definition send_alerts_called (predictions : option PredictionSummary) : bool :=
  match predictions with
  | Some summary => (0 <? triggered_alerts summary)%nat
  | None => false
  end.

End Agent.

(** ** Utilities (utils.py) *)

(** The coloured mark that goes with a label. *)
Inductive Mark : Type := Green | Yellow | Red | White.

(** [MarketUtils.get_market_sentiment] *)
Definition get_market_sentiment (bull_signals bear_signals : nat) : string * Mark :=
  if (bull_signals =? 0)%nat && (bear_signals =? 0)%nat then ("Neutral", White)
  else
    let total := bull_signals + bear_signals in
    let bull_ratio := ((Z.of_nat bull_signals # 1) / (Z.of_nat total # 1))%Q in
    if Qlt_bool (65 # 100) bull_ratio then ("Strongly Bullish", Green)
    else if Qlt_bool (50 # 100) bull_ratio then ("Bullish", Green)
    else if Qlt_bool (35 # 100) bull_ratio then ("Bearish", Red)
    else ("Strongly Bearish", Red).

(** [MetricsUtils.get_confidence_interpretation] *)
Definition get_confidence_interpretation (confidence : Q) : string * Mark :=
  let confidence_pct := (confidence * 100)%Q in
  if Qle_bool 80 confidence_pct then ("Very High", Green)
  else if Qle_bool 70 confidence_pct then ("High", Green)
  else if Qle_bool 60 confidence_pct then ("Moderate", Yellow)
  else if Qle_bool 50 confidence_pct then ("Low", Red)
  else ("Very Low", Red).

(** The indicator calls of the analyzer return arrays as long as the
    close prices they are given, as TA-Lib does. *)
Definition ta_lengths (ta : TALib) : Prop :=
  forall close : list cell,
    length (SMA ta close 20) = length close /\
    length (SMA ta close 50) = length close /\
    length (RSI ta close 14) = length close /\
    (let '(macd, signal, histogram) := MACD ta close 12 26 9 in
     length macd = length close /\ length signal = length close /\
     length histogram = length close) /\
    (let '(upper, middle, lower) := BBANDS ta close 20 2 2 in
     length upper = length close /\ length middle = length close /\
     length lower = length close).

(** ** Further sample inputs *)

Module Fixtures.

(** Ten candles that move up and down, with their high and low columns. *)
Definition choppy_df : DataFrame := candles_df (Candles.choppy 10).

Definition choppy_high : list cell :=
  map (fun c => Num (c_high c)) (Candles.choppy 10).

Definition choppy_low : list cell :=
  map (fun c => Num (c_low c)) (Candles.choppy 10).

(** Five rising candles and their high column. *)
Definition rising_df : DataFrame := candles_df (Candles.rising 5).

Definition rising_high : list cell :=
  map (fun c => Num (c_high c)) (Candles.rising 5).

(** A scaler fitted on a table with the full feature schema, and an
    artifact with it. *)
Definition full_scaler : StandardScaler :=
  mkStandardScaler (Some feature_schema)
    (replicate 13 0%Q) (replicate 13 1%Q) (replicate 13 1%Q).

Definition full_models_dir : ModelsDir :=
  mkModelsDir
    {[ "nifty50_model" := Some (Sample.constant_clf 1 [(3 # 10); (7 # 10)]%Q) ]}
    {[ "nifty50_model" := Some (Fitted full_scaler) ]}
    {[ "nifty50_model" := feature_schema ]}.

(** The engine after [load_model("NIFTY50", "nifty50_model")] from that
    directory. *)
Definition full_engine : PredictionEngine :=
  (engine_load_model full_models_dir PredictionEngine_init
     "NIFTY50" "nifty50_model").1.

(** [config.INSTRUMENTS], and a data service that delivers five candles
    for the first ticker and nothing for the second. *)
Definition instruments : list (string * string) :=
  [("NIFTY50", "^NSEI"); ("BANKNIFTY", "^NSEBANK")].

Definition previous_day (ticker : string) : option DataFrame :=
  if String.eqb ticker "^NSEI" then Some rising_df else None.

(** Stand-ins for the estimators: fitting gives a classifier that always
    answers the first training label, and the metric is the number of
    correct test predictions. *)
Definition make_estimator (kind : ModelKind) : Classifier := Sample.bare_clf 0.

Definition fit (m : Classifier) (X : list (list cell)) (y : list Z)
  : option Classifier :=
  Some (Sample.constant_clf (default 0%Z (head y)) [(1 # 2); (1 # 2)]%Q).

Definition metrics_of (y_test y_pred : list Z) : option nat :=
  Some (count_pairs Z.eqb y_pred y_test).

(** A table of one row. *)
Definition one_row : DataFrame := df_take 1 Sample.features.

(** The trainer object of [Sample.engine1]. *)
Definition nifty_trainer : MLModelTrainer :=
  (load_model Sample.models_dir MLModelTrainer_init "nifty50_model").1.

End Fixtures.

(** * Properties *)

(** ** Comparisons on cells *)

Lemma Qlt_bool_iff (x y : Q) : Qlt_bool x y = true <-> (x < y)%Q.
Proof.
  unfold Qlt_bool. rewrite negb_true_iff, <- not_true_iff_false, Qle_bool_iff.
  split; [apply Qnot_le_lt | apply Qlt_not_le].
Qed.

Lemma fgt_Num (x y : Q) : fgt (Num x) (Num y) = true <-> (y < x)%Q.
Proof. apply Qlt_bool_iff. Qed.

(** ** Label builder *)

Section Labels.

Variable data : DataFrame.
Variable close : list cell.
Hypothesis Hclose : getitem data "close" = Some close.

Lemma create_labels_loop_spec (range : list nat) (labels : list Z) :
  Forall (fun i => i + 1 < length close) range ->
  exists new, mapM (label_at close) range = Some new /\
    create_labels_loop data range labels = Some (labels ++ new).
Proof.
  revert labels. induction range as [|i range IH]; intros labels Hr.
  - exists []. by rewrite app_nil_r.
  - inversion Hr as [|? ? Hi Hr']; subst.
    destruct (lookup_lt_is_Some_2 close (i + 1) Hi) as [nxt Hn].
    destruct (lookup_lt_is_Some_2 close i ltac:(lia)) as [cur Hc].
    destruct (IH (labels ++ [if fgt nxt cur then BULL_LABEL else BEAR_LABEL]) Hr')
      as (new & Hnew & Hloop).
    exists ((if fgt nxt cur then BULL_LABEL else BEAR_LABEL) :: new). split.
    + assert (Hi' : label_at close i
                    = Some (if fgt nxt cur then BULL_LABEL else BEAR_LABEL)).
      { unfold label_at. by rewrite Hn, Hc. }
      change (mapM (label_at close) (i :: range))
        with (y ← label_at close i; k ← mapM (label_at close) range; mret (y :: k)).
      by rewrite Hi', Hnew.
    + change (create_labels_loop data (i :: range) labels)
        with (close ← getitem data "close";
              nxt ← close !! (i + 1);
              cur ← close !! i;
              create_labels_loop data range
                (labels ++ [if fgt nxt cur then BULL_LABEL else BEAR_LABEL])).
      rewrite Hclose. cbn [mbind option_bind]. rewrite Hn, Hc.
      cbn [mbind option_bind]. rewrite Hloop. by rewrite <- app_assoc.
Qed.

End Labels.

Lemma create_labels_loop_length (data : DataFrame) (range : list nat)
    (labels out : list Z) :
  create_labels_loop data range labels = Some out ->
  length out = length labels + length range.
Proof.
  revert labels. induction range as [|i range IH]; intros labels H; cbn in H.
  - injection H as <-. cbn. lia.
  - destruct (getitem data "close") as [close|]; [cbn in H|done].
    destruct (close !! (i + 1)) as [nxt|]; [cbn in H|done].
    destruct (close !! i) as [cur|]; [cbn in H|done].
    apply IH in H. rewrite length_app in H. cbn in *. lia.
Qed.

Lemma create_labels_length (data : DataFrame) (y : list Z) :
  create_labels data = Some y -> length y = df_len data - 1.
Proof.
  intros H. apply create_labels_loop_length in H.
  rewrite length_seq in H. cbn in H. lia.
Qed.

(** C5. For a feature table of [n] rows with a [close] column,
    [create_labels] returns [n - 1] labels, and label [i] is 1 exactly when
    [close[i+1] > close[i]] and 0 otherwise. *)
Theorem create_labels_correct (data : DataFrame) (close : list cell) :
  getitem data "close" = Some close ->
  length close = df_len data ->
  exists labels,
    create_labels data = Some labels /\
    length labels = df_len data - 1 /\
    forall i, i < df_len data - 1 ->
      exists cur nxt,
        close !! i = Some cur /\ close !! (i + 1) = Some nxt /\
        (labels !! i = Some 1%Z <-> fgt nxt cur = true) /\
        (labels !! i = Some 0%Z <-> fgt nxt cur = false).
Proof.
  intros Hclose Hlen.
  destruct (create_labels_loop_spec data close Hclose (seq 0 (df_len data - 1)) [])
    as (new & Hnew & Hloop).
  { apply Forall_forall. intros i Hi. apply elem_of_seq in Hi. lia. }
  exists new. cbn in Hloop. split; [exact Hloop|].
  split; [by apply create_labels_length|].
  intros i Hi.
  destruct (lookup_lt_is_Some_2 close i ltac:(lia)) as [cur Hc].
  destruct (lookup_lt_is_Some_2 close (i + 1) ltac:(lia)) as [nxt Hn].
  exists cur, nxt. split; [done|]. split; [done|].
  assert (Hl : new !! i = Some (if fgt nxt cur then BULL_LABEL else BEAR_LABEL)).
  { apply mapM_Some in Hnew.
    assert (Hs : seq 0 (df_len data - 1) !! i = Some i).
    { rewrite lookup_seq. split; [done|lia]. }
    destruct (Forall2_lookup_l _ _ _ _ _ Hnew Hs) as (l & Hl & Hlab).
    unfold label_at in Hlab. rewrite Hn, Hc in Hlab. cbn in Hlab.
    by injection Hlab as <-. }
  rewrite Hl. unfold BULL_LABEL, BEAR_LABEL.
  destruct (fgt nxt cur); split; split; intros H; try done.
Qed.

(** ** Frames: columns, rows and [dropna] *)

Lemma assoc_elem_of {A : Type} (name : string) (l : list (string * A)) :
  name ∈ l.*1 -> is_Some (assoc name l).
Proof.
  induction l as [|[k v] l IH]; cbn; intros H.
  - by apply elem_of_nil in H.
  - destruct (String.eqb_spec k name) as [->|Hne]; [by eexists|].
    apply IH. apply elem_of_cons in H as [H|H]; [congruence|done].
Qed.

Lemma feature_cols_of_subseteq (columns : list string) (col : string) :
  col ∈ feature_cols_of columns -> col ∈ columns.
Proof.
  unfold feature_cols_of. rewrite !list_elem_of_In, filter_In.
  by intros [H _].
Qed.

Lemma getitems_is_Some (df : DataFrame) (names : list string) :
  Forall (fun n => n ∈ df_columns df) names ->
  exists X, getitems df names = Some X /\
    df_index X = df_index df /\ df_columns X = names.
Proof.
  intros Hn. unfold getitems.
  assert (H : exists cols, mapM (fun n => pair n <$> getitem df n) names = Some cols
                           /\ cols.*1 = names).
  { induction Hn as [|n names Hn _ (cols & Hc & Hcols)].
    - by exists [].
    - destruct (assoc_elem_of n (df_data df) Hn) as [col Hcol].
      exists ((n, col) :: cols). split; [|cbn; by rewrite Hcols].
      change (mapM (fun n0 => pair n0 <$> getitem df n0) (n :: names))
        with (y ← pair n <$> getitem df n;
              k ← mapM (fun n0 => pair n0 <$> getitem df n0) names; mret (y :: k)).
      assert (Hg : getitem df n = Some col) by exact Hcol.
      by rewrite Hg, Hc. }
  destruct H as (cols & -> & Hcols). eexists. split; [done|]. by split.
Qed.

Lemma mask_length_le {A : Type} (keep : list bool) (l : list A) :
  length (mask keep l) <= length l.
Proof.
  revert l. induction keep as [|k keep IH]; intros [|x l]; cbn; try lia.
  destruct k; cbn; specialize (IH l); lia.
Qed.

Lemma df_len_dropna_le (df : DataFrame) : df_len (dropna df) <= df_len df.
Proof. apply mask_length_le. Qed.

(** A value that survives [mask] sat at a position the mask keeps. *)
Lemma mask_Forall {A : Type} (P : A -> Prop) (keep : list bool) (l : list A) :
  (forall i x, keep !! i = Some true -> l !! i = Some x -> P x) ->
  Forall P (mask keep l).
Proof.
  revert l. induction keep as [|k keep IH]; intros [|x l] H; cbn; try constructor.
  destruct k.
  - constructor; [by apply (H 0)|]. apply IH. intros i y. apply (H (S i)).
  - apply IH. intros i y. apply (H (S i)).
Qed.

Lemma row_has_na_false (df : DataFrame) (i : nat) (name : string)
    (col : list cell) (c : cell) :
  row_has_na df i = false -> (name, col) ∈ df_data df -> col !! i = Some c ->
  isna c = false.
Proof.
  unfold row_has_na. intros H Hin Hc.
  destruct (isna c) eqn:Hna; [|done].
  rewrite <- H. symmetry. apply existsb_exists.
  exists (name, col). split; [by apply list_elem_of_In|]. cbn. by rewrite Hc.
Qed.

(** No column of [df.dropna()] holds a NaN. *)
Lemma dropna_no_na (df : DataFrame) (name : string) (col : list cell) :
  (name, col) ∈ df_data (dropna df) -> Forall (fun c => isna c = false) col.
Proof.
  unfold dropna; cbn. intros H.
  apply list_elem_of_fmap in H as ([n c0] & Heq & Hin). cbn in Heq.
  injection Heq as -> ->.
  apply mask_Forall. intros i x Hk Hx.
  unfold dropna_keep in Hk. rewrite list_lookup_fmap in Hk.
  destruct (seq 0 (df_len df) !! i) as [j|] eqn:Hj; [cbn in Hk|done].
  apply lookup_seq in Hj as [-> _]. cbn in Hk.
  injection Hk as Hk. apply negb_true_iff in Hk.
  by eapply row_has_na_false.
Qed.

Lemma dropna_columns (df : DataFrame) : df_columns (dropna df) = df_columns df.
Proof.
  unfold df_columns, dropna; cbn. rewrite <- list_fmap_compose.
  by apply list_fmap_ext.
Qed.

Lemma df_len_take (k : nat) (df : DataFrame) :
  df_len (df_take k df) = Nat.min k (df_len df).
Proof. unfold df_len, df_take; cbn. apply length_take. Qed.

(** ** Alignment of features and labels *)

(** C6. Before the split, [prepare_data] leaves the feature matrix and
    the label vector with the same number of rows, the smaller of the two
    numbers they had; each is a prefix of what it was. *)
Theorem aligned_data_lengths (data : DataFrame) (y_raw : list Z) :
  create_labels data = Some y_raw ->
  exists X_raw X y,
    getitems data (feature_cols_of (df_columns data)) = Some X_raw /\
    aligned_data data = Some (X, y) /\
    df_len X = length y /\
    length y = Nat.min (df_len (dropna X_raw)) (length y_raw) /\
    df_index X = take (length y) (df_index (dropna X_raw)) /\
    y = take (length y) y_raw.
Proof.
  intros Hy.
  destruct (getitems_is_Some data (feature_cols_of (df_columns data)))
    as (X_raw & HX & Hidx & _).
  { apply Forall_forall. intros n. apply feature_cols_of_subseteq. }
  exists X_raw. unfold aligned_data. rewrite HX, Hy. cbn [mbind option_bind].
  eexists _, _. split; [done|]. split; [done|].
  pose proof (create_labels_length _ _ Hy) as Hly.
  pose proof (df_len_dropna_le X_raw) as Hle.
  assert (Hn : df_len X_raw = df_len data) by (unfold df_len; by rewrite Hidx).
  unfold align_X, align_y.
  destruct (Nat.ltb_spec (length y_raw) (df_len (dropna X_raw))) as [Hlt|Hge].
  - assert (Hlen : df_len (df_take (df_len (dropna X_raw) - 1) (dropna X_raw))
                   = length y_raw).
    { rewrite df_len_take. lia. }
    rewrite Hlen. rewrite Nat.ltb_irrefl.
    repeat split; try lia.
    + unfold df_take at 1. cbn [df_index]. f_equal. lia.
    + by rewrite firstn_all.
  - destruct (Nat.ltb_spec (df_len (dropna X_raw)) (length y_raw)) as [Hlt|Hge'].
    + rewrite length_take. repeat split; try lia.
      * replace (df_len (dropna X_raw) `min` length y_raw)
          with (df_len (dropna X_raw)) by lia.
        unfold df_len. by rewrite firstn_all.
      * f_equal. lia.
    + assert (df_len (dropna X_raw) = length y_raw) as Heq by lia.
      repeat split; try lia.
      * rewrite <- Heq. unfold df_len. by rewrite firstn_all.
      * by rewrite firstn_all.
Qed.

(** ** Prediction engine *)

(** What a successful [predict_next_day] went through. *)
Lemma predict_next_day_Some (self : PredictionEngine) (data : DataFrame)
    (instrument : string) (t : Q) (r : Prediction) :
  predict_next_day self data instrument t = Some r <->
  exists a tr feature_cols X sc X_scaled m preds prediction confidence ts,
    models self !! instrument = Some a /\
    heap self !! a = Some tr /\
    predict_feature_cols data = Some feature_cols /\
    predict_features data = Some X /\
    scaler tr = Some sc /\
    scalerobj_transform sc X = Some X_scaled /\
    model tr = Some m /\
    clf_predict m X_scaled = Some preds /\
    head preds = Some prediction /\
    predict_confidence m X_scaled = Some confidence /\
    last (df_index data) = Some ts /\
    r = mkPrediction instrument (if (prediction =? 1)%Z then BULL else BEAR)
          prediction confidence (Qle_bool t confidence) ts feature_cols.
Proof.
  unfold predict_next_day. split.
  - intros H.
    destruct (models self !! instrument) as [a|] eqn:E1; [cbn in H|done].
    destruct (heap self !! a) as [tr|] eqn:E2; [cbn in H|done].
    destruct (predict_feature_cols data) as [fc|] eqn:E3; [cbn in H|done].
    destruct (predict_features data) as [X|] eqn:E4; [cbn in H|done].
    destruct (scaler tr) as [sc|] eqn:E5; [cbn in H|done].
    destruct (scalerobj_transform sc X) as [Xs|] eqn:E6; [cbn in H|done].
    destruct (model tr) as [m|] eqn:E7; [cbn in H|done].
    destruct (clf_predict m Xs) as [preds|] eqn:E8; [cbn in H|done].
    destruct (head preds) as [pred|] eqn:E9; [cbn in H|done].
    destruct (predict_confidence m Xs) as [conf|] eqn:E10; [cbn in H|done].
    destruct (last (df_index data)) as [ts|] eqn:E11; [cbn in H|done].
    injection H as <-.
    exists a, tr, fc, X, sc, Xs, m, preds, pred, conf, ts. repeat split; done.
  - intros (a & tr & fc & X & sc & Xs & m & preds & pred & conf & ts
            & Ha & Htr & Hfc & HX & Hsc & HXs & Hm & Hp & Hh & Hc & Hts & ->).
    rewrite Ha; cbn [mbind option_bind]. rewrite Htr; cbn [mbind option_bind].
    rewrite Hfc; cbn [mbind option_bind]. rewrite HX; cbn [mbind option_bind].
    rewrite Hsc; cbn [mbind option_bind]. rewrite HXs; cbn [mbind option_bind].
    rewrite Hm; cbn [mbind option_bind]. rewrite Hp; cbn [mbind option_bind].
    rewrite Hh; cbn [mbind option_bind]. rewrite Hc; cbn [mbind option_bind].
    by rewrite Hts.
Qed.

(** The threshold only decides the alert flag. *)
Lemma predict_next_day_threshold (self : PredictionEngine) (data : DataFrame)
    (instrument : string) (t t' : Q) (r : Prediction) :
  predict_next_day self data instrument t = Some r ->
  p_alert_triggered r = Qle_bool t (p_confidence r) /\
  predict_next_day self data instrument t'
  = Some (mkPrediction (p_instrument r) (p_signal r) (p_prediction r)
            (p_confidence r) (Qle_bool t' (p_confidence r)) (p_timestamp r)
            (p_features_used r)).
Proof.
  intros H. apply predict_next_day_Some in H
    as (a & tr & fc & X & sc & Xs & m & preds & pred & conf & ts
        & Ha & Htr & Hfc & HX & Hsc & HXs & Hm & Hp & Hh & Hc & Hts & ->).
  split; [done|]. apply predict_next_day_Some.
  exists a, tr, fc, X, sc, Xs, m, preds, pred, conf, ts. repeat split; done.
Qed.

(** The loop of [predict_batch] keeps the results in order and drops the
    failures. *)
Lemma predict_batch_loop_omap (self : PredictionEngine)
    (items : list (string * DataFrame)) (t : Q) (acc : list Prediction) :
  predict_batch_loop self items t acc
  = acc ++ omap (fun item => predict_next_day self item.2 item.1 t) items.
Proof.
  revert acc. induction items as [|[instrument data] items IH]; intros acc; cbn.
  - by rewrite app_nil_r.
  - rewrite IH. destruct (predict_next_day self data instrument t); [|done].
    by rewrite <- app_assoc.
Qed.

Lemma predict_batch_omap (self : PredictionEngine)
    (data_dict : list (string * DataFrame)) (t : Q) :
  predict_batch self data_dict t
  = omap (fun item => predict_next_day self item.2 item.1 t) data_dict.
Proof. unfold predict_batch. by rewrite predict_batch_loop_omap. Qed.

Lemma elem_of_predict_batch (self : PredictionEngine)
    (data_dict : list (string * DataFrame)) (t : Q) (r : Prediction) :
  r ∈ predict_batch self data_dict t <->
  exists instrument data,
    (instrument, data) ∈ data_dict /\
    predict_next_day self data instrument t = Some r.
Proof.
  rewrite predict_batch_omap, list_elem_of_omap. split.
  - intros ([instrument data] & Hin & H). by exists instrument, data.
  - intros (instrument & data & Hin & H). by exists (instrument, data).
Qed.

(** C9. [predict_batch] returns, in the order of the dict, exactly the
    results of the instruments for which [predict_next_day] succeeds: a
    failure ends nothing and adds nothing, and every result belongs to an
    instrument with a model bound. *)
Theorem predict_batch_isolates_failures (self : PredictionEngine)
    (data_dict : list (string * DataFrame)) (t : Q) :
  predict_batch self data_dict t
  = omap (fun item => predict_next_day self item.2 item.1 t) data_dict /\
  (forall r, r ∈ predict_batch self data_dict t <->
     exists instrument data,
       (instrument, data) ∈ data_dict /\
       predict_next_day self data instrument t = Some r) /\
  (forall before instrument data after,
     data_dict = before ++ (instrument, data) :: after ->
     predict_batch self data_dict t
     = predict_batch self before t
       ++ option_list (predict_next_day self data instrument t)
       ++ predict_batch self after t) /\
  (forall r, r ∈ predict_batch self data_dict t ->
     is_Some (models self !! p_instrument r)).
Proof.
  split; [apply predict_batch_omap|].
  split; [apply elem_of_predict_batch|]. split.
  - intros before instrument data after ->.
    rewrite !predict_batch_omap, omap_app. cbn.
    by destruct (predict_next_day self data instrument t).
  - intros r Hr. apply elem_of_predict_batch in Hr as (instrument & data & _ & H).
    apply predict_next_day_Some in H
      as (a & tr & fc & X & sc & Xs & m & preds & pred & conf & ts
          & Ha & _ & _ & _ & _ & _ & _ & _ & _ & _ & _ & ->).
    cbn. by eexists.
Qed.

(** C8. With the table, the instrument and the engine fixed, a prediction
    that raises an alert at threshold [t2] raises it at every threshold
    [t1 <= t2], with the same signal and confidence; and the instruments
    alerted by a batch at [t2] are among those alerted at [t1]. *)
Theorem alert_monotone (self : PredictionEngine) (t1 t2 : Q) :
  (t1 <= t2)%Q ->
  (forall data instrument r2,
     predict_next_day self data instrument t2 = Some r2 ->
     p_alert_triggered r2 = true ->
     exists r1,
       predict_next_day self data instrument t1 = Some r1 /\
       p_alert_triggered r1 = true /\
       p_signal r1 = p_signal r2 /\ p_confidence r1 = p_confidence r2) /\
  (forall data_dict instrument,
     instrument ∈ alerted (predict_batch self data_dict t2) ->
     instrument ∈ alerted (predict_batch self data_dict t1)).
Proof.
  intros Hle.
  assert (Hone : forall data instrument r2,
    predict_next_day self data instrument t2 = Some r2 ->
    p_alert_triggered r2 = true ->
    exists r1,
      predict_next_day self data instrument t1 = Some r1 /\
      p_alert_triggered r1 = true /\ p_instrument r1 = p_instrument r2 /\
      p_signal r1 = p_signal r2 /\ p_confidence r1 = p_confidence r2).
  { intros data instrument r2 H Halert.
    destruct (predict_next_day_threshold _ _ _ _ t1 _ H) as [Ha H1].
    eexists. split; [exact H1|]. cbn. repeat split.
    rewrite Ha in Halert. apply Qle_bool_iff in Halert.
    apply Qle_bool_iff. by eapply Qle_trans. }
  split.
  - intros data instrument r2 H Halert.
    destruct (Hone _ _ _ H Halert) as (r1 & ? & ? & ? & ? & ?). by exists r1.
  - intros data_dict instrument. unfold alerted.
    rewrite !list_elem_of_fmap.
    intros (r2 & -> & Hr2). apply list_elem_of_In, filter_In in Hr2 as [Hr2 Halert].
    apply list_elem_of_In, elem_of_predict_batch in Hr2 as (i & data & Hin & H).
    destruct (Hone _ _ _ H Halert) as (r1 & H1 & Ha1 & Hi1 & _).
    exists r1. split; [done|].
    apply list_elem_of_In, filter_In. split; [|done].
    apply list_elem_of_In, elem_of_predict_batch. by exists i, data.
Qed.

(** *** Confidence *)

Lemma Qmax_list_proba_row (p : list Q) (c : Q) :
  proba_row p -> Qmax_list p = Some c -> (1 # 2 <= c)%Q.
Proof.
  intros (p0 & p1 & -> & H0 & H1 & Hsum). cbn.
  destruct (Qlt_bool p0 p1) eqn:Hlt; intros [= <-].
  - apply Qlt_bool_iff in Hlt. lra.
  - apply not_true_iff_false in Hlt. rewrite Qlt_bool_iff in Hlt.
    apply Qnot_lt_le in Hlt. lra.
Qed.

Lemma predict_confidence_half (m : Classifier) (X_scaled : list (list cell)) (c : Q) :
  binary_proba m -> predict_confidence m X_scaled = Some c -> (1 # 2 <= c)%Q.
Proof.
  unfold predict_confidence. intros Hm.
  destruct (clf_predict_proba m) as [pp|] eqn:Hpp.
  - destruct (pp X_scaled) as [probs|] eqn:Hprobs; [cbn|done].
    destruct probs as [|p probs]; [done|cbn].
    apply Qmax_list_proba_row.
    specialize (Hm pp X_scaled _ Hpp Hprobs). by inversion Hm.
  - intros [= <-]. lra.
Qed.

(** C10. When the classifier bound to the instrument returns two
    non-negative class probabilities that sum to one (or has no
    [predict_proba] at all), a prediction that is returned has confidence
    at least 0.5, and its alert flag is set for every threshold up to
    0.5. *)
Theorem confidence_at_least_half (self : PredictionEngine) (data : DataFrame)
    (instrument : string) (t : Q) (r : Prediction) :
  (forall a tr m,
     models self !! instrument = Some a -> heap self !! a = Some tr ->
     model tr = Some m -> binary_proba m) ->
  predict_next_day self data instrument t = Some r ->
  (1 # 2 <= p_confidence r)%Q /\
  ((t <= 1 # 2)%Q -> p_alert_triggered r = true).
Proof.
  intros Hm H. apply predict_next_day_Some in H
    as (a & tr & fc & X & sc & Xs & m & preds & pred & conf & ts
        & Ha & Htr & _ & _ & _ & _ & Hmod & _ & _ & Hc & _ & ->).
  cbn. assert (Hhalf : (1 # 2 <= conf)%Q).
  { eapply predict_confidence_half; [by eapply Hm|done]. }
  split; [done|]. intros Ht. apply Qle_bool_iff. by eapply Qle_trans.
Qed.

(** *** Feature columns at inference *)

Lemma iloc_last_columns (data last_record : DataFrame) :
  iloc_last data = Some last_record ->
  df_columns last_record = df_columns data.
Proof.
  unfold iloc_last. destruct (df_len data =? 0)%nat; [done|].
  destruct (df_index data !! (df_len data - 1)) as [t|]; [cbn|done].
  destruct (mapM _ (df_data data)) as [cols|] eqn:Hcols; [cbn|done].
  intros [= <-]. unfold df_columns; cbn.
  apply mapM_Some in Hcols.
  induction Hcols as [|[n col] [n' col'] l l' Hx _ IH]; [done|].
  cbn. rewrite IH. f_equal.
  cbn in Hx. destruct (col !! (df_len data - 1)); [cbn in Hx|done].
  by injection Hx as <- _.
Qed.

Lemma getitems_columns (df X : DataFrame) (names : list string) :
  getitems df names = Some X -> df_columns X = names.
Proof.
  unfold getitems.
  destruct (mapM _ names) as [cols|] eqn:Hcols; [cbn|done].
  intros [= <-]. unfold df_columns; cbn.
  apply mapM_Some in Hcols.
  induction Hcols as [|n [n' col'] l l' Hx _ IH]; [done|].
  cbn. rewrite IH. f_equal.
  destruct (getitem df n); [cbn in Hx|done]. by injection Hx as <- _.
Qed.

Lemma predict_feature_cols_Some (data : DataFrame) (fc : list string) :
  predict_feature_cols data = Some fc -> fc = feature_cols_of (df_columns data).
Proof.
  unfold predict_feature_cols.
  destruct (iloc_last data) as [lr|] eqn:Hlr; [cbn|done].
  intros [= <-]. by rewrite (iloc_last_columns _ _ Hlr).
Qed.

Lemma predict_features_columns (data X : DataFrame) :
  predict_features data = Some X ->
  df_columns X = feature_cols_of (df_columns data).
Proof.
  unfold predict_features.
  destruct (iloc_last data) as [lr|] eqn:Hlr; [cbn|done].
  destruct (predict_feature_cols data) as [fc|] eqn:Hfc; [cbn|done].
  intros H. apply getitems_columns in H. rewrite H.
  by apply predict_feature_cols_Some.
Qed.

(** C4 (amended). [predict_next_day] never reads the schema recorded in
    the artifact: replacing it changes nothing.  The columns it hands to
    the scaler, and reports as [features_used], are the caller's columns
    other than open, high, low, close and volume, in the caller's order;
    a result is returned only if the scaler's own validation accepted
    them. *)
Theorem predict_uses_caller_columns (self : PredictionEngine)
    (data : DataFrame) (instrument : string) (t : Q) :
  (forall fc,
     predict_next_day (engine_set_feature_columns fc self) data instrument t
     = predict_next_day self data instrument t) /\
  (forall r,
     predict_next_day self data instrument t = Some r ->
     p_features_used r = feature_cols_of (df_columns data) /\
     exists X a tr sc X_scaled,
       predict_features data = Some X /\
       df_columns X = feature_cols_of (df_columns data) /\
       models self !! instrument = Some a /\ heap self !! a = Some tr /\
       scaler tr = Some sc /\ scalerobj_transform sc X = Some X_scaled).
Proof.
  split.
  - intros fc. unfold predict_next_day, engine_set_feature_columns; cbn.
    destruct (models self !! instrument) as [a|]; [cbn|done].
    rewrite lookup_fmap. by destruct (heap self !! a) as [tr|].
  - intros r H. apply predict_next_day_Some in H
      as (a & tr & fc & X & sc & Xs & m & preds & pred & conf & ts
          & Ha & Htr & Hfc & HX & Hsc & HXs & _ & _ & _ & _ & _ & ->).
    cbn. split; [by apply predict_feature_cols_Some|].
    exists X, a, tr, sc, Xs. repeat split; try done.
    by apply predict_features_columns.
Qed.

(** C4, counterexample.  The artifact bound to BANKNIFTY records the
    schema [sma_20, rsi]; for a table whose feature columns come as
    [rsi, sma_20] the frame handed to the scaler has the caller's columns
    in the caller's order, and with a scaler that recorded no column
    names the prediction is returned on those columns. *)
Lemma predict_ignores_recorded_schema :
  (heap Sample.engine2 !! 0) ≫= feature_columns = Some ["sma_20"; "rsi"] /\
  predict_features Sample.features_reordered
  = Some (mkDataFrame [3%Z] [("rsi", [Num 48]); ("sma_20", [Num 102])]) /\
  (heap Sample.engine_nameless !! 0) ≫= feature_columns = Some ["sma_20"; "rsi"] /\
  predict_next_day Sample.engine_nameless Sample.features_reordered "NIFTY50" (6 # 10)
  = Some (mkPrediction "NIFTY50" BULL 1 (1 # 2) false 3 ["rsi"; "sma_20"]).
Proof. repeat split; vm_compute; reflexivity. Qed.

(** *** One trainer object for every instrument *)

(** After two loads, both instruments are bound to the engine's one
    trainer object. *)
Lemma engine_load_model_aliases (fs : ModelsDir) (self : PredictionEngine)
    (i1 f1 i2 f2 : string) :
  is_Some (heap self !! trainer self) ->
  let e := (engine_load_model fs (engine_load_model fs self i1 f1).1 i2 f2).1 in
  models e !! i1 = Some (trainer self) /\ models e !! i2 = Some (trainer self) /\
  heap e !! trainer self
  = Some (load_model fs (load_model fs (default MLModelTrainer_init
                                           (heap self !! trainer self)) f1).1 f2).1.
Proof.
  intros [t Ht]. unfold engine_load_model. rewrite Ht. cbn.
  rewrite lookup_insert_eq. cbn. rewrite !lookup_insert_eq.
  split; [|done].
  destruct (decide (i2 = i1)) as [->|Hne].
  - by rewrite lookup_insert_eq.
  - by rewrite lookup_insert_ne, lookup_insert_eq.
Qed.

(** C2, the code at the failing input.  With the NIFTY50 artifact loaded,
    NIFTY50 is predicted BULL by its own classifier; once the BANKNIFTY
    artifact is loaded as well, NIFTY50 is predicted by the BANKNIFTY
    classifier (BEAR, confidence 0.8): both dict entries are the engine's
    single trainer object. *)
Theorem load_model_shares_trainer :
  predict_next_day Sample.engine1 Sample.features "NIFTY50" (6 # 10)
  = Some (mkPrediction "NIFTY50" BULL 1 (7 # 10) true 3 ["sma_20"; "rsi"]) /\
  predict_next_day Sample.engine2 Sample.features "NIFTY50" (6 # 10)
  = Some (mkPrediction "NIFTY50" BEAR 0 (4 # 5) true 3 ["sma_20"; "rsi"]) /\
  predict_next_day Sample.engine2 Sample.features "BANKNIFTY" (6 # 10)
  = Some (mkPrediction "BANKNIFTY" BEAR 0 (4 # 5) true 3 ["sma_20"; "rsi"]) /\
  models Sample.engine2 !! "NIFTY50" = models Sample.engine2 !! "BANKNIFTY".
Proof. repeat split; vm_compute; reflexivity. Qed.

(** ** Feature engine *)

Lemma assoc_set_fst {A : Type} (name n : string) (v : A) (l : list (string * A)) :
  n ∈ (assoc_set name v l).*1 -> n = name \/ n ∈ l.*1.
Proof.
  induction l as [|[k w] l IH]; cbn.
  - intros H. apply elem_of_cons in H as [H|H]; [by left|by apply elem_of_nil in H].
  - destruct (String.eqb_spec k name) as [->|Hne]; cbn; intros H.
    + apply elem_of_cons in H as [H|H]; [by left|right; by right].
    + apply elem_of_cons in H as [H|H]; [right; subst; by left|].
      destruct (IH H) as [?|?]; [by left|right; by right].
Qed.

Lemma assoc_assoc_set_eq {A : Type} (name : string) (v : A) (l : list (string * A)) :
  assoc name (assoc_set name v l) = Some v.
Proof.
  induction l as [|[k w] l IH]; cbn.
  - by rewrite String.eqb_refl.
  - destruct (String.eqb_spec k name) as [->|Hne]; cbn.
    + by rewrite String.eqb_refl.
    + by destruct (String.eqb_spec k name).
Qed.

Lemma assoc_assoc_set_ne {A : Type} (name name' : string) (v : A)
    (l : list (string * A)) :
  name <> name' -> assoc name' (assoc_set name v l) = assoc name' l.
Proof.
  intros Hne. induction l as [|[k w] l IH]; cbn.
  - by destruct (String.eqb_spec name name').
  - destruct (String.eqb_spec k name) as [->|Hk]; cbn.
    + by destruct (String.eqb_spec name name').
    + by rewrite IH.
Qed.

Lemma assoc_Some_elem_of {A : Type} (name : string) (v : A) (l : list (string * A)) :
  assoc name l = Some v -> (name, v) ∈ l.
Proof.
  induction l as [|[k w] l IH]; cbn; [done|].
  destruct (String.eqb_spec k name) as [->|Hk].
  - intros [= ->]. by left.
  - intros H. right. by apply IH.
Qed.

Lemma getitem_setitem_eq (df : DataFrame) (name : string) (col : list cell) :
  getitem (setitem df name col) name = Some col.
Proof. apply assoc_assoc_set_eq. Qed.

Lemma getitem_setitem_ne (df : DataFrame) (name name' : string) (col : list cell) :
  name <> name' -> getitem (setitem df name col) name' = getitem df name'.
Proof. apply assoc_assoc_set_ne. Qed.

Lemma cols_within_setitem (names : list string) (df : DataFrame) (n : string)
    (col : list cell) :
  cols_within names df -> n ∈ names -> cols_within names (setitem df n col).
Proof.
  intros Hdf Hn n' H. apply assoc_set_fst in H as [->|H]; [done|by apply Hdf].
Qed.

Lemma row_has_na_true (df : DataFrame) (i : nat) (name : string) (col : list cell) :
  (name, col) ∈ df_data df -> col !! i = Some NaN -> row_has_na df i = true.
Proof.
  intros Hin Hc. apply existsb_exists. exists (name, col).
  split; [by apply list_elem_of_In|]. cbn. by rewrite Hc.
Qed.

Section AnalyzerFacts.

Variable ta : TALib.

Lemma calculate_moving_averages_short (data : DataFrame) (period : nat) :
  df_len data < period -> calculate_moving_averages ta data [period] = [].
Proof.
  intros H. unfold calculate_moving_averages.
  cbn [moving_averages_loop].
  by destruct (Nat.ltb_spec (df_len data) period); [|lia].
Qed.

Lemma calculate_bollinger_bands_close (data : DataFrame) (period : nat)
    (std_dev : Q) (bands : list cell * list cell * list cell) :
  calculate_bollinger_bands ta data period std_dev = Some bands ->
  is_Some (getitem data "close").
Proof.
  unfold calculate_bollinger_bands.
  destruct (df_len data <? period)%nat; [done|].
  by destruct (getitem data "close").
Qed.

(** The Bollinger step never raises, and adds its four columns or none. *)
Lemma add_bollinger_is_Some (names : list string) (data features_df : DataFrame) :
  cols_within names features_df ->
  (forall n, n ∈ ["bb_upper"; "bb_middle"; "bb_lower"; "bb_position"] -> n ∈ names) ->
  exists features_df',
    add_bollinger ta data features_df = Some features_df' /\
    cols_within names features_df'.
Proof.
  intros Hf Hn. unfold add_bollinger.
  destruct (calculate_bollinger_bands ta data 20 2) as [[[upper middle] lower]|] eqn:Hbb.
  - destruct (calculate_bollinger_bands_close _ _ _ _ Hbb) as [close ->].
    eexists. split; [done|].
    repeat apply cols_within_setitem; try done; apply Hn; repeat constructor.
  - by exists features_df.
Qed.

(** [all_features] never raises; for fewer than 50 rows it adds no
    [sma_50] column. *)
Lemma all_features_short (names : list string) (data : DataFrame) :
  df_len data < 50 ->
  cols_within names data ->
  (forall n, n ∈ short_history_columns -> n ∈ names) ->
  exists features_df,
    all_features ta data = Some features_df /\ cols_within names features_df.
Proof.
  intros Hlen Hdata Hn. unfold all_features.
  rewrite (calculate_moving_averages_short data 50 Hlen). cbn [assoc].
  assert (H0 : cols_within names
    match calculate_macd ta data 12 26 9 with
    | Some (macd, signal, histogram) =>
        setitem (setitem (setitem
          match calculate_rsi ta data 14 with
          | Some rsi =>
              setitem
                match assoc "sma_20" (calculate_moving_averages ta data [20]) with
                | Some sma_20 => setitem data "sma_20" sma_20
                | None => data
                end "rsi" rsi
          | None =>
              match assoc "sma_20" (calculate_moving_averages ta data [20]) with
              | Some sma_20 => setitem data "sma_20" sma_20
              | None => data
              end
          end "macd" macd) "macd_signal" signal) "macd_hist" histogram
    | None =>
        match calculate_rsi ta data 14 with
        | Some rsi =>
            setitem
              match assoc "sma_20" (calculate_moving_averages ta data [20]) with
              | Some sma_20 => setitem data "sma_20" sma_20
              | None => data
              end "rsi" rsi
        | None =>
            match assoc "sma_20" (calculate_moving_averages ta data [20]) with
            | Some sma_20 => setitem data "sma_20" sma_20
            | None => data
            end
        end
    end).
  { destruct (calculate_macd ta data 12 26 9) as [[[macd signal] histogram]|];
      destruct (calculate_rsi ta data 14);
      destruct (assoc "sma_20" (calculate_moving_averages ta data [20]));
      repeat apply cols_within_setitem; try done;
      apply Hn; repeat constructor. }
  destruct (add_bollinger_is_Some names data _ H0) as (f1 & -> & Hf1).
  { intros n H. apply Hn. unfold short_history_columns.
    repeat (apply elem_of_cons in H as [->|H]; [repeat constructor|]).
    by apply elem_of_nil in H. }
  cbn [mbind option_bind]. eexists. split; [done|].
  destruct (calculate_volume_ratio data 20);
    destruct (calculate_price_ratios data) as [[hl co]|];
    repeat apply cols_within_setitem; try done;
    apply Hn; repeat constructor.
Qed.

End AnalyzerFacts.

Lemma candles_df_len (cs : list Candle) : df_len (candles_df cs) = length cs.
Proof. unfold df_len; cbn. apply length_map. Qed.

(** C3 (amended). For fewer than 50 candles [extract_all_features]
    returns a table: the [sma_50] column is left out of it (an indicator
    whose length guard fails is skipped), its columns are among the
    other sixteen, and no column of it holds a NaN. *)
Theorem short_history_features (ta : TALib) (cs : list Candle) :
  length cs < 50 ->
  exists df,
    extract_all_features ta (candles_df cs) = Some df /\
    ("sma_50" ∉ df_columns df) /\
    cols_within short_history_columns df /\
    (forall name col, (name, col) ∈ df_data df ->
       Forall (fun c => isna c = false) col).
Proof.
  intros Hlen.
  destruct (all_features_short ta short_history_columns (candles_df cs))
    as (features_df & Hall & Hcols).
  { by rewrite candles_df_len. }
  { intros n H. unfold candles_df, df_columns in H; cbn in H.
    unfold short_history_columns.
    repeat (apply elem_of_cons in H as [->|H]; [repeat constructor|]).
    by apply elem_of_nil in H. }
  { done. }
  exists (dropna features_df). unfold extract_all_features. rewrite Hall.
  split; [done|].
  assert (Hc : cols_within short_history_columns (dropna features_df)).
  { intros n. rewrite dropna_columns. apply Hcols. }
  split; [|split; [done|apply dropna_no_na]].
  intros H. apply Hc in H. unfold short_history_columns in H.
  repeat (apply elem_of_cons in H as [H|H]; [discriminate|]).
  by apply elem_of_nil in H.
Qed.

(** C3, counterexample.  Five rising candles come back as five rows that
    carry the two price ratios and no other feature; forty candles come
    back as the seven rows 33 to 39, without [sma_50]. *)
Lemma short_history_returns_rows :
  extract_all_features TA.lib (candles_df (Candles.rising 5))
  = Some (mkDataFrame [0; 1; 2; 3; 4]%Z
      [("open", map Num [100; 101; 102; 103; 104]%Q);
       ("high", map Num [101; 102; 103; 104; 105]%Q);
       ("low", map Num [99; 100; 101; 102; 103]%Q);
       ("close", map Num [100; 101; 102; 103; 104]%Q);
       ("volume", map Num [1000; 1000; 1000; 1000; 1000]%Q);
       ("hl_ratio", map Num [1 # 50; 2 # 101; 1 # 51; 2 # 103; 1 # 52]%Q);
       ("co_ratio", map Num [0; 0; 0; 0; 0]%Q)]) /\
  option_map (fun df => (df_index df, df_columns df))
    (extract_all_features TA.lib (candles_df (Candles.choppy 40)))
  = Some ([33; 34; 35; 36; 37; 38; 39]%Z,
          ["open"; "high"; "low"; "close"; "volume"; "sma_20"; "rsi"; "macd";
           "macd_signal"; "macd_hist"; "bb_upper"; "bb_middle"; "bb_lower";
           "bb_position"; "volume_ratio"; "hl_ratio"; "co_ratio"]).
Proof. split; vm_compute; reflexivity. Qed.

(** *** The band position *)

Lemma Qred_sub_zero (a b : Q) :
  Qeq_bool (Qred (a + Qred (- b))) 0 = true <-> (a == b)%Q.
Proof.
  rewrite Qeq_bool_iff, !Qred_correct. split; intros H; lra.
Qed.

Lemma Qred_sub_pos (a b : Q) :
  Qlt_bool 0 (Qred (a + Qred (- b))) = true <-> (b < a)%Q.
Proof.
  rewrite Qlt_bool_iff, !Qred_correct. split; intros H; lra.
Qed.

(** The quotient [(c - l) / (u - l)] when the two bands coincide. *)
Lemma band_position_zero_width (c u l : Q) :
  (u == l)%Q ->
  let pos := fdiv (fsub (Num c) (Num l)) (fsub (Num u) (Num l)) in
  ((c == l)%Q -> pos = NaN) /\
  ((l < c)%Q -> pos = PInf) /\
  ((c < l)%Q -> pos = NInf).
Proof.
  intros Hul. cbn. apply Qred_sub_zero in Hul. rewrite Hul.
  split; [|split]; intros Hc.
  - apply Qred_sub_zero in Hc. by rewrite Hc.
  - destruct (Qeq_bool (Qred (c + Qred (- l))) 0) eqn:Hz.
    + apply Qred_sub_zero in Hz. lra.
    + apply Qred_sub_pos in Hc. by rewrite Hc.
  - destruct (Qeq_bool (Qred (c + Qred (- l))) 0) eqn:Hz.
    + apply Qred_sub_zero in Hz. lra.
    + destruct (Qlt_bool 0 (Qred (c + Qred (- l)))) eqn:Hp; [|done].
      apply Qred_sub_pos in Hp. lra.
Qed.

(** C7 (amended). The band position is the plain quotient
    [(close - lower) / (upper - lower)], with no guard.  In a row where
    the upper and the lower band are equal it is NaN, and the row is
    dropped, when the close equals the band as well; it is plus or minus
    infinity when the close lies above or below the band, and [dropna]
    does not look at infinities.  No returned column holds a NaN. *)
Theorem bb_position_unguarded (ta : TALib) (data : DataFrame)
    (upper middle lower close : list cell) :
  calculate_bollinger_bands ta data 20 2 = Some (upper, middle, lower) ->
  getitem data "close" = Some close ->
  exists features_df pos,
    all_features ta data = Some features_df /\
    extract_all_features ta data = Some (dropna features_df) /\
    getitem features_df "bb_position" = Some pos /\
    pos = zip_with fdiv (zip_with fsub close lower) (zip_with fsub upper lower) /\
    (forall i c u l,
       close !! i = Some (Num c) -> upper !! i = Some (Num u) ->
       lower !! i = Some (Num l) -> (u == l)%Q ->
       ((c == l)%Q -> pos !! i = Some NaN /\ row_has_na features_df i = true) /\
       ((l < c)%Q -> pos !! i = Some PInf) /\
       ((c < l)%Q -> pos !! i = Some NInf)) /\
    (forall name col, (name, col) ∈ df_data (dropna features_df) ->
       Forall (fun c => isna c = false) col).
Proof.
  intros Hbb Hclose.
  set (pos := zip_with fdiv (zip_with fsub close lower) (zip_with fsub upper lower)).
  assert (Hall : exists features_df,
    all_features ta data = Some features_df /\
    getitem features_df "bb_position" = Some pos).
  { unfold all_features, add_bollinger. rewrite Hbb, Hclose.
    cbn [mbind option_bind]. eexists. split; [done|].
    destruct (calculate_volume_ratio data 20);
      destruct (calculate_price_ratios data) as [[hl co]|];
      rewrite ?getitem_setitem_ne by discriminate;
      apply getitem_setitem_eq. }
  destruct Hall as (features_df & Hall & Hpos).
  exists features_df, pos. split; [done|].
  split; [unfold extract_all_features; by rewrite Hall|].
  split; [done|]. split; [done|]. split; [|apply dropna_no_na].
  intros i c u l Hc Hu Hl Hul.
  assert (Hi : pos !! i
    = Some (fdiv (fsub (Num c) (Num l)) (fsub (Num u) (Num l)))).
  { unfold pos. rewrite !lookup_zip_with, Hc, Hu, Hl. done. }
  destruct (band_position_zero_width c u l Hul) as (Hnan & Hpinf & Hninf).
  rewrite Hi. split; [|split]; intros H.
  - split; [by rewrite Hnan|].
    eapply row_has_na_true; [by apply assoc_Some_elem_of, Hpos|].
    by rewrite Hi, Hnan.
  - by rewrite Hpinf.
  - by rewrite Hninf.
Qed.

(** C7, counterexample.  Nineteen closes of 1 and a last close of
    1 + 5/2^26: the variance over the window, 19/(16 * 2^52), is below
    TA-Lib's epsilon, so the moving standard deviation is zero and the
    three bands of the last row coincide at the window mean 1 + 1/2^28;
    the close lies above them, and the row is returned with an infinite
    band position. *)
Lemma zero_width_band_row_returned :
  extract_all_features TA.lib (candles_df Candles.nearly_flat)
  = Some (mkDataFrame [19%Z]
      [("open", [Num 1]); ("high", [Num (201326607 # 134217728)]);
       ("low", [Num (67108869 # 134217728)]);
       ("close", [Num (67108869 # 67108864)]); ("volume", [Num 1000]);
       ("sma_20", [Num (268435457 # 268435456)]); ("rsi", [Num 100]);
       ("bb_upper", [Num (268435457 # 268435456)]);
       ("bb_middle", [Num (268435457 # 268435456)]);
       ("bb_lower", [Num (268435457 # 268435456)]);
       ("bb_position", [PInf]); ("volume_ratio", [Num 1]);
       ("hl_ratio", [Num 1]); ("co_ratio", [Num (5 # 67108864)])]).
Proof. vm_compute. reflexivity. Qed.

(** ** The scaler in [prepare_data] *)

Lemma mask_length_eq {A B : Type} (keep : list bool) (l1 : list A) (l2 : list B) :
  length l1 = length l2 -> length (mask keep l1) = length (mask keep l2).
Proof.
  revert l1 l2. induction keep as [|k keep IH]; intros [|x l1] [|y l2] H;
    cbn in *; try done.
  destruct k; cbn; [f_equal|]; apply IH; lia.
Qed.

Lemma dropna_wf (df : DataFrame) : df_wf df -> df_wf (dropna df).
Proof.
  unfold df_wf, dropna, df_len; cbn. intros H.
  apply Forall_fmap, Forall_forall. intros [n col] Hin; cbn.
  apply mask_length_eq. rewrite Forall_forall in H. apply (H _ Hin).
Qed.

Lemma df_take_wf (k : nat) (df : DataFrame) : df_wf df -> df_wf (df_take k df).
Proof.
  unfold df_wf, df_take, df_len; cbn. intros H.
  apply Forall_fmap, Forall_forall. intros [n col] Hin; cbn.
  rewrite Forall_forall in H. specialize (H _ Hin). cbn in H.
  rewrite !length_take. by rewrite H.
Qed.

Lemma getitems_wf (df X : DataFrame) (names : list string) :
  df_wf df -> getitems df names = Some X -> df_wf X.
Proof.
  unfold getitems. intros Hwf.
  destruct (mapM _ names) as [cols|] eqn:Hcols; [cbn|done].
  intros [= <-]. unfold df_wf, df_len; cbn.
  apply mapM_Some in Hcols. apply Forall_forall. intros [n col] Hin.
  apply list_elem_of_lookup in Hin as [k Hk].
  destruct (Forall2_lookup_r _ _ _ _ _ Hcols Hk) as (n' & _ & Hn).
  destruct (getitem df n') as [col'|] eqn:Hg; [cbn in Hn|done].
  injection Hn as -> ->. apply assoc_Some_elem_of in Hg.
  unfold df_wf in Hwf. rewrite Forall_forall in Hwf. apply (Hwf _ Hg).
Qed.

Lemma aligned_data_wf (data X : DataFrame) (y : list Z) :
  df_wf data -> aligned_data data = Some (X, y) -> df_wf X.
Proof.
  unfold aligned_data. intros Hwf.
  destruct (getitems data _) as [X0|] eqn:HX0; [cbn|done].
  destruct (create_labels data) as [y0|]; [cbn|done].
  intros [= <- _]. apply getitems_wf in HX0; [|done].
  unfold align_X. destruct (_ <? _)%nat; [apply df_take_wf|]; by apply dropna_wf.
Qed.

Lemma finite_column_length (col : list cell) (qs : list Q) :
  finite_column col = Some qs -> length qs = length col.
Proof. intros H. symmetry. by eapply length_mapM. Qed.

Lemma mapM_lookup_elem_of {A : Type} (l : list A) (idx : list nat) (out : list A) :
  mapM (fun i => l !! i) idx = Some out -> forall x, x ∈ out -> x ∈ l.
Proof.
  intros H x Hx. apply mapM_Some in H.
  apply list_elem_of_lookup in Hx as [k Hk].
  destruct (Forall2_lookup_r _ _ _ _ _ H Hk) as (i & _ & Hi).
  by eapply list_elem_of_lookup_2.
Qed.

Section PrepareData.

Variable train_test_split :
  forall (n_samples : nat) (test_size : Q) (random_state : Z)
         (stratify : list Z), option (list nat * list nat).

(** C1 (amended). [prepare_data] fits the scaler on the whole aligned
    feature matrix, before the split and whatever the split: the fitted
    means and variances are those of all its rows, the rows that end up
    in the test part included, and the train and the test rows are both
    taken from the matrix scaled with it.  The same data gives the same
    scaler. *)
Theorem scaler_fitted_before_split (self : MLModelTrainer) (data : DataFrame)
    (test_size : Q) (X : DataFrame) (y : list Z) (sc : StandardScaler) :
  df_wf data ->
  aligned_data data = Some (X, y) ->
  scaler_fit X = Some sc ->
  scaler (prepare_data train_test_split self data test_size).1 = Some (Fitted sc) /\
  (exists cols,
     mapM (fun c : string * list cell => finite_column c.2) (df_data X) = Some cols /\
     Forall (fun col => length col = df_len X) cols /\
     mean_ sc = map Qmean cols /\ var_ sc = map Qvar cols) /\
  (forall X_train X_test y_train y_test,
     (prepare_data train_test_split self data test_size).2
     = Some (X_train, X_test, y_train, y_test) ->
     exists X_scaled,
       scaler_transform sc X = Some X_scaled /\
       (forall row, row ∈ X_train -> row ∈ X_scaled) /\
       (forall row, row ∈ X_test -> row ∈ X_scaled)).
Proof.
  intros Hwf Hal Hfit. unfold prepare_data. rewrite Hal, Hfit.
  cbn [fst snd scaler].
  split; [done|]. split.
  - pose proof (aligned_data_wf _ _ _ Hwf Hal) as HwfX.
    unfold scaler_fit in Hfit.
    destruct (df_len X =? 0)%nat; [done|].
    destruct (length (df_data X) =? 0)%nat; [done|].
    destruct (mapM _ (df_data X)) as [cols|] eqn:Hcols; [cbn in Hfit|done].
    injection Hfit as <-. exists cols. cbn. repeat split; try done.
    apply mapM_Some in Hcols. apply Forall_forall. intros qs Hqs.
    apply list_elem_of_lookup in Hqs as [k Hk].
    destruct (Forall2_lookup_r _ _ _ _ _ Hcols Hk) as ([n col] & Hc & Hf).
    cbn in Hf. rewrite (finite_column_length _ _ Hf).
    unfold df_wf in HwfX. rewrite Forall_forall in HwfX.
    apply (HwfX (n, col)). by eapply list_elem_of_lookup_2.
  - intros X_train X_test y_train y_test H.
    destruct (scaler_transform sc X) as [X_scaled|]; [cbn in H|done].
    destruct (train_test_split _ _ _ _) as [[train test]|]; [cbn in H|done].
    destruct (mapM (fun i => X_scaled !! i) train) as [Xtr|] eqn:Htr; [cbn in H|done].
    destruct (mapM (fun i => X_scaled !! i) test) as [Xte|] eqn:Hte; [cbn in H|done].
    destruct (mapM (fun i => y !! i) train) as [ytr|]; [cbn in H|done].
    destruct (mapM (fun i => y !! i) test) as [yte|]; [cbn in H|done].
    injection H as <- <- <- <-. exists X_scaled. split; [done|].
    split; by eapply mapM_lookup_elem_of.
Qed.

End PrepareData.

(** C1, counterexample.  Ten training rows give nine aligned rows; with
    the last two of them as the test part, raising the feature of row 8
    (a test row) from 42 to 90 moves the fitted mean from 50 to 166/3.
    The last line says the same of each of the nine rows: whichever rows
    a split sends to the test part, changing one of them changes the
    scaler. *)
Lemma scaler_sees_test_rows :
  create_labels Candles.training = Some [1; 0; 1; 0; 1; 0; 1; 0; 1]%Z /\
  tail_split 9 (Qred (1 - TRAIN_TEST_SPLIT)) 42 [1; 0; 1; 0; 1; 0; 1; 0; 1]%Z
  = Some ([0; 1; 2; 3; 4; 5; 6], [7; 8]) /\
  fitted_mean (prepare_data tail_split MLModelTrainer_init Candles.training
                 TRAIN_TEST_SPLIT).1 = Some [50%Q] /\
  fitted_mean (prepare_data tail_split MLModelTrainer_init
                 (perturb Candles.training "rsi" 8 (Num 90)) TRAIN_TEST_SPLIT).1
  = Some [(166 # 3)%Q] /\
  forallb (fun i =>
      negb (same_mean
        (fitted_mean (prepare_data tail_split MLModelTrainer_init
                        (perturb Candles.training "rsi" i (Num 90))
                        TRAIN_TEST_SPLIT).1)
        (fitted_mean (prepare_data tail_split MLModelTrainer_init
                        Candles.training TRAIN_TEST_SPLIT).1)))
    (seq 0 9) = true.
Proof. repeat split; vm_compute; reflexivity. Qed.

(** ** The theorems at sample inputs *)

(** C5 at the three-row sample table: labels [1; 0]. *)
Lemma create_labels_correct_witness :
  getitem Sample.features "close" = Some [Num 101; Num 103; Num 102] /\
  length [Num 101; Num 103; Num 102] = df_len Sample.features /\
  exists labels,
    create_labels Sample.features = Some labels /\
    length labels = df_len Sample.features - 1 /\
    forall i, i < df_len Sample.features - 1 ->
      exists cur nxt,
        [Num 101; Num 103; Num 102] !! i = Some cur /\
        [Num 101; Num 103; Num 102] !! (i + 1) = Some nxt /\
        (labels !! i = Some 1%Z <-> fgt nxt cur = true) /\
        (labels !! i = Some 0%Z <-> fgt nxt cur = false).
Proof.
  split; [reflexivity|]. split; [reflexivity|].
  apply (create_labels_correct Sample.features [Num 101; Num 103; Num 102]);
    reflexivity.
Defined.

(** C6 at the ten-row training table: nine rows and nine labels. *)
Lemma aligned_data_lengths_witness :
  create_labels Candles.training = Some Candles.training_y /\
  exists X_raw X y,
    getitems Candles.training (feature_cols_of (df_columns Candles.training))
    = Some X_raw /\
    aligned_data Candles.training = Some (X, y) /\
    df_len X = length y /\
    length y = Nat.min (df_len (dropna X_raw)) (length Candles.training_y) /\
    df_index X = take (length y) (df_index (dropna X_raw)) /\
    y = take (length y) Candles.training_y.
Proof.
  split; [reflexivity|].
  apply (aligned_data_lengths Candles.training Candles.training_y).
  reflexivity.
Defined.

(** C8 at thresholds 0.5 and 0.6, for the sample engine and table. *)
Lemma alert_monotone_witness :
  (5 # 10 <= 6 # 10)%Q /\
  predict_next_day Sample.engine1 Sample.features "NIFTY50" (6 # 10)
  = Some (mkPrediction "NIFTY50" BULL 1 (7 # 10) true 3 ["sma_20"; "rsi"]) /\
  exists r1,
    predict_next_day Sample.engine1 Sample.features "NIFTY50" (5 # 10) = Some r1 /\
    p_alert_triggered r1 = true /\
    p_signal r1 = BULL /\ p_confidence r1 = (7 # 10)%Q.
Proof.
  assert (Hle : (5 # 10 <= 6 # 10)%Q) by (unfold Qle; cbn; lia).
  assert (H2 : predict_next_day Sample.engine1 Sample.features "NIFTY50" (6 # 10)
    = Some (mkPrediction "NIFTY50" BULL 1 (7 # 10) true 3 ["sma_20"; "rsi"]))
    by (vm_compute; reflexivity).
  split; [exact Hle|]. split; [exact H2|].
  exact (proj1 (alert_monotone Sample.engine1 (5 # 10) (6 # 10) Hle)
           Sample.features "NIFTY50" _ H2 eq_refl).
Defined.

Lemma constant_clf_binary_proba (label : Z) (p : list Q) :
  proba_row p -> binary_proba (Sample.constant_clf label p).
Proof.
  intros Hp pp X probs [= <-] [= <-].
  apply Forall_fmap, Forall_forall. by intros.
Qed.

Lemma engine1_binary_proba (a : addr) (tr : MLModelTrainer) (m : Classifier) :
  models Sample.engine1 !! "NIFTY50" = Some a ->
  heap Sample.engine1 !! a = Some tr ->
  model tr = Some m ->
  binary_proba m.
Proof.
  intros Ha Htr Hm. vm_compute in Ha. injection Ha as <-.
  assert (Hh : heap Sample.engine1 !! 0
    = Some (mkTrainer MODEL_TYPE
              (Some (Sample.constant_clf 1 [(3 # 10)%Q; (7 # 10)%Q]))
              (Some (Fitted Sample.fitted_scaler)) (Some ["sma_20"; "rsi"])))
    by (vm_compute; reflexivity).
  pose proof (eq_trans (eq_sym Hh) Htr) as E. injection E as <-.
  injection Hm as <-.
  apply constant_clf_binary_proba.
  exists (3 # 10)%Q, (7 # 10)%Q. repeat split; try done; unfold Qle; cbn; lia.
Qed.

(** C10 at the sample engine: confidence 0.7, alert at threshold 0.4. *)
Lemma confidence_at_least_half_witness :
  predict_next_day Sample.engine1 Sample.features "NIFTY50" (2 # 5)
  = Some (mkPrediction "NIFTY50" BULL 1 (7 # 10) true 3 ["sma_20"; "rsi"]) /\
  (1 # 2 <= 7 # 10)%Q /\
  ((2 # 5 <= 1 # 2)%Q -> true = true).
Proof.
  assert (H : predict_next_day Sample.engine1 Sample.features "NIFTY50" (2 # 5)
    = Some (mkPrediction "NIFTY50" BULL 1 (7 # 10) true 3 ["sma_20"; "rsi"]))
    by (vm_compute; reflexivity).
  split; [exact H|].
  exact (confidence_at_least_half Sample.engine1 Sample.features "NIFTY50"
           (2 # 5) _ engine1_binary_proba H).
Defined.

(** C3 at five rising candles. *)
Lemma short_history_features_witness :
  length (Candles.rising 5) < 50 /\
  exists df,
    extract_all_features TA.lib (candles_df (Candles.rising 5)) = Some df /\
    ("sma_50" ∉ df_columns df) /\
    cols_within short_history_columns df /\
    (forall name col, (name, col) ∈ df_data df ->
       Forall (fun c => isna c = false) col).
Proof.
  assert (H : length (Candles.rising 5) < 50) by (vm_compute; lia).
  split; [exact H|].
  exact (short_history_features TA.lib (Candles.rising 5) H).
Defined.

(** C7 at twenty candles that all close at 100: the bands of the last row
    coincide with the close, the position is NaN and the row is dropped. *)
Lemma bb_position_unguarded_witness :
  calculate_bollinger_bands TA.lib (candles_df Candles.flat) 20 2
  = Some (Candles.flat_band, Candles.flat_band, Candles.flat_band) /\
  getitem (candles_df Candles.flat) "close" = Some Candles.flat_close /\
  exists features_df pos,
    all_features TA.lib (candles_df Candles.flat) = Some features_df /\
    extract_all_features TA.lib (candles_df Candles.flat)
    = Some (dropna features_df) /\
    getitem features_df "bb_position" = Some pos /\
    pos !! 19 = Some NaN /\ row_has_na features_df 19 = true.
Proof.
  assert (Hbb : calculate_bollinger_bands TA.lib (candles_df Candles.flat) 20 2
    = Some (Candles.flat_band, Candles.flat_band, Candles.flat_band))
    by (vm_compute; reflexivity).
  assert (Hclose : getitem (candles_df Candles.flat) "close"
    = Some Candles.flat_close) by (vm_compute; reflexivity).
  split; [exact Hbb|]. split; [exact Hclose|].
  destruct (bb_position_unguarded TA.lib (candles_df Candles.flat)
              _ _ _ _ Hbb Hclose)
    as (features_df & pos & Hall & Hext & Hpos & _ & Hrow & _).
  exists features_df, pos. split; [exact Hall|]. split; [exact Hext|].
  split; [exact Hpos|].
  destruct (Hrow 19 100%Q 100%Q 100%Q eq_refl eq_refl eq_refl (Qeq_refl _))
    as [Hnan _].
  exact (Hnan (Qeq_refl _)).
Defined.

(** C1 at the ten-row training table, split by [tail_split]. *)
Lemma scaler_fitted_before_split_witness :
  df_wf Candles.training /\
  aligned_data Candles.training = Some (Candles.training_X, Candles.training_y) /\
  scaler_fit Candles.training_X = Some Candles.training_scaler /\
  scaler (prepare_data tail_split MLModelTrainer_init Candles.training
            TRAIN_TEST_SPLIT).1
  = Some (Fitted Candles.training_scaler).
Proof.
  assert (Hwf : df_wf Candles.training) by (repeat constructor).
  assert (Hal : aligned_data Candles.training
    = Some (Candles.training_X, Candles.training_y)) by (vm_compute; reflexivity).
  assert (Hfit : scaler_fit Candles.training_X = Some Candles.training_scaler)
    by (vm_compute; reflexivity).
  split; [exact Hwf|]. split; [exact Hal|]. split; [exact Hfit|].
  exact (proj1 (scaler_fitted_before_split tail_split MLModelTrainer_init
                  Candles.training TRAIN_TEST_SPLIT _ _ _ Hwf Hal Hfit)).
Defined.

(** * Further properties *)

(** ** Order on cells *)

Lemma fgt_asym (a b : cell) : fgt a b = true -> fgt b a = false.
Proof.
  destruct a as [x| | |], b as [y| | |]; cbn; try done.
  intros H. apply Qlt_bool_iff in H. apply not_true_iff_false.
  rewrite Qlt_bool_iff. lra.
Qed.

Lemma fgt_notna (a b : cell) : fgt a b = true -> isna a = false /\ isna b = false.
Proof. by destruct a, b. Qed.

(** On cells that are not NaN, "not greater" is transitive. *)
Lemma fgt_false_trans (a b c : cell) :
  isna a = false -> isna b = false -> isna c = false ->
  fgt a b = false -> fgt b c = false -> fgt a c = false.
Proof.
  destruct a as [x| | |], b as [y| | |], c as [z| | |]; cbn; try done.
  intros _ _ _ H1 H2.
  apply not_true_iff_false in H1, H2. rewrite Qlt_bool_iff in H1, H2.
  apply not_true_iff_false. rewrite Qlt_bool_iff. lra.
Qed.

Lemma fgt_irrefl (a : cell) : fgt a a = false.
Proof.
  destruct a as [x| | |]; cbn; try done.
  apply not_true_iff_false. rewrite Qlt_bool_iff. lra.
Qed.

(** ** Peaks and troughs *)

Section Extrema.

Variable data : DataFrame.
Variable col : string.
Variable cmp : cell -> cell -> bool.
Variable series : list cell.
Hypothesis Hcol : getitem data col = Some series.

(** One iteration of the loop. *)
Lemma extrema_step (i : nat) (found : list Extremum) (range : list nat) :
  extrema_loop data col cmp (i :: range) found
  = match series !! i, series !! (i - 1) with
    | Some cur, Some prev =>
        if cmp cur prev then
          match series !! (i + 1) with
          | Some nxt =>
              if cmp cur nxt then
                match df_index data !! i with
                | Some time =>
                    extrema_loop data col cmp range (found ++ [mkExtremum i cur time])
                | None => (found, false)
                end
              else extrema_loop data col cmp range found
          | None => (found, false)
          end
        else extrema_loop data col cmp range found
    | _, _ => (found, false)
    end.
Proof.
  cbn [extrema_loop]. rewrite Hcol. cbn [mbind option_bind].
  destruct (series !! i) as [cur|] eqn:Hi; cbn [mbind option_bind]; [|done].
  destruct (series !! (i - 1)) as [prev|]; cbn [mbind option_bind]; [|done].
  destruct (cmp cur prev); [|done].
  destruct (series !! (i + 1)) as [nxt|]; cbn [mbind option_bind]; [|done].
  destruct (cmp cur nxt); [|done].
  by destruct (df_index data !! i).
Qed.

(** Everything the loop records is an extremum of the column, even when
    the loop is cut short. *)
Lemma extrema_loop_sound (range : list nat) (found : list Extremum) :
  Forall (fun i => 1 <= i /\ i + 1 < df_len data) range ->
  Forall (extremum_of data cmp series) found ->
  Forall (extremum_of data cmp series) (extrema_loop data col cmp range found).1.
Proof.
  revert found. induction range as [|i range IH]; intros found Hr Hf; [done|].
  inversion Hr as [|? ? [Hi1 Hi2] Hr']; subst.
  rewrite extrema_step.
  destruct (series !! i) as [cur|] eqn:Hi; [|done].
  destruct (series !! (i - 1)) as [prev|] eqn:Hp; [|done].
  destruct (cmp cur prev) eqn:Hc1; [|by apply IH].
  destruct (series !! (i + 1)) as [nxt|] eqn:Hn; [|done].
  destruct (cmp cur nxt) eqn:Hc2; [|by apply IH].
  destruct (df_index data !! i) as [time|] eqn:Ht; [|done].
  apply IH; [done|]. apply Forall_app. split; [done|].
  constructor; [|done]. unfold extremum_of, is_extremum; cbn.
  rewrite Hi, Hp, Hn, Hc1, Hc2. done.
Qed.

(** The rows the loop records when it is given a well-formed column. *)
Lemma extrema_loop_complete (range : list nat) (found : list Extremum) :
  length series = df_len data ->
  Forall (fun i => 1 <= i /\ i + 1 < df_len data) range ->
  exists new,
    extrema_loop data col cmp range found = (found ++ new, true) /\
    map e_index new = List.filter (is_extremum cmp series) range.
Proof.
  intros Hlen. revert found.
  induction range as [|i range IH]; intros found Hr.
  - exists []. by rewrite app_nil_r.
  - inversion Hr as [|? ? [Hi1 Hi2] Hr']; subst.
    rewrite extrema_step. cbn [List.filter]. unfold is_extremum at 1.
    destruct (lookup_lt_is_Some_2 series i ltac:(lia)) as [cur ->].
    destruct (lookup_lt_is_Some_2 series (i - 1) ltac:(lia)) as [prev ->].
    destruct (lookup_lt_is_Some_2 series (i + 1) ltac:(lia)) as [nxt ->].
    destruct (lookup_lt_is_Some_2 (df_index data) i ltac:(unfold df_len in *; lia))
      as [time ->].
    destruct (cmp cur prev); cbn; [|by apply IH].
    destruct (cmp cur nxt); cbn; [|by apply IH].
    destruct (IH (found ++ [mkExtremum i cur time]) Hr') as (new & -> & Hnew).
    exists (mkExtremum i cur time :: new). rewrite <- app_assoc. cbn.
    by rewrite Hnew.
Qed.

End Extrema.

Lemma patterns_range (data : DataFrame) :
  Forall (fun i => 1 <= i /\ i + 1 < df_len data) (seq 1 (df_len data - 2)).
Proof. apply Forall_forall. intros i Hi. apply elem_of_seq in Hi. lia. Qed.

(** What [identify_candle_patterns] returns as peaks is the first loop's
    list, whatever happens afterwards. *)
Lemma identify_peaks (data : DataFrame) :
  peaks (identify_candle_patterns data)
  = if (df_len data <? 3)%nat then []
    else (extrema_loop data "high" fgt (seq 1 (df_len data - 2)) []).1.
Proof.
  unfold identify_candle_patterns. destruct (df_len data <? 3)%nat; [done|].
  destruct (extrema_loop data "high" fgt _ []) as [pks ok]. cbn.
  destruct ok; cbn; [|done].
  destruct (extrema_loop data "low" flt _ []) as [trs ok']. by destruct ok'.
Qed.

Lemma filter_seq_sorted (f : nat -> bool) (a n : nat) :
  StronglySorted lt (List.filter f (seq a n)).
Proof.
  revert a. induction n as [|n IH]; intros a; cbn; [constructor|].
  destruct (f a); [|apply IH]. constructor; [apply IH|].
  apply Forall_forall. intros i Hi.
  apply list_elem_of_In, filter_In in Hi as [Hi _].
  apply in_seq in Hi. lia.
Qed.

(** X1. With a [high] column as long as the index, the peaks are exactly
    the rows other than the first and the last whose high is above both
    neighbouring highs, each with its own high and time, listed in
    rising row order. *)
Theorem peaks_characterised (data : DataFrame) (high : list cell) :
  getitem data "high" = Some high ->
  length high = df_len data ->
  (forall e, e ∈ peaks (identify_candle_patterns data) <->
     1 <= e_index e /\ e_index e + 1 < df_len data /\
     is_peak high (e_index e) = true /\
     high !! e_index e = Some (e_price e) /\
     df_index data !! e_index e = Some (e_time e)) /\
  StronglySorted lt (map e_index (peaks (identify_candle_patterns data))).
Proof.
  intros Hhigh Hlen. rewrite identify_peaks.
  destruct (Nat.ltb_spec (df_len data) 3) as [Hsmall|Hbig].
  { split; [|constructor]. intros e. split; [by intros ?%elem_of_nil|].
    intros (? & ? & _). lia. }
  destruct (extrema_loop_complete data "high" fgt high Hhigh
              (seq 1 (df_len data - 2)) [] Hlen (patterns_range data))
    as (new & Heq & Hidx).
  pose proof (extrema_loop_sound data "high" fgt high Hhigh
                (seq 1 (df_len data - 2)) [] (patterns_range data)
                (Forall_nil_2 _)) as Hsound.
  rewrite Heq in *. cbn in *. split.
  - intros e. split.
    + intros He. rewrite Forall_forall in Hsound. apply (Hsound e He).
    + intros (H1 & H2 & Hp & Hprice & Htime).
      assert (Hin : e_index e ∈ map e_index new).
      { rewrite Hidx. apply list_elem_of_In, filter_In. split; [|done].
        apply in_seq. lia. }
      apply list_elem_of_fmap in Hin as (e' & Hi & He').
      rewrite Forall_forall in Hsound.
      destruct (Hsound e' He') as (_ & _ & _ & Hp' & Ht').
      rewrite <- Hi in Hp', Ht'. rewrite Hprice in Hp'. rewrite Htime in Ht'.
      destruct e as [i p t], e' as [i' p' t']. cbn in *.
      by injection Hp' as ->; injection Ht' as ->; subst.
  - rewrite Hidx. apply filter_seq_sorted.
Qed.

Lemma identify_troughs (data : DataFrame) :
  troughs (identify_candle_patterns data)
  = if (df_len data <? 3)%nat then []
    else if (extrema_loop data "high" fgt (seq 1 (df_len data - 2)) []).2
         then (extrema_loop data "low" flt (seq 1 (df_len data - 2)) []).1
         else [].
Proof.
  unfold identify_candle_patterns. destruct (df_len data <? 3)%nat; [done|].
  destruct (extrema_loop data "high" fgt _ []) as [pks ok]. cbn.
  destruct ok; cbn; [|done].
  destruct (extrema_loop data "low" flt _ []) as [trs ok']. by destruct ok'.
Qed.

(** X2. With [high] and [low] columns as long as the index, the troughs
    are exactly the rows other than the first and the last whose low is
    below both neighbouring lows, listed in rising row order. *)
Theorem troughs_characterised (data : DataFrame) (high low : list cell) :
  getitem data "high" = Some high ->
  length high = df_len data ->
  getitem data "low" = Some low ->
  length low = df_len data ->
  (forall e, e ∈ troughs (identify_candle_patterns data) <->
     1 <= e_index e /\ e_index e + 1 < df_len data /\
     is_trough low (e_index e) = true /\
     low !! e_index e = Some (e_price e) /\
     df_index data !! e_index e = Some (e_time e)) /\
  StronglySorted lt (map e_index (troughs (identify_candle_patterns data))).
Proof.
  intros Hhigh Hlenh Hlow Hlen. rewrite identify_troughs.
  destruct (Nat.ltb_spec (df_len data) 3) as [Hsmall|Hbig].
  { split; [|constructor]. intros e. split; [by intros ?%elem_of_nil|].
    intros (? & ? & _). lia. }
  destruct (extrema_loop_complete data "high" fgt high Hhigh
              (seq 1 (df_len data - 2)) [] Hlenh (patterns_range data))
    as (pks & -> & _). cbn [snd].
  destruct (extrema_loop_complete data "low" flt low Hlow
              (seq 1 (df_len data - 2)) [] Hlen (patterns_range data))
    as (new & Heq & Hidx).
  pose proof (extrema_loop_sound data "low" flt low Hlow
                (seq 1 (df_len data - 2)) [] (patterns_range data)
                (Forall_nil_2 _)) as Hsound.
  rewrite Heq in *. cbn in *. split.
  - intros e. split.
    + intros He. rewrite Forall_forall in Hsound. apply (Hsound e He).
    + intros (H1 & H2 & Hp & Hprice & Htime).
      assert (Hin : e_index e ∈ map e_index new).
      { rewrite Hidx. apply list_elem_of_In, filter_In. split; [|done].
        apply in_seq. lia. }
      apply list_elem_of_fmap in Hin as (e' & Hi & He').
      rewrite Forall_forall in Hsound.
      destruct (Hsound e' He') as (_ & _ & _ & Hp' & Ht').
      rewrite <- Hi in Hp', Ht'. rewrite Hprice in Hp'. rewrite Htime in Ht'.
      destruct e as [i p t], e' as [i' p' t']. cbn in *.
      by injection Hp' as ->; injection Ht' as ->; subst.
  - rewrite Hidx. apply filter_seq_sorted.
Qed.

(** Without the column the loop records nothing. *)
Lemma extrema_loop_no_column (data : DataFrame) (col : string)
    (cmp : cell -> cell -> bool) (range : list nat) (found : list Extremum) :
  getitem data col = None ->
  (extrema_loop data col cmp range found).1 = found.
Proof. intros H. destruct range; cbn; [done|]. by rewrite H. Qed.

(** Whatever the frame, a recorded peak is a local high of the [high]
    column and a recorded trough a local low of the [low] column. *)
Lemma identify_sound (data : DataFrame) :
  (forall e, e ∈ peaks (identify_candle_patterns data) ->
     exists high, getitem data "high" = Some high /\ extremum_of data fgt high e) /\
  (forall e, e ∈ troughs (identify_candle_patterns data) ->
     exists low, getitem data "low" = Some low /\ extremum_of data flt low e).
Proof.
  rewrite identify_peaks, identify_troughs.
  destruct (df_len data <? 3)%nat; [split; by intros e ?%elem_of_nil|].
  split.
  - destruct (getitem data "high") as [high|] eqn:Hhigh.
    + intros e He. exists high. split; [done|].
      pose proof (extrema_loop_sound data "high" fgt high Hhigh _ []
                    (patterns_range data) (Forall_nil_2 _)) as Hs.
      rewrite Forall_forall in Hs. by apply Hs.
    + rewrite extrema_loop_no_column by done. by intros e ?%elem_of_nil.
  - destruct (extrema_loop data "high" fgt _ []).2; [|by intros e ?%elem_of_nil].
    destruct (getitem data "low") as [low|] eqn:Hlow.
    + intros e He. exists low. split; [done|].
      pose proof (extrema_loop_sound data "low" flt low Hlow _ []
                    (patterns_range data) (Forall_nil_2 _)) as Hs.
      rewrite Forall_forall in Hs. by apply Hs.
    + rewrite extrema_loop_no_column by done. by intros e ?%elem_of_nil.
Qed.

Lemma is_extremum_not_adjacent (cmp : cell -> cell -> bool) (series : list cell)
    (i : nat) :
  (forall a b, cmp a b = true -> cmp b a = false) ->
  is_extremum cmp series i = true -> is_extremum cmp series (i + 1) = false.
Proof.
  intros Hasym. unfold is_extremum.
  replace (i + 1 - 1) with i by lia.
  destruct (series !! i) as [cur|]; [|done].
  destruct (series !! (i - 1)) as [prev|]; [|done].
  destruct (series !! (i + 1)) as [nxt|]; [|done].
  intros [_ H]%andb_true_iff. apply Hasym in H.
  destruct (series !! (i + 1 + 1)); [|done]. by rewrite H.
Qed.

(** X3. For every frame, no two peaks lie in neighbouring rows, and no
    two troughs do. *)
Theorem extrema_never_adjacent (data : DataFrame) (e1 e2 : Extremum) :
  (e1 ∈ peaks (identify_candle_patterns data) ->
   e2 ∈ peaks (identify_candle_patterns data) ->
   e_index e2 <> e_index e1 + 1) /\
  (e1 ∈ troughs (identify_candle_patterns data) ->
   e2 ∈ troughs (identify_candle_patterns data) ->
   e_index e2 <> e_index e1 + 1).
Proof.
  destruct (identify_sound data) as [Hp Ht]. split; intros H1 H2 Heq.
  - destruct (Hp _ H1) as (high & Hh & _ & _ & Hx1 & _).
    destruct (Hp _ H2) as (high' & Hh' & _ & _ & Hx2 & _).
    rewrite Hh in Hh'. injection Hh' as <-. rewrite Heq in Hx2.
    rewrite (is_extremum_not_adjacent fgt high _ fgt_asym Hx1) in Hx2. done.
  - destruct (Ht _ H1) as (low & Hl & _ & _ & Hx1 & _).
    destruct (Ht _ H2) as (low' & Hl' & _ & _ & Hx2 & _).
    rewrite Hl in Hl'. injection Hl' as <-. rewrite Heq in Hx2.
    assert (Hasym : forall a b, flt a b = true -> flt b a = false).
    { intros a b. unfold flt. apply fgt_asym. }
    rewrite (is_extremum_not_adjacent flt low _ Hasym Hx1) in Hx2. done.
Qed.

(** X4. When no high is above the high of the next row (prices that only
    rise or stay), there is no peak, and the pattern type is "none"
    wherever the close stands. *)
Theorem rising_highs_no_pattern (data : DataFrame) (high : list cell) :
  getitem data "high" = Some high ->
  (forall i a b, high !! i = Some a -> high !! (i + 1) = Some b -> fgt a b = false) ->
  peaks (identify_candle_patterns data) = [] /\
  pattern_type (identify_candle_patterns data) = "none".
Proof.
  intros Hhigh Hmono.
  assert (Hnone : peaks (identify_candle_patterns data) = []).
  { destruct (peaks (identify_candle_patterns data)) as [|e l] eqn:Hp; [done|].
    destruct (proj1 (identify_sound data) e) as (high' & Hh' & _ & _ & Hx & _).
    { rewrite Hp. by left. }
    rewrite Hhigh in Hh'. injection Hh' as <-.
    unfold is_extremum in Hx.
    destruct (high !! e_index e) as [cur|] eqn:H1; [|done].
    destruct (high !! (e_index e - 1)) as [prev|]; [|done].
    destruct (high !! (e_index e + 1)) as [nxt|] eqn:H3; [|done].
    rewrite (Hmono _ _ _ H1 H3) in Hx. by rewrite andb_false_r in Hx. }
  split; [done|]. revert Hnone. unfold identify_candle_patterns.
  destruct (df_len data <? 3)%nat; [done|].
  destruct (extrema_loop data "high" fgt _ []) as [pks ok].
  destruct ok; cbn; [|done].
  destruct (extrema_loop data "low" flt _ []) as [trs ok'].
  destruct ok'; cbn; [|done]. by intros ->.
Qed.

(** ** Highest and lowest price *)

Section FoldBest.

(** [better x m]: [x] replaces the running best [m]. *)
Variable better : cell -> cell -> bool.
Hypothesis better_asym : forall a b, better a b = true -> better b a = false.
Hypothesis better_irrefl : forall a, better a a = false.
Hypothesis better_trans : forall a b c,
  isna a = false -> isna b = false -> isna c = false ->
  better a b = false -> better b c = false -> better a c = false.

Lemma fold_best_keeps (l : list cell) (m y : cell) :
  isna y = false -> isna m = false -> better y m = false ->
  isna (fold_left (best_step better) l m) = false /\
  better y (fold_left (best_step better) l m) = false.
Proof.
  revert m. induction l as [|x l IH]; intros m Hy Hm Hym; [done|].
  cbn [fold_left]. apply IH; [done| |]; unfold best_step.
  - destruct (isna x) eqn:Hx; [done|]. rewrite Hm. by destruct (better x m).
  - destruct (isna x) eqn:Hx; [done|]. rewrite Hm.
    destruct (better x m) eqn:Hxm; [|done].
    apply (better_trans y m x); try done. by apply better_asym.
Qed.

Lemma fold_best_bounds (l : list cell) (m x : cell) :
  x ∈ l -> isna x = false ->
  isna (fold_left (best_step better) l m) = false /\
  better x (fold_left (best_step better) l m) = false.
Proof.
  revert m. induction l as [|z l IH]; intros m Hin Hx; [by apply elem_of_nil in Hin|].
  apply elem_of_cons in Hin as [<-|Hin]; [|by apply IH].
  cbn [fold_left].
  assert (Hs : isna (best_step better m x) = false /\ better x (best_step better m x) = false).
  { unfold best_step. rewrite Hx. destruct (isna m) eqn:Hm; [by split|].
    destruct (better x m) eqn:Hxm; by split. }
  destruct Hs. by apply fold_best_keeps.
Qed.

End FoldBest.

(** The maximum of a column is not NaN, and not below any entry that is
    not NaN. *)
Lemma series_max_ge (col : list cell) (x : cell) :
  x ∈ col -> isna x = false ->
  isna (series_max col) = false /\ fgt x (series_max col) = false.
Proof.
  apply (fold_best_bounds fgt fgt_asym fgt_irrefl fgt_false_trans).
Qed.

Lemma series_min_le (col : list cell) (x : cell) :
  x ∈ col -> isna x = false ->
  isna (series_min col) = false /\ fgt (series_min col) x = false.
Proof.
  apply (fold_best_bounds flt).
  - intros a b. unfold flt. apply fgt_asym.
  - intros a. apply fgt_irrefl.
  - intros a b c Ha Hb Hc H1 H2. unfold flt in *.
    by apply (fgt_false_trans c b a).
Qed.

Lemma is_extremum_notna (cmp : cell -> cell -> bool) (series : list cell)
    (i : nat) (x : cell) :
  (forall a b, cmp a b = true -> isna a = false) ->
  is_extremum cmp series i = true -> series !! i = Some x -> isna x = false.
Proof.
  intros Hcmp. unfold is_extremum. intros H Hx. rewrite Hx in H.
  destruct (series !! (i - 1)) as [prev|]; [|done].
  destruct (series !! (i + 1)) as [nxt|]; [|done].
  apply andb_true_iff in H as [H _]. by apply Hcmp in H.
Qed.

Lemma last_elem_of {A : Type} (l : list A) (x : A) : last l = Some x -> x ∈ l.
Proof.
  intros H. apply last_Some in H as [l' ->]. apply elem_of_app. right. by left.
Qed.

(** X5. When [get_peak_trough_analysis] reports a resistance, there are
    at least two peaks and the resistance is a number not above the
    highest price; when it reports a support, there are at least two
    troughs and the support is a number not below the lowest price. *)
Theorem resistance_support_within_range (data : DataFrame) (a : Analysis) :
  get_peak_trough_analysis data = Some a ->
  (forall r, a_resistance a = Some r ->
     exists st, a_stats a = Some st /\
       2 <= length (peaks (a_patterns a)) /\
       isna r = false /\ fgt r (highest_price st) = false) /\
  (forall s, a_support a = Some s ->
     exists st, a_stats a = Some st /\
       2 <= length (troughs (a_patterns a)) /\
       isna s = false /\ fgt (lowest_price st) s = false).
Proof.
  unfold get_peak_trough_analysis. intros H.
  destruct (0 <? df_len data)%nat; [|injection H as <-; by split].
  destruct (getitem data "high") as [high|] eqn:Hhigh; [cbn [mbind option_bind] in H|done].
  destruct (getitem data "low") as [low|] eqn:Hlow; [cbn [mbind option_bind] in H|done].
  destruct (getitem data "open") as [open|]; [cbn [mbind option_bind] in H|done].
  destruct (head open) as [opening|]; [cbn [mbind option_bind] in H|done].
  destruct (getitem data "close") as [close|]; [cbn [mbind option_bind] in H|done].
  destruct (last close) as [closing|]; [cbn [mbind option_bind] in H|done].
  injection H as <-.
  cbn [a_resistance a_support a_stats a_patterns highest_price lowest_price].
  destruct (identify_sound data) as [Hp Ht]. split.
  - intros r Hr. eexists. split; [done|].
    cbn [highest_price lowest_price]. revert Hr.
    destruct (length (peaks (identify_candle_patterns data))) as [|[|n]];
      [done|done|].
    intros Hr. split; [lia|].
    destruct (last (peaks (identify_candle_patterns data))) as [e|] eqn:Hlast;
      [|done].
    injection Hr as <-.
    destruct (Hp e (last_elem_of _ _ Hlast)) as (high' & Hh' & _ & _ & Hx & Hprice & _).
    rewrite Hhigh in Hh'. injection Hh' as <-.
    assert (Hna : isna (e_price e) = false).
    { eapply is_extremum_notna; [|exact Hx|exact Hprice].
      intros x y Hxy. by apply fgt_notna in Hxy as [? _]. }
    split; [done|]. apply series_max_ge; [|done].
    by eapply list_elem_of_lookup_2.
  - intros s Hs. eexists. split; [done|].
    cbn [highest_price lowest_price]. revert Hs.
    destruct (length (troughs (identify_candle_patterns data))) as [|[|n]];
      [done|done|].
    intros Hs. split; [lia|].
    destruct (last (troughs (identify_candle_patterns data))) as [e|] eqn:Hlast;
      [|done].
    injection Hs as <-.
    destruct (Ht e (last_elem_of _ _ Hlast)) as (low' & Hl' & _ & _ & Hx & Hprice & _).
    rewrite Hlow in Hl'. injection Hl' as <-.
    assert (Hna : isna (e_price e) = false).
    { eapply is_extremum_notna; [|exact Hx|exact Hprice].
      intros x y Hxy. unfold flt in Hxy. by apply fgt_notna in Hxy as [_ ?]. }
    split; [done|]. apply series_min_le; [|done].
    by eapply list_elem_of_lookup_2.
Qed.

(** ** Prediction summary *)

Lemma count_if_le {A : Type} (cond : A -> bool) (l : list A) :
  count_if cond l <= length l.
Proof.
  unfold count_if. induction l as [|x l IH]; cbn; [done|].
  destruct (cond x); cbn; lia.
Qed.

Lemma count_bull_bear (l : list Prediction) :
  count_if is_bull l + count_if is_bear l = length l.
Proof.
  unfold count_if, is_bull, is_bear.
  induction l as [|p l IH]; cbn; [done|].
  destruct (p_signal p); cbn; lia.
Qed.

(** X6. [get_prediction_summary] always returns a summary: the bull and
    bear counts add up to the number of predictions, the alert count does
    not exceed it, the details are the predictions themselves, and the
    average confidence is NaN exactly for an empty list. *)
Theorem summary_counts (predictions : list Prediction) :
  exists s,
    get_prediction_summary predictions = Some s /\
    total_predictions s = length predictions /\
    bull_signals s + bear_signals s = total_predictions s /\
    triggered_alerts s <= total_predictions s /\
    details s = predictions /\
    (average_confidence s = NaN <-> predictions = []).
Proof.
  eexists. split; [done|]. cbn. split; [done|].
  split; [apply count_bull_bear|]. split; [apply count_if_le|].
  split; [done|]. by destruct predictions.
Qed.

(** *** Averages *)

Lemma Qsum_bounds (lo hi : Q) (l : list Q) :
  Forall (fun x => lo <= x /\ x <= hi)%Q l ->
  ((Z.of_nat (length l) # 1) * lo <= Qsum l /\
   Qsum l <= (Z.of_nat (length l) # 1) * hi)%Q.
Proof.
  induction 1 as [|x l [Hlo Hhi] _ [IHlo IHhi]].
  - unfold Qsum. cbn [length fold_right]. change (Z.of_nat 0) with 0%Z. lra.
  - unfold Qsum in *. cbn [fold_right length]. rewrite Qred_correct.
    assert (Hn : (Z.of_nat (S (length l)) # 1 == (Z.of_nat (length l) # 1) + 1)%Q).
    { unfold Qeq; cbn. lia. }
    rewrite Hn. lra.
Qed.

Lemma Qmean_bounds (lo hi : Q) (l : list Q) :
  l <> [] ->
  Forall (fun x => lo <= x /\ x <= hi)%Q l ->
  (lo <= Qmean l /\ Qmean l <= hi)%Q.
Proof.
  intros Hne Hl. destruct (Qsum_bounds lo hi l Hl) as [H1 H2].
  unfold Qmean. rewrite Qred_correct.
  assert (Hpos : (0 < Z.of_nat (length l) # 1)%Q).
  { unfold Qlt; cbn. destruct l; [done|]. cbn [length]. lia. }
  split.
  - apply Qle_shift_div_l; [done|]. lra.
  - apply Qle_shift_div_r; [done|]. lra.
Qed.

Lemma Qmax_list_proba_row_le (p : list Q) (c : Q) :
  proba_row p -> Qmax_list p = Some c -> (c <= 1)%Q.
Proof.
  intros (p0 & p1 & -> & H0 & H1 & Hsum). cbn.
  destruct (Qlt_bool p0 p1); intros [= <-]; lra.
Qed.

Lemma predict_confidence_range (m : Classifier) (X_scaled : list (list cell)) (c : Q) :
  binary_proba m -> predict_confidence m X_scaled = Some c ->
  (1 # 2 <= c /\ c <= 1)%Q.
Proof.
  intros Hm Hc. split; [by eapply predict_confidence_half|].
  revert Hc. unfold predict_confidence.
  destruct (clf_predict_proba m) as [pp|] eqn:Hpp.
  - destruct (pp X_scaled) as [probs|] eqn:Hprobs; [cbn|done].
    destruct probs as [|p probs]; [done|cbn].
    apply Qmax_list_proba_row_le.
    specialize (Hm pp X_scaled _ Hpp Hprobs). by inversion Hm.
  - intros [= <-]. lra.
Qed.

(** X7. When the classifiers of the engine return two non-negative
    probabilities that sum to one, the summary of a batch that returned
    at least one prediction has an average confidence between 0.5 and
    1. *)
Theorem batch_average_confidence (self : PredictionEngine)
    (data_dict : list (string * DataFrame)) (t : Q) (s : PredictionSummary) :
  engine_binary_proba self ->
  predict_batch self data_dict t <> [] ->
  get_prediction_summary (predict_batch self data_dict t) = Some s ->
  exists avg, average_confidence s = Num avg /\ (1 # 2 <= avg /\ avg <= 1)%Q.
Proof.
  intros Hm Hne [= <-]. cbn.
  assert (Hall : Forall (fun x => 1 # 2 <= x /\ x <= 1)%Q
                   (map p_confidence (predict_batch self data_dict t))).
  { apply Forall_fmap, Forall_forall. intros r Hr.
    apply elem_of_predict_batch in Hr as (instrument & data & _ & H).
    apply predict_next_day_Some in H
      as (a & tr & fc & X & sc & Xs & m & preds & pred & conf & ts
          & _ & Htr & _ & _ & _ & _ & Hmod & _ & _ & Hc & _ & ->).
    cbn. eapply predict_confidence_range; [|done]. by eapply Hm. }
  destruct (map p_confidence (predict_batch self data_dict t)) as [|c l] eqn:Hl.
  { apply fmap_nil_inv in Hl. done. }
  eexists. split; [done|]. by apply Qmean_bounds.
Qed.

(** X8. Raising the threshold never raises the number of triggered
    alerts a batch is summarised with, and leaves the number of
    predictions and the bull and bear counts as they are. *)
Theorem batch_alert_count_antitone (self : PredictionEngine)
    (data_dict : list (string * DataFrame)) (t1 t2 : Q) :
  (t1 <= t2)%Q ->
  exists s1 s2,
    get_prediction_summary (predict_batch self data_dict t1) = Some s1 /\
    get_prediction_summary (predict_batch self data_dict t2) = Some s2 /\
    triggered_alerts s2 <= triggered_alerts s1 /\
    total_predictions s2 = total_predictions s1 /\
    bull_signals s2 = bull_signals s1 /\ bear_signals s2 = bear_signals s1.
Proof.
  intros Hle. eexists _, _. split; [done|]. split; [done|]. cbn.
  rewrite !predict_batch_omap. unfold count_if.
  induction data_dict as [|[instrument data] l IH]; [cbn; lia|].
  cbn [omap list_omap fst snd].
  destruct (predict_next_day self data instrument t2) as [r2|] eqn:H2.
  - destruct (predict_next_day_threshold _ _ _ _ t1 _ H2) as [Ha ->].
    cbn. unfold is_bull, is_bear in *. cbn.
    rewrite Ha.
    assert (Hmono : Qle_bool t2 (p_confidence r2) = true ->
                    Qle_bool t1 (p_confidence r2) = true).
    { rewrite !Qle_bool_iff. intros. by eapply Qle_trans. }
    destruct (Qle_bool t2 (p_confidence r2)) eqn:Ht2.
    + rewrite Hmono by done. destruct (p_signal r2); cbn in *; lia.
    + destruct (Qle_bool t1 (p_confidence r2)), (p_signal r2); cbn in *; lia.
  - destruct (predict_next_day self data instrument t1) as [r1|] eqn:H1; [|done].
    destruct (predict_next_day_threshold _ _ _ _ t2 _ H1) as [_ H2'].
    congruence.
Qed.

(** ** Loading an artifact that is not there *)

(** X9. [PredictionEngine.load_model] reports success whether or not the
    artifact exists.  When the model file is missing, the engine's
    trainer object is left as it was and the instrument is bound to it
    all the same; on a fresh engine every later prediction for the
    instrument then fails. *)
Theorem engine_load_missing_artifact (fs : ModelsDir) (self : PredictionEngine)
    (instrument filename : string) (tr : MLModelTrainer) :
  heap self !! trainer self = Some tr ->
  model_pkl fs !! filename = None ->
  engine_load_model fs self instrument filename
  = (mkEngine (heap self) (trainer self)
              (<[instrument := trainer self]> (models self)), true) /\
  (forall data t,
     predict_next_day
       (engine_load_model fs PredictionEngine_init instrument filename).1
       data instrument t = None).
Proof.
  intros Htr Hmiss. split.
  - unfold engine_load_model. rewrite Htr.
    unfold load_model. rewrite Hmiss. cbn [fst].
    by rewrite insert_id.
  - intros data t. unfold engine_load_model, PredictionEngine_init. cbn.
    rewrite lookup_singleton_eq. unfold load_model. rewrite Hmiss. cbn.
    unfold predict_next_day. cbn. rewrite !lookup_insert_eq. cbn.
    destruct (predict_feature_cols data); [cbn|done].
    by destruct (predict_features data).
Qed.

(** ** Only the last row counts *)

Lemma mapM_row_drop (k j : nat) (l : list (string * list cell)) :
  mapM (fun c : string * list cell => v ← c.2 !! j; Some (c.1, [v]))
       (map (fun c : string * list cell => (c.1, drop k c.2)) l)
  = mapM (fun c : string * list cell => v ← c.2 !! (k + j); Some (c.1, [v])) l.
Proof.
  induction l as [|[n col] l IH]; [done|].
  simpl. rewrite lookup_drop. destruct (col !! (k + j)); [simpl|done].
  simpl in IH. by rewrite IH.
Qed.

Lemma iloc_last_drop (k : nat) (data : DataFrame) :
  k < df_len data -> iloc_last (df_drop k data) = iloc_last data.
Proof.
  intros Hk. unfold iloc_last.
  assert (Hlen : df_len (df_drop k data) = df_len data - k).
  { unfold df_len, df_drop; cbn. apply length_drop. }
  rewrite Hlen.
  destruct (Nat.eqb_spec (df_len data - k) 0) as [|_]; [lia|].
  destruct (Nat.eqb_spec (df_len data) 0) as [|_]; [lia|].
  unfold df_drop; cbn [df_index df_data]. rewrite lookup_drop, mapM_row_drop.
  by replace (k + (df_len data - k - 1)) with (df_len data - 1) by lia.
Qed.

(** X10. A prediction is made from the last row alone: dropping any
    number of older rows, as long as one row is left, changes nothing in
    the result. *)
Theorem predict_uses_last_row_only (self : PredictionEngine) (data : DataFrame)
    (instrument : string) (t : Q) (k : nat) :
  k < df_len data ->
  predict_next_day self (df_drop k data) instrument t
  = predict_next_day self data instrument t.
Proof.
  intros Hk. unfold predict_next_day, predict_features, predict_feature_cols.
  rewrite (iloc_last_drop k data Hk).
  assert (Hlast : last (df_index (df_drop k data)) = last (df_index data)).
  { unfold df_drop; cbn. unfold df_len in Hk.
    rewrite !last_lookup, length_drop, lookup_drop. f_equal. lia. }
  by rewrite Hlast.
Qed.

(** ** A short history meets a fully trained artifact *)

Lemma cols_within_feature_cols (names : list string) (df : DataFrame) (n : string) :
  cols_within names df -> n ∈ feature_cols_of (df_columns df) -> n ∈ names.
Proof. intros H Hn. by apply H, feature_cols_of_subseteq. Qed.

Lemma short_history_no_sma_50 (ta : TALib) (cs : list Candle) (df : DataFrame) :
  length cs < 50 ->
  extract_all_features ta (candles_df cs) = Some df ->
  "sma_50" ∉ df_columns df.
Proof.
  intros Hlen Hdf.
  destruct (all_features_short ta short_history_columns (candles_df cs))
    as (features_df & Hall & Hcols).
  { by rewrite candles_df_len. }
  { intros n H. unfold candles_df, df_columns in H; cbn in H.
    unfold short_history_columns.
    repeat (apply elem_of_cons in H as [->|H]; [repeat constructor|]).
    by apply elem_of_nil in H. }
  { done. }
  unfold extract_all_features in Hdf. rewrite Hall in Hdf.
  injection Hdf as <-. rewrite dropna_columns.
  intros H. apply Hcols in H. unfold short_history_columns in H.
  repeat (apply elem_of_cons in H as [H|H]; [discriminate|]).
  by apply elem_of_nil in H.
Qed.

Lemma predict_rejects_missing_column (self : PredictionEngine) (df : DataFrame)
    (instrument : string) (t : Q) (a : addr) (tr : MLModelTrainer)
    (sc : StandardScaler) (names : list string) (c : string) :
  models self !! instrument = Some a ->
  heap self !! a = Some tr ->
  scaler tr = Some (Fitted sc) ->
  feature_names_in_ sc = Some names ->
  c ∈ names -> c ∉ df_columns df ->
  predict_next_day self df instrument t = None.
Proof.
  intros Ha Htr Hsc Hnames Hin Hno.
  destruct (predict_next_day self df instrument t) as [r|] eqn:Hr; [|done].
  apply predict_next_day_Some in Hr
    as (a' & tr' & fc & X & sc' & Xs & m & preds & pred & conf & ts
        & Ha' & Htr' & _ & HX & Hsc' & HXs & _).
  rewrite Ha in Ha'. injection Ha' as <-.
  rewrite Htr in Htr'. injection Htr' as <-.
  rewrite Hsc in Hsc'. injection Hsc' as <-.
  apply predict_features_columns in HX as Hcols.
  cbn in HXs. unfold scaler_transform in HXs. rewrite Hnames in HXs.
  unfold list_eqb in HXs.
  destruct (bool_decide (names = df_columns X)) eqn:Heq; [|done].
  apply bool_decide_eq_true in Heq. exfalso. apply Hno.
  rewrite Heq, Hcols in Hin. by apply feature_cols_of_subseteq.
Qed.

(** X11. A feature table made from fewer than 50 candles is never scored
    by an artifact whose scaler was fitted with an [sma_50] column: the
    table has no such column, the scaler refuses it, and
    [predict_next_day] returns nothing.  (The agent predicts from the
    previous day's hourly candles.) *)
Theorem short_history_never_predicted (ta : TALib) (cs : list Candle)
    (self : PredictionEngine) (instrument : string) (t : Q)
    (a : addr) (tr : MLModelTrainer) (sc : StandardScaler)
    (names : list string) (df : DataFrame) :
  length cs < 50 ->
  extract_all_features ta (candles_df cs) = Some df ->
  models self !! instrument = Some a ->
  heap self !! a = Some tr ->
  scaler tr = Some (Fitted sc) ->
  feature_names_in_ sc = Some names ->
  "sma_50" ∈ names ->
  predict_next_day self df instrument t = None.
Proof.
  intros Hlen Hdf Ha Htr Hsc Hnames Hin.
  pose proof (short_history_no_sma_50 ta cs df Hlen Hdf) as Hno.
  by eapply predict_rejects_missing_column.
Qed.

(** ** [prepare_data]: edge cases and the shape of its result *)

Lemma create_labels_loop_binary (data : DataFrame) (range : list nat)
    (labels out : list Z) :
  Forall (fun l => l = 1%Z \/ l = 0%Z) labels ->
  create_labels_loop data range labels = Some out ->
  Forall (fun l => l = 1%Z \/ l = 0%Z) out.
Proof.
  revert labels. induction range as [|i range IH]; intros labels Hl H; cbn in H.
  - by injection H as <-.
  - destruct (getitem data "close") as [close|]; [cbn in H|done].
    destruct (close !! (i + 1)) as [nxt|]; [cbn in H|done].
    destruct (close !! i) as [cur|]; [cbn in H|done].
    eapply IH; [|exact H]. apply Forall_app. split; [done|].
    constructor; [|done]. destruct (fgt nxt cur); [by left|by right].
Qed.

Lemma create_labels_binary (data : DataFrame) (y : list Z) :
  create_labels data = Some y -> Forall (fun l => l = 1%Z \/ l = 0%Z) y.
Proof. by apply create_labels_loop_binary. Qed.

Lemma df_take_columns (k : nat) (df : DataFrame) :
  df_columns (df_take k df) = df_columns df.
Proof.
  unfold df_columns, df_take; cbn. rewrite <- list_fmap_compose.
  by apply list_fmap_ext.
Qed.

Lemma aligned_data_Some (data X : DataFrame) (y : list Z) :
  aligned_data data = Some (X, y) ->
  df_len X = length y /\ length y <= df_len data - 1 /\
  df_columns X = feature_cols_of (df_columns data) /\
  Forall (fun l => l = 1%Z \/ l = 0%Z) y.
Proof.
  unfold aligned_data. intros H.
  destruct (getitems data _) as [X_raw|] eqn:HX; [|done].
  cbn [mbind option_bind] in H.
  destruct (create_labels data) as [y_raw|] eqn:Hy; [|done].
  cbn [mbind option_bind] in H. injection H as <- <-.
  pose proof (create_labels_length _ _ Hy) as Hly.
  pose proof (df_len_dropna_le X_raw) as Hle.
  pose proof (create_labels_binary _ _ Hy) as Hbin.
  assert (Hn : df_len X_raw = df_len data).
  { revert HX. unfold getitems. destruct (mapM _ _); [cbn|done].
    by intros [= <-]. }
  apply getitems_columns in HX.
  unfold align_X, align_y.
  destruct (Nat.ltb_spec (length y_raw) (df_len (dropna X_raw))) as [Hlt|Hge].
  - rewrite df_len_take, df_take_columns, dropna_columns.
    destruct (Nat.ltb_spec ((df_len (dropna X_raw) - 1) `min` df_len (dropna X_raw))
                           (length y_raw)) as [Hlt'|Hge'].
    + rewrite length_take. repeat split; [lia|lia|done|by apply Forall_take].
    + repeat split; [lia|lia|done|done].
  - rewrite dropna_columns.
    destruct (Nat.ltb_spec (df_len (dropna X_raw)) (length y_raw)) as [Hlt'|Hge'].
    + rewrite length_take. repeat split; [lia|lia|done|by apply Forall_take].
    + repeat split; [lia|lia|done|done].
Qed.

(** X12. A table of at most one row never yields a split, whatever
    [train_test_split] does: no row is left after the alignment and the
    scaler cannot be fitted.  The feature columns of the table are
    recorded in the trainer all the same. *)
Theorem prepare_data_single_row
    (train_test_split : nat -> Q -> Z -> list Z -> option (list nat * list nat))
    (self : MLModelTrainer) (data : DataFrame) (test_size : Q) :
  df_len data <= 1 ->
  (prepare_data train_test_split self data test_size).2 = None /\
  feature_columns (prepare_data train_test_split self data test_size).1
  = Some (feature_cols_of (df_columns data)).
Proof.
  intros Hlen. unfold prepare_data.
  destruct (aligned_data data) as [[X y]|] eqn:Hal; [|done].
  apply aligned_data_Some in Hal as (HX & Hy & _).
  unfold scaler_fit.
  destruct (Nat.eqb_spec (df_len X) 0) as [_|Hne]; [done|]. lia.
Qed.

Lemma handle_zeros_nonzero (s : Q) : Qeq_bool (handle_zeros_in_scale s) 0 = false.
Proof.
  unfold handle_zeros_in_scale. destruct (Qeq_bool s 0) eqn:Hs; [done|exact Hs].
Qed.

Lemma scale_cell_finite (q m s : Q) :
  Qeq_bool s 0 = false -> isfinite (scale_cell (Num q) m s) = true.
Proof. intros Hs. unfold scale_cell. cbn. by rewrite Hs. Qed.

Lemma scale_row_finite (row : list cell) (ms ss : list Q) :
  Forall (fun c => isfinite c = true) row ->
  Forall (fun s => Qeq_bool s 0 = false) ss ->
  length ms = length row -> length ss = length row ->
  length (scale_row row ms ss) = length row /\
  Forall (fun c => isfinite c = true) (scale_row row ms ss).
Proof.
  revert ms ss. induction row as [|c row IH]; intros ms ss Hrow Hss Hm Hs.
  - by destruct ms, ss.
  - destruct ms as [|m ms], ss as [|s ss]; try done.
    inversion Hrow as [|? ? Hc Hrow']; subst.
    inversion Hss as [|? ? Hs0 Hss']; subst.
    destruct (IH ms ss Hrow' Hss') as [Hlen Hfin]; [cbn in *; lia..|].
    cbn. split; [by rewrite Hlen|]. constructor; [|done].
    destruct c; try done. by apply scale_cell_finite.
Qed.

Lemma scaler_fit_Some (X : DataFrame) (sc : StandardScaler) :
  scaler_fit X = Some sc ->
  length (mean_ sc) = length (df_data X) /\
  length (scale_ sc) = length (df_data X) /\
  Forall (fun s => Qeq_bool s 0 = false) (scale_ sc) /\
  feature_names_in_ sc = Some (df_columns X) /\
  Forall (fun c : string * list cell => Forall (fun x => isfinite x = true) c.2)
         (df_data X).
Proof.
  unfold scaler_fit.
  destruct (df_len X =? 0)%nat; [done|].
  destruct (length (df_data X) =? 0)%nat; [done|].
  destruct (mapM _ (df_data X)) as [cols|] eqn:Hcols; [cbn|done].
  intros [= <-]. cbn. apply mapM_Some in Hcols.
  pose proof (Forall2_length _ _ _ Hcols) as Hlen.
  rewrite !length_map. repeat split; try done.
  - apply Forall_fmap, Forall_fmap, Forall_forall. intros v _. cbn.
    apply handle_zeros_nonzero.
  - clear Hlen. induction Hcols as [|[n col] qs l l' Hx _ IH]; [done|].
    constructor; [|done]. cbn in *. unfold finite_column in Hx.
    apply mapM_Some in Hx. clear -Hx.
    induction Hx as [|c q ? ? Hc _ IH]; [done|]. constructor; [|done].
    by destruct c.
Qed.

Lemma df_values_rows (X : DataFrame) (rows : list (list cell)) :
  df_values X = Some rows ->
  Forall (fun c : string * list cell => Forall (fun x => isfinite x = true) c.2)
         (df_data X) ->
  Forall (fun r => length r = length (df_data X) /\
                   Forall (fun x => isfinite x = true) r) rows.
Proof.
  unfold df_values. intros H Hfin. apply mapM_Some in H.
  apply Forall_forall. intros r Hr.
  apply list_elem_of_lookup in Hr as [k Hk].
  destruct (Forall2_lookup_r _ _ _ _ _ H Hk) as (i & _ & Hrow).
  unfold df_row in Hrow. apply mapM_Some in Hrow.
  split; [symmetry; by eapply Forall2_length|].
  clear -Hrow Hfin. induction Hrow as [|c x l l' Hx _ IH]; [done|].
  inversion Hfin as [|? ? Hc Hfin']; subst.
  constructor; [|by apply IH]. rewrite Forall_forall in Hc.
  apply Hc. by eapply list_elem_of_lookup_2.
Qed.

Lemma mapM_lookup_pairs {A B : Type} (l : list A) (k : list B) (idx : list nat)
    (out1 : list A) (out2 : list B) :
  mapM (fun i => l !! i) idx = Some out1 ->
  mapM (fun i => k !! i) idx = Some out2 ->
  length out1 = length out2 /\
  forall j x y, out1 !! j = Some x -> out2 !! j = Some y ->
    exists i, l !! i = Some x /\ k !! i = Some y.
Proof.
  intros H1 H2. apply mapM_Some in H1, H2.
  split; [by rewrite <- (Forall2_length _ _ _ H1), (Forall2_length _ _ _ H2)|].
  intros j x y Hx Hy.
  destruct (Forall2_lookup_r _ _ _ _ _ H1 Hx) as (i & Hi & Hl).
  destruct (Forall2_lookup_r _ _ _ _ _ H2 Hy) as (i' & Hi' & Hk).
  rewrite Hi in Hi'. injection Hi' as <-. by exists i.
Qed.

(** X13. When [prepare_data] returns, whatever [train_test_split] chose:
    there are as many train rows as train labels and as many test rows
    as test labels; a row and the label at the same position belong to
    the same row of the aligned data; every row holds one finite number
    per feature column; every label is 0 or 1. *)
Theorem prepared_data_shape
    (train_test_split : nat -> Q -> Z -> list Z -> option (list nat * list nat))
    (self : MLModelTrainer) (data : DataFrame) (test_size : Q)
    (X_train X_test : list (list cell)) (y_train y_test : list Z) :
  (prepare_data train_test_split self data test_size).2
  = Some (X_train, X_test, y_train, y_test) ->
  length X_train = length y_train /\ length X_test = length y_test /\
  (exists X y sc X_scaled,
     aligned_data data = Some (X, y) /\ scaler_fit X = Some sc /\
     scaler_transform sc X = Some X_scaled /\
     (forall j row l, X_train !! j = Some row -> y_train !! j = Some l ->
        exists i, X_scaled !! i = Some row /\ y !! i = Some l) /\
     (forall j row l, X_test !! j = Some row -> y_test !! j = Some l ->
        exists i, X_scaled !! i = Some row /\ y !! i = Some l)) /\
  Forall (fun row => length row = length (feature_cols_of (df_columns data)) /\
                     Forall (fun c => isfinite c = true) row)
         (X_train ++ X_test) /\
  Forall (fun l => l = 1%Z \/ l = 0%Z) (y_train ++ y_test).
Proof.
  unfold prepare_data.
  destruct (aligned_data data) as [[X y]|] eqn:Hal; [|done].
  destruct (scaler_fit X) as [sc|] eqn:Hfit; [|done]. cbn [snd].
  destruct (scaler_transform sc X) as [X_scaled|] eqn:Htr; [cbn|done].
  destruct (train_test_split _ _ _ _) as [[train test]|]; [cbn|done].
  destruct (mapM (fun i => X_scaled !! i) train) as [Xtr|] eqn:H1; [cbn|done].
  destruct (mapM (fun i => X_scaled !! i) test) as [Xte|] eqn:H2; [cbn|done].
  destruct (mapM (fun i => y !! i) train) as [ytr|] eqn:H3; [cbn|done].
  destruct (mapM (fun i => y !! i) test) as [yte|] eqn:H4; [cbn|done].
  intros [= <- <- <- <-].
  destruct (mapM_lookup_pairs _ _ _ _ _ H1 H3) as [Hl1 Hp1].
  destruct (mapM_lookup_pairs _ _ _ _ _ H2 H4) as [Hl2 Hp2].
  split; [done|]. split; [done|]. split.
  { exists X, y, sc, X_scaled. by repeat split. }
  apply aligned_data_Some in Hal as (_ & _ & Hcols & Hbin).
  destruct (scaler_fit_Some _ _ Hfit) as (Hm & Hs & Hnz & _ & Hfin).
  assert (Hrows : Forall (fun row =>
            length row = length (feature_cols_of (df_columns data)) /\
            Forall (fun c => isfinite c = true) row) X_scaled).
  { revert Htr. unfold scaler_transform.
    destruct (negb _); [done|]. destruct (negb _); [done|].
    destruct (df_values X) as [rows|] eqn:Hv; [cbn|done].
    destruct (existsb _ rows); [done|]. intros [= <-].
    apply df_values_rows in Hv; [|done].
    apply Forall_fmap. eapply Forall_impl; [exact Hv|].
    intros r [Hlen Hr]. cbn.
    destruct (scale_row_finite r (mean_ sc) (scale_ sc) Hr Hnz) as [Hl Hf];
      [lia..|].
    split; [|done]. rewrite Hl, Hlen, <- Hcols. unfold df_columns.
    by rewrite length_fmap. }
  split.
  - apply Forall_app. rewrite Forall_forall in Hrows.
    split; apply Forall_forall; intros row Hrow; apply Hrows;
      [exact (mapM_lookup_elem_of _ _ _ H1 _ Hrow)
      |exact (mapM_lookup_elem_of _ _ _ H2 _ Hrow)].
  - apply Forall_app. rewrite Forall_forall in Hbin.
    split; apply Forall_forall; intros l Hl; apply Hbin;
      [exact (mapM_lookup_elem_of _ _ _ H3 _ Hl)
      |exact (mapM_lookup_elem_of _ _ _ H4 _ Hl)].
Qed.

(** ** Loading and saving artifacts *)

(** X14. [MLModelTrainer.load_model] succeeds exactly when the three
    files exist, and a failed load is not all-or-nothing: with no model
    file the trainer is untouched; with a model file but no scaler file
    the trainer holds the new model beside its old scaler and feature
    list; with both but no feature file it holds the new model and scaler
    beside its old feature list.  ([m] and [s] are what the pickles hold:
    an object or [None].) *)
Theorem load_model_partial (fs : ModelsDir) (self : MLModelTrainer)
    (filename : string) :
  ((load_model fs self filename).2 = true <->
     is_Some (model_pkl fs !! filename) /\
     is_Some (scaler_pkl fs !! filename) /\
     is_Some (features_txt fs !! filename)) /\
  (model_pkl fs !! filename = None ->
     load_model fs self filename = (self, false)) /\
  (forall m,
     model_pkl fs !! filename = Some m -> scaler_pkl fs !! filename = None ->
     load_model fs self filename
     = (mkTrainer (model_type self) m (scaler self) (feature_columns self),
        false)) /\
  (forall m s,
     model_pkl fs !! filename = Some m -> scaler_pkl fs !! filename = Some s ->
     features_txt fs !! filename = None ->
     load_model fs self filename
     = (mkTrainer (model_type self) m s (feature_columns self),
        false)).
Proof.
  unfold load_model. repeat split.
  - destruct (model_pkl fs !! filename); [|done]. by eexists.
  - destruct (model_pkl fs !! filename); [|done].
    destruct (scaler_pkl fs !! filename); [|done]. by eexists.
  - destruct (model_pkl fs !! filename); [|done].
    destruct (scaler_pkl fs !! filename); [|done].
    destruct (features_txt fs !! filename); [|done]. by eexists.
  - intros ([m ->] & [s ->] & [cols ->]). done.
  - by intros ->.
  - by intros m -> ->.
  - by intros m s -> -> ->.
Qed.

(** X15. A trainer that holds a model, a scaler and a feature list saves
    them with success, and loading the same name into any trainer then
    succeeds and gives back that model and that scaler; the artifacts
    stored under other names load as before. *)
Theorem save_then_load (self : MLModelTrainer) (fs : ModelsDir)
    (filename : string) (m : Classifier) (s : ScalerObj) (cols : list string) :
  model self = Some m ->
  scaler self = Some s ->
  feature_columns self = Some cols ->
  exists fs',
    save_model self fs filename = (fs', true) /\
    (forall tr,
       (load_model fs' tr filename).2 = true /\
       model (load_model fs' tr filename).1 = Some m /\
       scaler (load_model fs' tr filename).1 = Some s) /\
    (forall other tr,
       other <> filename -> load_model fs' tr other = load_model fs tr other).
Proof.
  intros Hm Hs Hc. unfold save_model. rewrite Hm, Hs, Hc. cbn.
  eexists. split; [done|]. split.
  - intros tr. unfold load_model. cbn. by rewrite !lookup_insert_eq.
  - intros other tr Hne. unfold load_model. cbn.
    by rewrite !lookup_insert_ne.
Qed.

(** X26. A failed save is not all-or-nothing, and what it leaves behind
    loads.  [save_model] returns [True] exactly when the trainer has a
    feature list, whether or not it has a model.  For a trainer without a
    feature list it returns [False] after it has written both pickles,
    holding the trainer's model and scaler as they are ([None] for a fresh
    trainer), and has left an empty feature file; [load_model] of that
    name then returns [True] and gives a trainer with that model, that
    scaler and the feature list [['']].  Artifacts under other names are
    untouched. *)
Theorem failed_save_leaves_artifact (self : MLModelTrainer) (fs : ModelsDir)
    (filename : string) :
  ((save_model self fs filename).2 = true <-> is_Some (feature_columns self)) /\
  (feature_columns self = None ->
   exists fs',
     save_model self fs filename = (fs', false) /\
     model_pkl fs' !! filename = Some (model self) /\
     scaler_pkl fs' !! filename = Some (scaler self) /\
     features_txt fs' !! filename = Some [""] /\
     (forall tr,
        load_model fs' tr filename
        = (mkTrainer (model_type tr) (model self) (scaler self) (Some [""]),
           true)) /\
     (forall other tr,
        other <> filename -> load_model fs' tr other = load_model fs tr other)).
Proof.
  unfold save_model. split.
  - destruct (feature_columns self) as [cols|]; cbn.
    + split; [intros _; by eexists|done].
    + split; [done|by intros [? ?]].
  - intros ->. eexists. split; [done|]. cbn.
    rewrite !lookup_insert_eq.
    split; [done|]. split; [done|]. split; [done|]. split.
    + intros tr. unfold load_model. cbn. by rewrite !lookup_insert_eq.
    + intros other tr Hne. unfold load_model. cbn.
      by rewrite !lookup_insert_ne.
Qed.

(** ** The training pipeline *)

Section TrainingFacts.

Variable train_test_split :
  forall (n_samples : nat) (test_size : Q) (random_state : Z)
         (stratify : list Z), option (list nat * list nat).
Variable make_estimator : ModelKind -> Classifier.
Variable fit : Classifier -> list (list cell) -> list Z -> option Classifier.
Variable Metrics : Type.
Variable metrics_of : list Z -> list Z -> option Metrics.

Local Abbreviation run_training :=
  (train_from_data train_test_split make_estimator fit Metrics metrics_of).

(** What [prepare_data] leaves in the trainer when it returns arrays. *)
Lemma prepare_data_Some (self : MLModelTrainer) (data : DataFrame)
    (test_size : Q) (prepared : PreparedData) :
  (prepare_data train_test_split self data test_size).2 = Some prepared ->
  exists X y sc,
    aligned_data data = Some (X, y) /\ scaler_fit X = Some sc /\
    (prepare_data train_test_split self data test_size).1
    = mkTrainer (model_type self) (model self) (Some (Fitted sc))
                (Some (feature_cols_of (df_columns data))).
Proof.
  unfold prepare_data.
  destruct (aligned_data data) as [[X y]|] eqn:Hal; [|done].
  destruct (scaler_fit X) as [sc|] eqn:Hfit; [|done]. cbn.
  intros _. by exists X, y, sc.
Qed.

(** A scaler is only fitted on a table with a column, so the feature list
    that is saved with it is not empty. *)
Lemma fitted_feature_list (data X : DataFrame) (y : list Z) (sc : StandardScaler) :
  aligned_data data = Some (X, y) -> scaler_fit X = Some sc ->
  written_lines (feature_cols_of (df_columns data))
  = feature_cols_of (df_columns data).
Proof.
  intros Hal Hfit. apply aligned_data_Some in Hal as (_ & _ & Hcols & _).
  rewrite <- Hcols. revert Hfit. unfold scaler_fit, df_columns.
  destruct (df_len X =? 0)%nat; [done|].
  by destruct (df_data X).
Qed.

(** Every way through [train_from_data], step by step. *)
Lemma train_from_data_cases (self : MLModelTrainer) (fs : ModelsDir)
    (data : DataFrame) (filename : string) :
  ((run_training self fs data filename).2 = None /\
   (run_training self fs data filename).1.2 = fs /\
   ((prepare_data train_test_split self data TRAIN_TEST_SPLIT).2 = None \/
    kind_of_type (model_type self) = None \/
    exists X_train X_test y_train y_test kind,
      (prepare_data train_test_split self data TRAIN_TEST_SPLIT).2
      = Some (X_train, X_test, y_train, y_test) /\
      kind_of_type (model_type self) = Some kind /\
      (fit (make_estimator kind) X_train y_train = None \/
       exists m, fit (make_estimator kind) X_train y_train = Some m /\
         (clf_predict m X_test ≫= metrics_of y_test) = None))) \/
  (exists X y sc X_train X_test y_train y_test kind m y_pred metrics,
     aligned_data data = Some (X, y) /\ scaler_fit X = Some sc /\
     (prepare_data train_test_split self data TRAIN_TEST_SPLIT).2
     = Some (X_train, X_test, y_train, y_test) /\
     kind_of_type (model_type self) = Some kind /\
     fit (make_estimator kind) X_train y_train = Some m /\
     clf_predict m X_test = Some y_pred /\
     metrics_of y_test y_pred = Some metrics /\
     run_training self fs data filename
     = (mkTrainer (model_type self) (Some m) (Some (Fitted sc))
                  (Some (feature_cols_of (df_columns data))),
        mkModelsDir (<[filename := Some m]> (model_pkl fs))
                    (<[filename := Some (Fitted sc)]> (scaler_pkl fs))
                    (<[filename := feature_cols_of (df_columns data)]>
                       (features_txt fs)),
        Some (mkTrainingResult "success" metrics (model_path filename)))).
Proof.
  unfold train_from_data.
  destruct (prepare_data train_test_split self data TRAIN_TEST_SPLIT)
    as [self1 prepared] eqn:Hprep.
  destruct prepared as [[[[X_train X_test] y_train] y_test]|];
    [|left; cbn; by auto].
  destruct (prepare_data_Some self data TRAIN_TEST_SPLIT
              (X_train, X_test, y_train, y_test)) as (X & y & sc & Hal & Hfit & Hself).
  { by rewrite Hprep. }
  rewrite Hprep in Hself. cbn in Hself. subst self1.
  unfold create_model. cbn [model_type].
  destruct (kind_of_type (model_type self)) as [kind|] eqn:Hkind;
    [|left; cbn; by auto].
  cbn [negb]. unfold train. cbn [model mbind option_bind].
  destruct (fit (make_estimator kind) X_train y_train) as [m|] eqn:Hm.
  2:{ left. cbn. split; [done|]. split; [done|]. right. right.
      exists X_train, X_test, y_train, y_test, kind. by auto. }
  cbn [negb]. unfold evaluate. cbn [model mbind option_bind].
  destruct (clf_predict m X_test) as [y_pred|] eqn:Hpred; cbn [mbind option_bind].
  2:{ left. cbn. split; [done|]. split; [done|]. right. right.
      exists X_train, X_test, y_train, y_test, kind. split; [done|].
      split; [done|]. right. exists m. by rewrite Hpred. }
  destruct (metrics_of y_test y_pred) as [metrics|] eqn:Hmet.
  2:{ left. cbn. split; [done|]. split; [done|]. right. right.
      exists X_train, X_test, y_train, y_test, kind. split; [done|].
      split; [done|]. right. exists m. by rewrite Hpred. }
  right. exists X, y, sc, X_train, X_test, y_train, y_test, kind, m, y_pred, metrics.
  unfold save_model. cbn [model scaler feature_columns negb].
  rewrite (fitted_feature_list data X y sc Hal Hfit).
  by repeat split.
Qed.

(** X16. [train_from_data] returns nothing exactly when one of the four
    steps before the save fails: [prepare_data] returns no arrays, the
    model type is none of xgboost, random_forest and svm, the fit raises,
    or the evaluation raises.  The save step is then not reached, and the
    models directory is as it was.  When the four steps succeed, the save
    step finds the scaler and the feature list that [prepare_data] has set
    and the model that [train] has set; [save_model], which fails half-way
    for a trainer without a feature list, then succeeds.  (Errors of the
    file system are not part of the model.) *)
Theorem train_from_data_failure (self : MLModelTrainer) (fs : ModelsDir)
    (data : DataFrame) (filename : string) :
  ((run_training self fs data filename).2 = None <->
   (prepare_data train_test_split self data TRAIN_TEST_SPLIT).2 = None \/
   kind_of_type (model_type self) = None \/
   exists X_train X_test y_train y_test kind,
     (prepare_data train_test_split self data TRAIN_TEST_SPLIT).2
     = Some (X_train, X_test, y_train, y_test) /\
     kind_of_type (model_type self) = Some kind /\
     (fit (make_estimator kind) X_train y_train = None \/
      exists m, fit (make_estimator kind) X_train y_train = Some m /\
        (clf_predict m X_test ≫= metrics_of y_test) = None)) /\
  ((run_training self fs data filename).2 = None ->
   (run_training self fs data filename).1.2 = fs).
Proof.
  destruct (train_from_data_cases self fs data filename)
    as [(Hnone & Hfs & Hwhy)|Hok].
  - split; [by split|done].
  - destruct Hok as (X & y & sc & Xtr & Xte & ytr & yte & kind & m & yp & met
                     & _ & _ & Hprep & Hkind & Hm & Hp & Hmet & ->).
    cbn [snd fst]. split; [|done]. split; [done|].
    intros [H|[H|H]].
    + by rewrite Hprep in H.
    + by rewrite Hkind in H.
    + destruct H as (Xtr' & Xte' & ytr' & yte' & kind' & Hprep' & Hkind' & Hfail).
      rewrite Hprep in Hprep'. injection Hprep' as <- <- <- <-.
      rewrite Hkind in Hkind'. injection Hkind' as <-.
      destruct Hfail as [Hfit|(m' & Hfit & Hev)].
      * by rewrite Hm in Hfit.
      * rewrite Hm in Hfit. injection Hfit as <-.
        rewrite Hp in Hev. cbn in Hev. by rewrite Hmet in Hev.
Qed.

(** X17. When [train_from_data] succeeds, the classifier was fitted on
    the train part only and the metrics were computed on the test part,
    while the scaler saved with it was fitted on all aligned rows; the
    three files stored under the name hold that classifier, that scaler
    and the feature columns of the table, and artifacts under other
    names are left alone. *)
Theorem train_from_data_success (self self' : MLModelTrainer)
    (fs fs' : ModelsDir) (data : DataFrame) (filename : string)
    (res : TrainingResult Metrics) :
  run_training self fs data filename = (self', fs', Some res) ->
  exists X y sc X_train X_test y_train y_test kind m y_pred,
    aligned_data data = Some (X, y) /\ scaler_fit X = Some sc /\
    (prepare_data train_test_split self data TRAIN_TEST_SPLIT).2
    = Some (X_train, X_test, y_train, y_test) /\
    kind_of_type (model_type self) = Some kind /\
    fit (make_estimator kind) X_train y_train = Some m /\
    clf_predict m X_test = Some y_pred /\
    metrics_of y_test y_pred = Some (tr_metrics res) /\
    tr_status res = "success" /\ tr_model_path res = model_path filename /\
    model_pkl fs' !! filename = Some (Some m) /\
    scaler_pkl fs' !! filename = Some (Some (Fitted sc)) /\
    features_txt fs' !! filename = Some (feature_cols_of (df_columns data)) /\
    (forall other tr, other <> filename ->
       load_model fs' tr other = load_model fs tr other) /\
    self' = mkTrainer (model_type self) (Some m) (Some (Fitted sc))
              (Some (feature_cols_of (df_columns data))).
Proof.
  intros H.
  destruct (train_from_data_cases self fs data filename)
    as [(Hnone & _)|Hok].
  { by rewrite H in Hnone. }
  destruct Hok as (X & y & sc & Xtr & Xte & ytr & yte & kind & m & yp & met
                   & Hal & Hfit & Hprep & Hkind & Hm & Hp & Hmet & Heq).
  rewrite H in Heq. injection Heq as -> -> ->.
  exists X, y, sc, Xtr, Xte, ytr, yte, kind, m, yp. cbn.
  rewrite !lookup_insert_eq. repeat split; try done.
  intros other tr Hne. unfold load_model. cbn. by rewrite !lookup_insert_ne.
Qed.

End TrainingFacts.

(** ** From training to inference on the same table *)

Lemma getitems_elem_of (df X : DataFrame) (names : list string)
    (c : string * list cell) :
  getitems df names = Some X -> c ∈ df_data X -> c ∈ df_data df.
Proof.
  unfold getitems.
  destruct (mapM _ names) as [cols|] eqn:Hcols; [cbn|done].
  intros [= <-]. cbn. intros Hin. apply mapM_Some in Hcols.
  apply list_elem_of_lookup in Hin as [k Hk].
  destruct (Forall2_lookup_r _ _ _ _ _ Hcols Hk) as (n & _ & Hn).
  destruct (getitem df n) as [col|] eqn:Hg; [cbn in Hn|done].
  injection Hn as <-. by apply assoc_Some_elem_of.
Qed.

Lemma getitems_index (df X : DataFrame) (names : list string) :
  getitems df names = Some X -> df_index X = df_index df.
Proof.
  unfold getitems. destruct (mapM _ names); [cbn|done]. by intros [= <-].
Qed.

Lemma last_row_cols (n : nat) (l : list (string * list cell)) :
  Forall (fun c : string * list cell => length c.2 = n) l -> 0 < n ->
  exists cols,
    mapM (fun c : string * list cell => v ← c.2 !! (n - 1); Some (c.1, [v])) l
    = Some cols /\
    Forall2 (fun c c' : string * list cell =>
               c'.1 = c.1 /\ exists v, c'.2 = [v] /\ last c.2 = Some v) l cols.
Proof.
  intros Hl Hn. induction Hl as [|[name col] l Hc _ (cols & Hcols & Hall)].
  - by exists [].
  - cbn in Hc.
    destruct (lookup_lt_is_Some_2 col (n - 1) ltac:(lia)) as [v Hv].
    exists ((name, [v]) :: cols). split.
    + simpl. rewrite Hv. simpl. simpl in Hcols. by rewrite Hcols.
    + constructor; [|done]. cbn. split; [done|]. exists v. split; [done|].
      rewrite last_lookup, Hc.
      by replace (Init.Nat.pred n) with (n - 1) by lia.
Qed.

(** The last row of a well-formed frame that is not empty. *)
Lemma iloc_last_Some (data : DataFrame) :
  df_wf data -> 0 < df_len data ->
  exists last_record t,
    iloc_last data = Some last_record /\
    df_index last_record = [t] /\ last (df_index data) = Some t /\
    Forall (fun c : string * list cell =>
              exists col v, (c.1, col) ∈ df_data data /\ c.2 = [v] /\
                            last col = Some v) (df_data last_record).
Proof.
  intros Hwf Hpos. unfold iloc_last.
  destruct (Nat.eqb_spec (df_len data) 0) as [|_]; [lia|].
  destruct (lookup_lt_is_Some_2 (df_index data) (df_len data - 1)
              ltac:(unfold df_len in *; lia)) as [t Ht].
  rewrite Ht. cbn [mbind option_bind].
  destruct (last_row_cols (df_len data) (df_data data) Hwf Hpos)
    as (cols & -> & Hall).
  cbn [mbind option_bind].
  exists (mkDataFrame [t] cols), t. repeat split; try done.
  - rewrite last_lookup.
    by replace (Init.Nat.pred (length (df_index data)))
      with (df_len data - 1) by (unfold df_len; lia).
  - cbn. apply Forall_forall. intros c' Hc'.
    apply list_elem_of_lookup in Hc' as [k Hk].
    destruct (Forall2_lookup_r _ _ _ _ _ Hall Hk) as ([n col] & Hc & Hn & v & Hv & Hl).
    cbn in *. exists col, v. rewrite Hn. split; [|done].
    by eapply list_elem_of_lookup_2.
Qed.

(** The values of a frame of one row. *)
Lemma df_values_one_row (X : DataFrame) (t : Z) :
  df_index X = [t] ->
  Forall (fun c : string * list cell => exists v, c.2 = [v] /\ isinf v = false)
         (df_data X) ->
  exists row,
    df_values X = Some [row] /\ existsb (existsb isinf) [row] = false.
Proof.
  intros Hidx Hcols. unfold df_values, df_len. rewrite Hidx.
  assert (H : exists row, df_row X 0 = Some row /\ existsb isinf row = false).
  { unfold df_row. induction Hcols as [|[n col] l (v & Hv & Hinf) _ IH].
    - by exists [].
    - destruct IH as (row & Hrow & Hrinf). cbn in Hv. subst col.
      exists (v :: row). split.
      + simpl. simpl in Hrow. by rewrite Hrow.
      + cbn. by rewrite Hinf. }
  destruct H as (row & Hrow & Hinf). exists row. split.
  - simpl. by rewrite Hrow.
  - cbn. by rewrite Hinf.
Qed.

(** A prediction once the model, the scaler and the last row are there:
    only the classifier is left to fail. *)
Lemma predict_next_day_run (self : PredictionEngine) (data : DataFrame)
    (instrument : string) (t : Q) (a : addr) (tr : MLModelTrainer)
    (fc : list string) (X : DataFrame) (sc : ScalerObj)
    (X_scaled : list (list cell)) (m : Classifier) (ts : Z) :
  models self !! instrument = Some a ->
  heap self !! a = Some tr ->
  predict_feature_cols data = Some fc ->
  predict_features data = Some X ->
  scaler tr = Some sc ->
  scalerobj_transform sc X = Some X_scaled ->
  model tr = Some m ->
  last (df_index data) = Some ts ->
  predict_next_day self data instrument t
  = (prediction ← clf_predict m X_scaled ≫= head;
     confidence ← predict_confidence m X_scaled;
     Some (mkPrediction instrument
             (if (prediction =? 1)%Z then BULL else BEAR) prediction confidence
             (Qle_bool t confidence) ts fc)).
Proof.
  intros Ha Htr Hfc HX Hsc HXs Hm Hts. unfold predict_next_day.
  rewrite Ha; cbn [mbind option_bind]. rewrite Htr; cbn [mbind option_bind].
  rewrite Hfc; cbn [mbind option_bind]. rewrite HX; cbn [mbind option_bind].
  rewrite Hsc; cbn [mbind option_bind]. rewrite HXs; cbn [mbind option_bind].
  rewrite Hm; cbn [mbind option_bind].
  destruct (clf_predict m X_scaled) as [preds|]; cbn [mbind option_bind]; [|done].
  destruct (head preds) as [pred|]; cbn [mbind option_bind]; [|done].
  destruct (predict_confidence m X_scaled) as [conf|];
    cbn [mbind option_bind]; [|done].
  by rewrite Hts.
Qed.

Section TrainThenPredict.

Variable train_test_split :
  forall (n_samples : nat) (test_size : Q) (random_state : Z)
         (stratify : list Z), option (list nat * list nat).
Variable make_estimator : ModelKind -> Classifier.
Variable fit : Classifier -> list (list cell) -> list Z -> option Classifier.
Variable Metrics : Type.
Variable metrics_of : list Z -> list Z -> option Metrics.

(** X18. An artifact accepts the table it was trained on.  After a
    successful [train_from_data], an engine that loads the artifact hands
    the last row of the same table to the scaler under the column names
    the scaler was fitted with, and the scaler accepts it when the row
    holds no infinity: the prediction can then only fail inside the
    classifier, and a prediction that is returned reports the saved
    feature list as [features_used]. *)
Theorem trained_artifact_accepts_table (self self' : MLModelTrainer)
    (fs fs' : ModelsDir) (data : DataFrame) (filename instrument : string)
    (res : TrainingResult Metrics) (t : Q) :
  train_from_data train_test_split make_estimator fit Metrics metrics_of
    self fs data filename = (self', fs', Some res) ->
  df_wf data ->
  Forall (fun c : string * list cell =>
            forall v, last c.2 = Some v -> isinf v = false) (df_data data) ->
  exists m sc X X_scaled,
    model_pkl fs' !! filename = Some (Some m) /\
    scaler_pkl fs' !! filename = Some (Some (Fitted sc)) /\
    features_txt fs' !! filename = Some (df_columns X) /\
    predict_features data = Some X /\
    scaler_transform sc X = Some X_scaled /\
    (predict_next_day
       (engine_load_model fs' PredictionEngine_init instrument filename).1
       data instrument t = None <->
     (clf_predict m X_scaled ≫= head) = None \/
     predict_confidence m X_scaled = None) /\
    (forall r,
       predict_next_day
         (engine_load_model fs' PredictionEngine_init instrument filename).1
         data instrument t = Some r ->
       p_features_used r = df_columns X).
Proof.
  intros Htrain Hwf Hinf.
  destruct (train_from_data_cases train_test_split make_estimator fit Metrics
              metrics_of self fs data filename) as [(Hnone & _)|Hok].
  { by rewrite Htrain in Hnone. }
  destruct Hok as (Xa & y & sc & Xtr & Xte & ytr & yte & kind & m & yp & met
                   & Hal & Hfit & _ & _ & _ & _ & _ & Heq).
  assert (Hfiles : model_pkl fs' !! filename = Some (Some m) /\
                   scaler_pkl fs' !! filename = Some (Some (Fitted sc)) /\
                   features_txt fs' !! filename
                   = Some (feature_cols_of (df_columns data))).
  { rewrite Htrain in Heq. injection Heq as _ -> _. cbn.
    by rewrite !lookup_insert_eq. }
  destruct Hfiles as (Hmp & Hsp & Hfp). clear Heq.
  pose proof (aligned_data_Some _ _ _ Hal) as (HlenX & Hley & HcolsX & _).
  destruct (scaler_fit_Some _ _ Hfit) as (Hmean & _ & _ & Hnames & _).
  assert (Hpos : 0 < df_len data).
  { revert Hfit. unfold scaler_fit.
    destruct (Nat.eqb_spec (df_len Xa) 0); [done|]. lia. }
  destruct (iloc_last_Some data Hwf Hpos) as (lr & ts & Hlr & Hidx & Hlast & Hlrcols).
  pose proof (iloc_last_columns _ _ Hlr) as Hlrnames.
  assert (Hfc : predict_feature_cols data = Some (feature_cols_of (df_columns data))).
  { unfold predict_feature_cols. rewrite Hlr. cbn. by rewrite Hlrnames. }
  destruct (getitems_is_Some lr (feature_cols_of (df_columns data)))
    as (X & HX & HXidx & HXcols).
  { apply Forall_forall. intros n Hn. rewrite Hlrnames.
    by apply feature_cols_of_subseteq. }
  assert (Hpf : predict_features data = Some X).
  { unfold predict_features. rewrite Hlr, Hfc. cbn. exact HX. }
  assert (Hone : Forall (fun c : string * list cell =>
                   exists v, c.2 = [v] /\ isinf v = false) (df_data X)).
  { apply Forall_forall. intros c Hc.
    pose proof (getitems_elem_of _ _ _ _ HX Hc) as Hclr.
    rewrite Forall_forall in Hlrcols.
    destruct (Hlrcols c Hclr) as (col & v & Hin & Hv & Hl).
    exists v. split; [done|]. rewrite Forall_forall in Hinf.
    by apply (Hinf (c.1, col) Hin). }
  destruct (df_values_one_row X ts) as (row & Hvals & Hrowinf).
  { by rewrite HXidx. }
  { done. }
  assert (Htr : scaler_transform sc X
                = Some [scale_row row (mean_ sc) (scale_ sc)]).
  { unfold scaler_transform. rewrite Hnames, HcolsX, HXcols.
    unfold list_eqb. rewrite bool_decide_eq_true_2 by done. cbn [negb].
    assert (Hcount : length (df_data X) = length (mean_ sc)).
    { rewrite Hmean. unfold df_columns in HXcols, HcolsX.
      rewrite <- (length_fmap fst (df_data X)), HXcols, <- HcolsX.
      by rewrite length_fmap. }
    rewrite Hcount, Nat.eqb_refl. cbn [negb].
    rewrite Hvals. cbn [mbind option_bind]. by rewrite Hrowinf. }
  exists m, sc, X, [scale_row row (mean_ sc) (scale_ sc)].
  rewrite HXcols. split; [done|]. split; [done|]. split; [done|].
  split; [done|]. split; [done|].
  assert (Hpred : predict_next_day
    (engine_load_model fs' PredictionEngine_init instrument filename).1
    data instrument t
    = (prediction ← clf_predict m [scale_row row (mean_ sc) (scale_ sc)] ≫= head;
       confidence ← predict_confidence m [scale_row row (mean_ sc) (scale_ sc)];
       Some (mkPrediction instrument
               (if (prediction =? 1)%Z then BULL else BEAR) prediction confidence
               (Qle_bool t confidence) ts (feature_cols_of (df_columns data))))).
  { assert (He : (engine_load_model fs' PredictionEngine_init instrument filename).1
      = mkEngine
          {[ 0 := mkTrainer MODEL_TYPE (Some m) (Some (Fitted sc))
                    (Some (feature_cols_of (df_columns data))) ]}
          0 {[ instrument := 0 ]}).
    { unfold engine_load_model, PredictionEngine_init. cbn.
      rewrite lookup_singleton_eq. cbn. unfold load_model.
      rewrite Hmp, Hsp, Hfp. cbn.
      f_equal; first [apply insert_singleton_eq | apply insert_empty | done]. }
    apply (predict_next_day_run _ _ _ _ 0
             (mkTrainer MODEL_TYPE (Some m) (Some (Fitted sc))
                        (Some (feature_cols_of (df_columns data))))
             _ X (Fitted sc)); try done.
    - rewrite He. apply lookup_singleton_eq.
    - rewrite He. apply lookup_singleton_eq. }
  rewrite Hpred. split.
  - destruct (clf_predict m _ ≫= head) as [pred|]; cbn; [|split; auto].
    destruct (predict_confidence m _) as [conf|]; cbn; [|split; auto].
    split; [done|]. by intros [?|?].
  - intros r Hr.
    destruct (clf_predict m _ ≫= head) as [pred|]; cbn in Hr; [|done].
    destruct (predict_confidence m _) as [conf|]; cbn in Hr; [|done].
    by injection Hr as <-.
Qed.

End TrainThenPredict.

(** ** Backtest metrics *)

Lemma ratio_or_zero_range (num den : nat) :
  num <= den -> (0 <= ratio_or_zero num den /\ ratio_or_zero num den <= 1)%Q.
Proof.
  intros Hle. unfold ratio_or_zero.
  destruct (Nat.ltb_spec 0 den) as [Hpos|_]; [|lra].
  rewrite Qred_correct.
  assert (Hden : (0 < Z.of_nat den # 1)%Q) by (unfold Qlt; simpl; lia).
  assert (H0 : (0 <= Z.of_nat num # 1)%Q) by (unfold Qle; simpl; lia).
  assert (H1 : (Z.of_nat num # 1 <= Z.of_nat den # 1)%Q)
    by (unfold Qle; simpl; lia).
  split.
  - apply Qle_shift_div_l; [done|]. lra.
  - apply Qle_shift_div_r; [done|]. lra.
Qed.

Lemma count_if_zip_l {A B : Type} (f : A -> bool) (g : A * B -> bool)
    (l : list A) (k : list B) :
  (forall x y, g (x, y) = true -> f x = true) ->
  count_if g (zip l k) <= count_if f l.
Proof.
  intros Hg. unfold count_if. revert k.
  induction l as [|x l IH]; intros [|y k]; cbn; try lia.
  specialize (IH k). destruct (g (x, y)) eqn:Hxy.
  - rewrite (Hg _ _ Hxy). cbn. lia.
  - destruct (f x); cbn; lia.
Qed.

Lemma count_if_zip_r {A B : Type} (f : B -> bool) (g : A * B -> bool)
    (l : list A) (k : list B) :
  (forall x y, g (x, y) = true -> f y = true) ->
  count_if g (zip l k) <= count_if f k.
Proof.
  intros Hg. unfold count_if. revert k.
  induction l as [|x l IH]; intros [|y k]; cbn; try lia.
  specialize (IH k). destruct (g (x, y)) eqn:Hxy.
  - rewrite (Hg _ _ Hxy). cbn. lia.
  - destruct (f y); cbn; lia.
Qed.

Lemma count_pairs_le_length (cond : Z -> Z -> bool) (ps acts : list Z) :
  count_pairs cond ps acts <= length ps.
Proof.
  unfold count_pairs.
  etransitivity; [apply (count_if_zip_l (fun _ => true))|]; [done|].
  unfold count_if. clear. induction ps; cbn; lia.
Qed.

(** X19. For three lists of equal length (what [backtest_model] hands
    over), every rate of the backtest metrics lies between 0 and 1 (win
    rate, the two precisions, the two recalls and the high-confidence win
    rate), and a rate whose denominator is zero is 0 rather than a
    division error. *)
Theorem backtest_rates_in_unit_interval (predictions actuals : list Z)
    (confidences : list Q) :
  length predictions = length actuals ->
  length actuals = length confidences ->
  let m := calculate_backtest_metrics predictions actuals confidences in
  Forall (fun r => 0 <= r /\ r <= 1)%Q
    [win_rate m; bull_precision m; bear_precision m;
     bull_recall m; bear_recall m; high_conf_win_rate m] /\
  (predictions = [] -> win_rate m = 0%Q) /\
  (bull_predictions m = 0 -> bull_precision m = 0%Q) /\
  (bear_predictions m = 0 -> bear_precision m = 0%Q) /\
  (bull_actuals m = 0 -> bull_recall m = 0%Q) /\
  (bear_actuals m = 0 -> bear_recall m = 0%Q) /\
  (high_confidence_trades m = 0 -> high_conf_win_rate m = 0%Q).
Proof.
  intros _ _. cbn zeta. unfold calculate_backtest_metrics. cbn [win_rate bull_precision
    bear_precision bull_recall bear_recall high_conf_win_rate bull_predictions
    bear_predictions bull_actuals bear_actuals high_confidence_trades].
  split.
  - repeat (constructor; [apply ratio_or_zero_range|]); [..|constructor].
    + apply count_pairs_le_length.
    + unfold count_pairs. apply count_if_zip_l. intros x y. cbn [fst snd].
      intros [H _]%andb_true_iff. by rewrite Z.eqb_sym.
    + unfold count_pairs. apply count_if_zip_l. intros x y. cbn [fst snd].
      intros [H _]%andb_true_iff. by rewrite Z.eqb_sym.
    + unfold count_pairs. apply count_if_zip_r. intros x y. cbn [fst snd].
      intros [_ H]%andb_true_iff. by rewrite Z.eqb_sym.
    + unfold count_pairs. apply count_if_zip_r. intros x y. cbn [fst snd].
      intros [_ H]%andb_true_iff. by rewrite Z.eqb_sym.
    + apply count_if_zip_r. intros x y. cbn [fst snd]. by intros [_ H]%andb_true_iff.
  - unfold ratio_or_zero.
    split; [by intros ->|]. split; [by intros ->|]. split; [by intros ->|].
    split; [by intros ->|]. split; [by intros ->|]. by intros ->.
Qed.

Lemma load_model_files (fs : ModelsDir) (self : MLModelTrainer) (filename : string) :
  (load_model fs self filename).2 = true ->
  is_Some (model_pkl fs !! filename) /\
  is_Some (scaler_pkl fs !! filename) /\
  is_Some (features_txt fs !! filename).
Proof.
  unfold load_model.
  destruct (model_pkl fs !! filename); [|done].
  destruct (scaler_pkl fs !! filename); [|done].
  destruct (features_txt fs !! filename); [|done].
  intros _. repeat split; by eexists.
Qed.

(** ** The backtest loop *)

Lemma iloc_last_take_row (data : DataFrame) (i : nat) (row : DataFrame) :
  iloc_row data i = Some row -> iloc_last (df_take (i + 1) data) = Some row.
Proof.
  unfold iloc_row, iloc_last. intros H.
  destruct (df_index data !! i) as [t|] eqn:Ht; [|done].
  cbn [mbind option_bind] in H.
  assert (Hlen : df_len (df_take (i + 1) data) = i + 1).
  { rewrite df_len_take. apply lookup_lt_Some in Ht. unfold df_len. lia. }
  rewrite Hlen. destruct (Nat.eqb_spec (i + 1) 0) as [|_]; [lia|].
  replace (i + 1 - 1) with i by lia.
  unfold df_take; cbn [df_index df_data].
  rewrite lookup_take_lt by lia. rewrite Ht. cbn [mbind option_bind].
  assert (Hcols : forall l,
    mapM (fun c : string * list cell => v ← c.2 !! i; Some (c.1, [v]))
         (map (fun c : string * list cell => (c.1, take (i + 1) c.2)) l)
    = mapM (fun c : string * list cell => v ← c.2 !! i; Some (c.1, [v])) l).
  { induction l as [|[n col] l IH]; [done|]. cbn [map mapM fst snd].
    rewrite lookup_take_lt by lia. by rewrite IH. }
  by rewrite Hcols.
Qed.

(** X20. A row of the backtest is the predictor's answer on the history
    that ends at that row: whenever the loop body yields a triple for row
    [i], an engine whose dict binds the instrument to the same trainer
    object returns, on the first [i + 1] rows of the feature table, a
    prediction with that class and that confidence, whatever its alert
    threshold; and the actual label recorded beside it is 1 exactly when
    the next close is greater than the close of row [i]. *)
Theorem backtest_row_replays_predictor (self : PredictionEngine)
    (instrument : string) (a : addr) (tr : MLModelTrainer)
    (features : DataFrame) (i : nat) (threshold : Q)
    (pred actual : Z) (conf : Q) :
  models self !! instrument = Some a ->
  heap self !! a = Some tr ->
  backtest_row tr features i = Some (pred, actual, conf) ->
  (exists p,
     predict_next_day self (df_take (i + 1) features) instrument threshold = Some p /\
     p_prediction p = pred /\ p_confidence p = conf /\
     p_signal p = (if (pred =? 1)%Z then BULL else BEAR)) /\
  (exists close nxt cur,
     getitem features "close" = Some close /\
     close !! (i + 1) = Some nxt /\ close !! i = Some cur /\
     actual = if fgt nxt cur then 1%Z else 0%Z).
Proof.
  intros Ha Htr. unfold backtest_row. intros H.
  destruct (iloc_row features i) as [row|] eqn:Hrow; [|done].
  cbn [mbind option_bind] in H.
  destruct (getitem features "close") as [close|] eqn:Hclose; [|done].
  cbn [mbind option_bind] in H.
  destruct (close !! (i + 1)) as [nxt|] eqn:Hnxt; [|done].
  cbn [mbind option_bind] in H.
  destruct (close !! i) as [cur|] eqn:Hcur; [|done]. cbn [mbind option_bind] in H.
  destruct (getitems row _) as [X|] eqn:HX; [|done]. cbn [mbind option_bind] in H.
  destruct (scaler tr) as [sc|] eqn:Hsc; [|done]. cbn [mbind option_bind] in H.
  destruct (scalerobj_transform sc X) as [Xs|] eqn:HXs; [|done].
  cbn [mbind option_bind] in H.
  destruct (model tr) as [m|] eqn:Hm; [|done]. cbn [mbind option_bind] in H.
  destruct (clf_predict m Xs ≫= head) as [pr|] eqn:Hpr; [|done].
  cbn [mbind option_bind] in H.
  destruct (predict_confidence m Xs) as [cf|] eqn:Hcf; [|done].
  cbn [mbind option_bind] in H. injection H as <- <- <-.
  pose proof (iloc_last_take_row _ _ _ Hrow) as Hlast.
  assert (Hts : exists ts, last (df_index (df_take (i + 1) features)) = Some ts).
  { unfold iloc_row in Hrow.
    destruct (df_index features !! i) as [t|] eqn:Ht; [|done].
    exists t. unfold df_take; cbn [df_index]. rewrite last_lookup, length_take.
    apply lookup_lt_Some in Ht as Hlt.
    replace (Init.Nat.pred ((i + 1) `min` length (df_index features))) with i by lia.
    by rewrite lookup_take_lt by lia. }
  destruct Hts as [ts Hts].
  split.
  - eexists. split; [|split; [|split]].
    + erewrite predict_next_day_run; [| done | done | | | done | done | done | done].
      * rewrite Hpr; cbn [mbind option_bind]. rewrite Hcf; cbn [mbind option_bind].
        reflexivity.
      * unfold predict_feature_cols. rewrite Hlast. reflexivity.
      * unfold predict_features, predict_feature_cols. rewrite Hlast.
        cbn [mbind option_bind]. exact HX.
    + done.
    + done.
    + done.
  - by exists close, nxt, cur.
Qed.

Lemma backtest_loop_invariant (tr : MLModelTrainer) (features : DataFrame)
    (range : list nat) (ps acts : list Z) (cs : list Q)
    (ps' acts' : list Z) (cs' : list Q) :
  backtest_loop tr features range ps acts cs = (ps', acts', cs') ->
  length ps = length acts -> length acts = length cs ->
  Forall (fun a => a = 0 \/ a = 1)%Z acts ->
  length ps' = length acts' /\ length acts' = length cs' /\
  Forall (fun a => a = 0 \/ a = 1)%Z acts' /\
  length ps' <= length ps + length range.
Proof.
  revert ps acts cs. induction range as [|i range IH]; intros ps acts cs.
  - cbn. intros [= <- <- <-]. intros. repeat split; [done|done|done|lia].
  - cbn [backtest_loop length].
    destruct (backtest_row tr features i) as [[[pred actual] conf]|] eqn:Hrow.
    + intros H H1 H2 H3. apply IH in H.
      * rewrite length_app in H. cbn in H. destruct H as (? & ? & ? & ?).
        repeat split; [done|done|done|lia].
      * rewrite !length_app. cbn. lia.
      * rewrite !length_app. cbn. lia.
      * apply Forall_app. split; [done|]. constructor; [|constructor].
        unfold backtest_row in Hrow.
        repeat match type of Hrow with
               | (mbind _ ?x) = Some _ => destruct x; [|done]; cbn [mbind option_bind] in Hrow
               end.
        injection Hrow as _ <- _. destruct (fgt _ _); [by right|by left].
    + intros H H1 H2 H3. apply IH in H; [|done|done|done].
      destruct H as (? & ? & ? & ?). repeat split; [done|done|done|lia].
Qed.

Lemma count_binary (l : list Z) :
  Forall (fun a => a = 0 \/ a = 1)%Z l ->
  count_if (Z.eqb 1) l + count_if (Z.eqb 0) l = length l.
Proof.
  unfold count_if. induction 1 as [|a l [->| ->] _ IH]; cbn in *; lia.
Qed.

Lemma count_disjoint (l : list Z) :
  count_if (Z.eqb 1) l + count_if (Z.eqb 0) l <= length l.
Proof.
  unfold count_if. induction l as [|a l IH]; [done|]. cbn [List.filter].
  destruct (1 =? a)%Z eqn:H1; destruct (0 =? a)%Z eqn:H0; cbn [length]; lia.
Qed.

Lemma add_bollinger_index (ta : TALib) (data f f' : DataFrame) :
  add_bollinger ta data f = Some f' -> df_index f' = df_index f.
Proof.
  unfold add_bollinger.
  destruct (calculate_bollinger_bands ta data 20 2) as [[[u m] l]|]; [|by intros [= <-]].
  destruct (getitem data "close"); [|done]. by intros [= <-].
Qed.

Lemma all_features_index (ta : TALib) (data f : DataFrame) :
  all_features ta data = Some f -> df_index f = df_index data.
Proof.
  unfold all_features. intros H.
  match type of H with
  | (mbind _ ?x) = Some _ => destruct x as [fb|] eqn:Hb; [|done]
  end.
  cbn [mbind option_bind] in H. apply add_bollinger_index in Hb.
  injection H as <-.
  assert (Hidx : df_index fb = df_index data).
  { rewrite Hb. repeat case_match; done. }
  rewrite <- Hidx. repeat case_match; done.
Qed.

Section BacktestFacts.

Variable ta : TALib.

(** X21. What a returned backtest report guarantees.  A report comes back
    only if the three artifact files of the model exist and at least 100
    candles were delivered.  In it the number of backtests is at most one
    less than the number of candles, the bull and bear actuals add up to
    the number of backtests, the bull and bear predictions and the correct
    predictions do not exceed it, and ticker and period are the caller's. *)
Theorem backtest_report_consistent (fs : ModelsDir) (tr tr' : MLModelTrainer)
    (fetched : option DataFrame) (ticker model_name period : string)
    (r : BacktestResult) :
  backtest_model ta fs tr fetched ticker model_name period = (tr', Some r) ->
  (is_Some (model_pkl fs !! model_name) /\
   is_Some (scaler_pkl fs !! model_name) /\
   is_Some (features_txt fs !! model_name)) /\
  (exists data, fetched = Some data /\ 100 <= df_len data /\
                total_backtests r <= df_len data - 1) /\
  bull_actuals (bt_metrics r) + bear_actuals (bt_metrics r) = total_backtests r /\
  bull_predictions (bt_metrics r) + bear_predictions (bt_metrics r)
    <= total_backtests r /\
  total_correct (bt_metrics r) <= total_backtests r /\
  bt_ticker r = ticker /\ bt_period r = period.
Proof.
  unfold backtest_model.
  destruct (load_model fs tr model_name) as [tr1 loaded] eqn:Hload.
  destruct loaded; cbn [negb]; [|done].
  intros [= <- H].
  destruct fetched as [data|]; [|done]. cbn [mbind option_bind] in H.
  destruct (Nat.ltb_spec (df_len data) 100) as [|Hlen]; [done|].
  destruct (extract_all_features ta data) as [features|] eqn:Hf; [|done].
  cbn [mbind option_bind] in H.
  destruct (backtest_loop tr1 features _ [] [] []) as [[ps acts] cs] eqn:Hloop.
  injection H as <-. cbn [bt_metrics total_backtests bt_ticker bt_period].
  apply backtest_loop_invariant in Hloop as (H1 & H2 & H3 & H4);
    [|done|done|constructor].
  rewrite length_seq in H4. cbn in H4.
  split.
  { apply (load_model_files fs tr model_name). by rewrite Hload. }
  split.
  { exists data. split; [done|]. split; [done|].
    unfold extract_all_features in Hf.
    destruct (all_features ta data) as [fd|] eqn:Hall; [|done].
    injection Hf as <-.
    pose proof (df_len_dropna_le fd) as Hle.
    apply all_features_index in Hall.
    unfold df_len in *. rewrite Hall in Hle. lia. }
  unfold calculate_backtest_metrics;
    cbn [bull_actuals bear_actuals bull_predictions bear_predictions total_correct].
  split; [rewrite H1; by apply count_binary|].
  split; [apply count_disjoint|].
  split; [apply count_pairs_le_length|done].
Qed.

End BacktestFacts.

(** ** The agent's daily run *)

Lemma assoc_set_Forall {A : Type} (P : A -> Prop) (name : string) (v : A)
    (l : list (string * A)) :
  Forall (fun item => P item.2) l -> P v ->
  Forall (fun item => P item.2) (assoc_set name v l).
Proof.
  intros Hl Hv. induction Hl as [|[k w] l Hk Hl IH]; cbn.
  - by repeat constructor.
  - destruct (String.eqb k name); by constructor.
Qed.

Lemma collect_previous_day_items (ta : TALib) (prev : string -> option DataFrame)
    (P : DataFrame -> Prop) (instruments : list (string * string))
    (data_dict out : list (string * DataFrame)) :
  (forall name ticker d f,
     (name, ticker) ∈ instruments -> prev ticker = Some d ->
     extract_all_features ta d = Some f -> P f) ->
  Forall (fun item => P item.2) data_dict ->
  collect_previous_day ta prev instruments data_dict = Some out ->
  Forall (fun item => P item.2) out.
Proof.
  revert data_dict.
  induction instruments as [|[name ticker] instruments IH]; intros data_dict HP Hd.
  - cbn. by intros [= <-].
  - assert (HP' : forall name ticker d f,
              (name, ticker) ∈ instruments -> prev ticker = Some d ->
              extract_all_features ta d = Some f -> P f).
    { intros n t d f Hin. apply (HP n t d f). by right. }
    cbn [collect_previous_day].
    destruct (prev ticker) as [d|] eqn:Hprev; [|by apply IH].
    destruct (df_len d =? 0)%nat; [by apply IH|].
    destruct (get_peak_trough_analysis d); [cbn [mbind option_bind]|done].
    destruct (extract_all_features ta d) as [f|] eqn:Hf; [|by apply IH].
    destruct (0 <? df_len f)%nat; [|by apply IH].
    apply IH; [done|]. apply assoc_set_Forall; [done|].
    apply (HP name ticker d f); [by left|done|done].
Qed.

(** X22. The agent's daily run on short previous-day data.  If every
    previous-day table the collector delivers has fewer than 50 candles
    and every artifact bound in the engine has a scaler fitted with an
    [sma_50] column, then [analyze_and_predict] returns no prediction at
    all: its result is either nothing or a summary with zero predictions,
    zero signals, zero alerts and a NaN average confidence, and no alert
    is ever sent. *)
Theorem agent_short_day_predicts_nothing (ta : TALib)
    (prev : string -> option DataFrame) (predictor : PredictionEngine)
    (instruments : list (string * string)) :
  (forall name ticker d,
     (name, ticker) ∈ instruments -> prev ticker = Some d ->
     exists cs, d = candles_df cs /\ length cs < 50) ->
  (forall instrument a tr,
     models predictor !! instrument = Some a -> heap predictor !! a = Some tr ->
     exists sc names,
       scaler tr = Some (Fitted sc) /\ feature_names_in_ sc = Some names /\
       "sma_50" ∈ names) ->
  send_alerts_called (analyze_and_predict ta prev predictor instruments) = false /\
  (forall summary,
     analyze_and_predict ta prev predictor instruments = Some summary ->
     total_predictions summary = 0 /\ details summary = [] /\
     bull_signals summary = 0 /\ bear_signals summary = 0 /\
     triggered_alerts summary = 0 /\ average_confidence summary = NaN).
Proof.
  intros Hshort Hart.
  assert (Hsum : forall summary,
            analyze_and_predict ta prev predictor instruments = Some summary ->
            summary = mkSummary 0 0 0 0 NaN []).
  { intros summary. unfold analyze_and_predict.
    destruct (collect_previous_day ta prev instruments []) as [dd|] eqn:Hdd;
      [cbn [mbind option_bind]|done].
    assert (Hno : Forall (fun item : string * DataFrame =>
                            "sma_50" ∉ df_columns item.2) dd).
    { eapply (collect_previous_day_items ta prev
                (fun f => "sma_50" ∉ df_columns f)); [|constructor|exact Hdd].
      intros name ticker d f Hin Hprev Hf.
      destruct (Hshort name ticker d Hin Hprev) as (cs & -> & Hlen).
      by eapply short_history_no_sma_50. }
    assert (Hnil : predict_batch predictor dd PREDICTION_THRESHOLD = []).
    { rewrite predict_batch_omap. clear Hdd.
      induction Hno as [|[name f] dd Hf _ IH]; [done|].
      cbn [omap list_omap fst snd]. cbn [fst snd] in Hf.
      assert (Hnone : predict_next_day predictor f name PREDICTION_THRESHOLD = None).
      { destruct (models predictor !! name) as [a|] eqn:Ha.
        - destruct (heap predictor !! a) as [tr|] eqn:Htr.
          + destruct (Hart name a tr Ha Htr) as (sc & names & Hsc & Hn & Hin).
            by eapply predict_rejects_missing_column.
          + unfold predict_next_day. rewrite Ha. cbn. by rewrite Htr.
        - unfold predict_next_day. by rewrite Ha. }
      by rewrite Hnone. }
    destruct dd; [done|]. rewrite Hnil. by intros [= <-]. }
  split.
  - destruct (analyze_and_predict ta prev predictor instruments) as [s|]; [|done].
    by rewrite (Hsum s eq_refl).
  - intros summary Hs. by rewrite (Hsum summary Hs).
Qed.

(** ** Sentiment and confidence labels *)

Lemma ratio_gt (p : Z) (q : positive) (b t : nat) :
  0 < t ->
  Qlt_bool (p # q) ((Z.of_nat b # 1) / (Z.of_nat t # 1)) = true
  <-> (p * Z.of_nat t < Z.pos q * Z.of_nat b)%Z.
Proof.
  intros Ht. rewrite Qlt_bool_iff.
  destruct t as [|t]; [lia|].
  assert (Hq : ((Z.of_nat b # 1) / (Z.of_nat (S t) # 1)
                == Z.of_nat b # Pos.of_succ_nat t)%Q).
  { change (Z.of_nat (S t)) with (Z.pos (Pos.of_succ_nat t)).
    unfold Qdiv, Qinv, Qmult, Qeq. cbn. lia. }
  rewrite Hq. unfold Qlt. cbn [Qnum Qden]. lia.
Qed.

(** X23. The colour of the market sentiment.  The sentiment is neutral
    exactly when there is no signal at all; otherwise its mark is green
    exactly when the bull signals outnumber the bear signals and red in
    every other case, so that an even split is reported as "Bearish". *)
Theorem market_sentiment_colour (bull bear : nat) :
  (get_market_sentiment bull bear = ("Neutral", White) <-> bull = 0 /\ bear = 0) /\
  ((get_market_sentiment bull bear).2 = Green <-> bear < bull) /\
  ((get_market_sentiment bull bear).2 = Red <-> 0 < bull + bear /\ bull <= bear) /\
  (0 < bull + bear -> bull = bear ->
   get_market_sentiment bull bear = ("Bearish", Red)).
Proof.
  unfold get_market_sentiment.
  destruct (Nat.eqb_spec bull 0) as [Hb|Hb]; cbn [andb].
  { destruct (Nat.eqb_spec bear 0) as [Hr|Hr].
    { subst. cbn.
      repeat split; intros; destruct_and?; first [done|lia|discriminate]. }
    subst bull.
    assert (H : forall p q,
              (0 <= p)%Z ->
              Qlt_bool (p # q) ((Z.of_nat 0 # 1) / (Z.of_nat (0 + bear) # 1)) = false).
    { intros p q Hp. apply not_true_iff_false. rewrite ratio_gt by lia. lia. }
    rewrite !H by lia. cbn.
    repeat split; intros; destruct_and?; first [done|lia|discriminate]. }
  assert (Ht : 0 < bull + bear) by lia.
  destruct (Qlt_bool (65 # 100) _) eqn:H65.
  { apply ratio_gt in H65; [|done]. cbn.
    repeat split; intros; destruct_and?; first [done|lia|discriminate]. }
  apply not_true_iff_false in H65. rewrite ratio_gt in H65 by done.
  destruct (Qlt_bool (50 # 100) _) eqn:H50.
  { apply ratio_gt in H50; [|done]. cbn.
    repeat split; intros; destruct_and?; first [done|lia|discriminate]. }
  apply not_true_iff_false in H50. rewrite ratio_gt in H50 by done.
  destruct (Qlt_bool (35 # 100) _) eqn:H35.
  { cbn. repeat split; intros; destruct_and?; first [done|lia|discriminate]. }
  apply not_true_iff_false in H35. rewrite ratio_gt in H35 by done.
  cbn. repeat split; intros; destruct_and?; first [done|lia|discriminate].
Qed.

(** X24. The confidence of a returned prediction is never labelled
    "Very Low": with classifiers that return proper class probabilities,
    every prediction of [predict_next_day] gets one of the four labels
    from "Low" upwards, and a classifier without [predict_proba] always
    gets "Low". *)
Theorem prediction_confidence_label (self : PredictionEngine) (data : DataFrame)
    (instrument : string) (t : Q) (r : Prediction) :
  engine_binary_proba self ->
  predict_next_day self data instrument t = Some r ->
  get_confidence_interpretation (p_confidence r) <> ("Very Low", Red) /\
  (forall a tr m,
     models self !! instrument = Some a -> heap self !! a = Some tr ->
     model tr = Some m -> clf_predict_proba m = None ->
     get_confidence_interpretation (p_confidence r) = ("Low", Red)).
Proof.
  intros Hbin Hr.
  apply predict_next_day_Some in Hr
    as (a & tr & fc & X & sc & Xs & m & preds & pred & conf & ts
        & Ha & Htr & _ & _ & _ & _ & Hm & _ & _ & Hconf & _ & ->).
  cbn [p_confidence]. split.
  - destruct (predict_confidence_range m Xs conf (Hbin a tr m Htr Hm) Hconf)
      as [Hlo _].
    unfold get_confidence_interpretation.
    destruct (Qle_bool 80 _); [done|]. destruct (Qle_bool 70 _); [done|].
    destruct (Qle_bool 60 _); [done|].
    destruct (Qle_bool 50 (conf * 100)) eqn:H50; [done|].
    apply not_true_iff_false in H50. exfalso. apply H50.
    apply Qle_bool_iff. lra.
  - intros a' tr' m' Ha' Htr' Hm' Hnone.
    rewrite Ha in Ha'. injection Ha' as <-.
    rewrite Htr in Htr'. injection Htr' as <-.
    rewrite Hm in Hm'. injection Hm' as <-.
    unfold predict_confidence in Hconf. rewrite Hnone in Hconf.
    by injection Hconf as <-.
Qed.

(** ** The full feature schema *)

Lemma rolling_length (stat : list Q -> cell) (period : nat) (col : list cell) :
  length (rolling stat period col) = length col.
Proof. unfold rolling. by rewrite length_map, length_seq. Qed.

Lemma rsi_smooth_length (period : nat) (g l : Q) (ds : list Q) :
  length (TA.rsi_smooth period g l ds) = length ds.
Proof. revert g l. induction ds as [|d ds IH]; intros g l; cbn; [done|]. by rewrite IH. Qed.

Lemma ema_run_length (k prev : Q) (xs : list Q) :
  length (TA.ema_run k prev xs) = length xs.
Proof. revert prev. induction xs as [|x xs IH]; intros prev; cbn; [done|]. by rewrite IH. Qed.

Lemma ema_from_length (period start : nat) (c : list Q) :
  length (TA.ema_from period start c) = S (length c - (start + 1)).
Proof. unfold TA.ema_from. cbn. by rewrite ema_run_length, length_drop. Qed.

Lemma TA_lib_lengths : ta_lengths TA.lib.
Proof.
  intros close. cbn [SMA RSI MACD BBANDS TA.lib].
  split; [apply rolling_length|]. split; [apply rolling_length|]. split.
  { unfold TA.RSI. destruct (finite_column close) as [c|] eqn:Hc.
    - apply finite_column_length in Hc.
      destruct (Nat.leb_spec (length c) 14) as [Hle|Hgt].
      + unfold TA.nans. rewrite length_replicate. lia.
      + rewrite length_app. cbn [length]. unfold TA.nans.
        rewrite length_replicate, rsi_smooth_length, length_drop.
        unfold TA.diffs. rewrite length_zip_with.
        destruct c as [|x c]; cbn [tail length] in *; lia.
    - unfold TA.nans. by rewrite length_replicate. }
  split.
  { unfold TA.MACD. cbn [Nat.ltb Nat.leb].
    destruct (finite_column close) as [c|] eqn:Hc.
    - apply finite_column_length in Hc.
      destruct (Nat.leb_spec (length close) (26 - 1 + (9 - 1))) as [Hle|Hgt].
      + unfold TA.nans. by rewrite !length_replicate.
      + rewrite !length_app, !length_map, !length_zip_with, !length_drop.
        rewrite !ema_from_length, !length_zip_with, !ema_from_length.
        unfold TA.nans. rewrite !length_replicate. cbn in Hgt. lia.
    - unfold TA.nans. by rewrite !length_replicate. }
  unfold TA.BBANDS. by rewrite !rolling_length.
Qed.

Lemma all_features_full (ta : TALib) (cs : list Candle) :
  ta_lengths ta -> 50 <= length cs ->
  exists features_df,
    all_features ta (candles_df cs) = Some features_df /\
    df_index features_df = map timestamp cs /\
    df_columns features_df
    = ["open"; "high"; "low"; "close"; "volume"] ++ feature_schema.
Proof.
  intros Hta Hlen.
  set (close := map (fun c => Num (c_close c)) cs).
  destruct (Hta close) as (H20 & H50 & Hrsi & Hmacd & Hbb).
  assert (Hcl : length close = length cs) by apply length_map.
  assert (Hg : getitem (candles_df cs) "close" = Some close) by reflexivity.
  assert (Hser : forall values,
            length values = length close ->
            mk_series (candles_df cs) values = Some values).
  { intros values Hv. unfold mk_series.
    by rewrite candles_df_len, Hv, Hcl, Nat.eqb_refl. }
  assert (Hlt : forall period,
            period <= 50 -> (df_len (candles_df cs) <? period)%nat = false).
  { intros period Hp. rewrite candles_df_len. apply Nat.ltb_ge. lia. }
  assert (E20 : calculate_moving_averages ta (candles_df cs) [20]
                = [("sma_20", SMA ta close 20)]).
  { unfold calculate_moving_averages. cbn [moving_averages_loop].
    rewrite Hlt by lia. rewrite Hg. cbn [mbind option_bind].
    rewrite (Hser _ H20). reflexivity. }
  assert (E50 : calculate_moving_averages ta (candles_df cs) [50]
                = [("sma_50", SMA ta close 50)]).
  { unfold calculate_moving_averages. cbn [moving_averages_loop].
    rewrite Hlt by lia. rewrite Hg. cbn [mbind option_bind].
    rewrite (Hser _ H50). reflexivity. }
  assert (Ersi : calculate_rsi ta (candles_df cs) 14 = Some (RSI ta close 14)).
  { unfold calculate_rsi. rewrite Hlt by lia. rewrite Hg. cbn [mbind option_bind].
    by apply Hser. }
  destruct (MACD ta close 12 26 9) as [[macd signal] histogram] eqn:Emacd.
  destruct Hmacd as (Hm1 & Hm2 & Hm3).
  assert (Emacd' : calculate_macd ta (candles_df cs) 12 26 9
                   = Some (macd, signal, histogram)).
  { unfold calculate_macd. rewrite Hlt by lia. rewrite Hg. cbn [mbind option_bind].
    rewrite Emacd. rewrite (Hser _ Hm1), (Hser _ Hm2), (Hser _ Hm3). reflexivity. }
  destruct (BBANDS ta close 20 2 2) as [[upper middle] lower] eqn:Ebb.
  destruct Hbb as (Hb1 & Hb2 & Hb3).
  assert (Ebb' : calculate_bollinger_bands ta (candles_df cs) 20 2
                 = Some (upper, middle, lower)).
  { unfold calculate_bollinger_bands. rewrite Hlt by lia. rewrite Hg.
    cbn [mbind option_bind].
    rewrite Ebb. rewrite (Hser _ Hb1), (Hser _ Hb2), (Hser _ Hb3). reflexivity. }
  assert (Evol : is_Some (calculate_volume_ratio (candles_df cs) 20)).
  { unfold calculate_volume_ratio. rewrite Hlt by lia. by eexists. }
  destruct Evol as [vol Evol].
  assert (Epr : is_Some (calculate_price_ratios (candles_df cs))) by (by eexists).
  destruct Epr as [[hl co] Epr].
  unfold all_features, add_bollinger.
  rewrite E20, E50, Ersi, Emacd', Ebb', Evol, Epr.
  cbn [assoc String.eqb Ascii.eqb Bool.eqb]. 
  eexists. split; [reflexivity|]. split; reflexivity.
Qed.

(** X25. The fixed feature schema.  For at least 50 candles, and a TA-Lib
    whose indicator arrays are as long as the close prices, the feature
    engine never fails: it returns a table whose columns are the five
    candle columns followed by the thirteen feature columns in their fixed
    order, so that the feature columns a trainer or predictor reads off it
    are exactly that schema; the table has at most as many rows as there
    are candles and holds no NaN. *)
Theorem full_history_schema (ta : TALib) (cs : list Candle) :
  ta_lengths ta -> 50 <= length cs ->
  exists df,
    extract_all_features ta (candles_df cs) = Some df /\
    df_columns df = ["open"; "high"; "low"; "close"; "volume"] ++ feature_schema /\
    feature_cols_of (df_columns df) = feature_schema /\
    df_len df <= length cs /\
    (forall name col, (name, col) ∈ df_data df ->
       Forall (fun c => isna c = false) col).
Proof.
  intros Hta Hlen.
  destruct (all_features_full ta cs Hta Hlen) as (f & Hf & Hidx & Hcols).
  exists (dropna f). unfold extract_all_features. rewrite Hf.
  split; [done|]. rewrite dropna_columns, Hcols.
  split; [done|]. split; [reflexivity|]. split.
  - pose proof (df_len_dropna_le f) as Hle. unfold df_len in *.
    rewrite Hidx, length_map in Hle. lia.
  - apply dropna_no_na.
Qed.

(** ** The further properties at sample inputs *)

(** X1 at ten choppy candles. *)
Lemma peaks_characterised_witness :
  getitem Fixtures.choppy_df "high" = Some Fixtures.choppy_high /\
  length Fixtures.choppy_high = df_len Fixtures.choppy_df /\
  StronglySorted lt (map e_index (peaks (identify_candle_patterns Fixtures.choppy_df))).
Proof.
  assert (H1 : getitem Fixtures.choppy_df "high" = Some Fixtures.choppy_high)
    by reflexivity.
  assert (H2 : length Fixtures.choppy_high = df_len Fixtures.choppy_df)
    by reflexivity.
  split; [exact H1|]. split; [exact H2|].
  exact (proj2 (peaks_characterised Fixtures.choppy_df Fixtures.choppy_high H1 H2)).
Defined.

(** X2 at ten choppy candles. *)
Lemma troughs_characterised_witness :
  getitem Fixtures.choppy_df "high" = Some Fixtures.choppy_high /\
  length Fixtures.choppy_high = df_len Fixtures.choppy_df /\
  getitem Fixtures.choppy_df "low" = Some Fixtures.choppy_low /\
  length Fixtures.choppy_low = df_len Fixtures.choppy_df /\
  StronglySorted lt
    (map e_index (troughs (identify_candle_patterns Fixtures.choppy_df))).
Proof.
  assert (H1 : getitem Fixtures.choppy_df "high" = Some Fixtures.choppy_high)
    by reflexivity.
  assert (H2 : length Fixtures.choppy_high = df_len Fixtures.choppy_df)
    by reflexivity.
  assert (H3 : getitem Fixtures.choppy_df "low" = Some Fixtures.choppy_low)
    by reflexivity.
  assert (H4 : length Fixtures.choppy_low = df_len Fixtures.choppy_df)
    by reflexivity.
  split; [exact H1|]. split; [exact H2|]. split; [exact H3|]. split; [exact H4|].
  exact (proj2 (troughs_characterised Fixtures.choppy_df Fixtures.choppy_high
                  Fixtures.choppy_low H1 H2 H3 H4)).
Defined.

Lemma rising_high_never_falls (i : nat) (a b : cell) :
  Fixtures.rising_high !! i = Some a ->
  Fixtures.rising_high !! (i + 1) = Some b -> fgt a b = false.
Proof.
  intros Ha Hb.
  destruct i as [|[|[|[|[|i]]]]]; vm_compute in Ha, Hb; try discriminate;
    injection Ha as <-; injection Hb as <-; reflexivity.
Qed.

(** X4 at five rising candles. *)
Lemma rising_highs_no_pattern_witness :
  getitem Fixtures.rising_df "high" = Some Fixtures.rising_high /\
  peaks (identify_candle_patterns Fixtures.rising_df) = [] /\
  pattern_type (identify_candle_patterns Fixtures.rising_df) = "none".
Proof.
  assert (H1 : getitem Fixtures.rising_df "high" = Some Fixtures.rising_high)
    by reflexivity.
  split; [exact H1|].
  exact (rising_highs_no_pattern Fixtures.rising_df Fixtures.rising_high H1
           rising_high_never_falls).
Defined.

(** X5 at ten choppy candles: the resistance is the high of the last
    peak. *)
Lemma resistance_support_within_range_witness :
  exists a,
    get_peak_trough_analysis Fixtures.choppy_df = Some a /\
    (forall r, a_resistance a = Some r ->
       exists st, a_stats a = Some st /\
         2 <= length (peaks (a_patterns a)) /\
         isna r = false /\ fgt r (highest_price st) = false).
Proof.
  destruct (get_peak_trough_analysis Fixtures.choppy_df) as [a|] eqn:E;
    [|vm_compute in E; discriminate].
  exists a. split; [reflexivity|].
  exact (proj1 (resistance_support_within_range Fixtures.choppy_df a E)).
Defined.

Lemma engine1_all_binary_proba : engine_binary_proba Sample.engine1.
Proof.
  intros a tr m Htr Hm.
  destruct (decide (a = 0)) as [->|Hne].
  - assert (Hh : heap Sample.engine1 !! 0
      = Some (mkTrainer MODEL_TYPE
                (Some (Sample.constant_clf 1 [(3 # 10)%Q; (7 # 10)%Q]))
                (Some (Fitted Sample.fitted_scaler)) (Some ["sma_20"; "rsi"])))
      by (vm_compute; reflexivity).
    pose proof (eq_trans (eq_sym Hh) Htr) as E. injection E as <-.
    injection Hm as <-. apply constant_clf_binary_proba.
    exists (3 # 10)%Q, (7 # 10)%Q. repeat split; try done; unfold Qle; cbn; lia.
  - exfalso. revert Htr.
    unfold Sample.engine1, engine_load_model, PredictionEngine_init.
    cbn [heap trainer]. rewrite lookup_singleton_eq. cbn [heap trainer fst].
    rewrite lookup_insert_ne by done. by rewrite lookup_singleton_ne.
Qed.

(** X7 at the sample engine: one prediction of confidence 0.7. *)
Lemma batch_average_confidence_witness :
  exists s,
    predict_batch Sample.engine1 [("NIFTY50", Sample.features)] (6 # 10) <> [] /\
    get_prediction_summary
      (predict_batch Sample.engine1 [("NIFTY50", Sample.features)] (6 # 10))
    = Some s /\
    exists avg, average_confidence s = Num avg /\ (1 # 2 <= avg /\ avg <= 1)%Q.
Proof.
  assert (H1 : predict_batch Sample.engine1 [("NIFTY50", Sample.features)] (6 # 10)
               <> []) by (vm_compute; discriminate).
  destruct (get_prediction_summary
              (predict_batch Sample.engine1 [("NIFTY50", Sample.features)] (6 # 10)))
    as [s|] eqn:E; [|vm_compute in E; discriminate].
  exists s. split; [exact H1|]. split; [reflexivity|].
  exact (batch_average_confidence Sample.engine1 [("NIFTY50", Sample.features)]
           (6 # 10) s engine1_all_binary_proba H1 E).
Defined.

(** X8 at the sample engine, thresholds 0.5 and 0.6. *)
Lemma batch_alert_count_antitone_witness :
  (5 # 10 <= 6 # 10)%Q /\
  exists s1 s2,
    get_prediction_summary
      (predict_batch Sample.engine1 [("NIFTY50", Sample.features)] (5 # 10))
    = Some s1 /\
    get_prediction_summary
      (predict_batch Sample.engine1 [("NIFTY50", Sample.features)] (6 # 10))
    = Some s2 /\
    triggered_alerts s2 <= triggered_alerts s1 /\
    total_predictions s2 = total_predictions s1 /\
    bull_signals s2 = bull_signals s1 /\ bear_signals s2 = bear_signals s1.
Proof.
  assert (H : (5 # 10 <= 6 # 10)%Q) by (unfold Qle; simpl; lia).
  split; [exact H|].
  exact (batch_alert_count_antitone Sample.engine1 [("NIFTY50", Sample.features)]
           (5 # 10) (6 # 10) H).
Defined.

(** X9: a name with no artifact, loaded into a fresh engine. *)
Lemma engine_load_missing_artifact_witness :
  heap PredictionEngine_init !! trainer PredictionEngine_init
  = Some MLModelTrainer_init /\
  model_pkl Sample.models_dir !! "sensex_model" = None /\
  (engine_load_model Sample.models_dir PredictionEngine_init "SENSEX" "sensex_model").2
  = true /\
  predict_next_day
    (engine_load_model Sample.models_dir PredictionEngine_init
       "SENSEX" "sensex_model").1
    Sample.features "SENSEX" (6 # 10) = None.
Proof.
  assert (H1 : heap PredictionEngine_init !! trainer PredictionEngine_init
               = Some MLModelTrainer_init) by (vm_compute; reflexivity).
  assert (H2 : model_pkl Sample.models_dir !! "sensex_model" = None)
    by (vm_compute; reflexivity).
  split; [exact H1|]. split; [exact H2|].
  destruct (engine_load_missing_artifact Sample.models_dir PredictionEngine_init
              "SENSEX" "sensex_model" MLModelTrainer_init H1 H2) as [Hload Hpred].
  split; [by rewrite Hload|apply Hpred].
Defined.

(** X10: the sample table without its first two rows. *)
Lemma predict_uses_last_row_only_witness :
  2 < df_len Sample.features /\
  predict_next_day Sample.engine1 (df_drop 2 Sample.features) "NIFTY50" (6 # 10)
  = predict_next_day Sample.engine1 Sample.features "NIFTY50" (6 # 10).
Proof.
  assert (H : 2 < df_len Sample.features) by (vm_compute; lia).
  split; [exact H|].
  exact (predict_uses_last_row_only Sample.engine1 Sample.features "NIFTY50"
           (6 # 10) 2 H).
Defined.

Lemma full_engine_artifacts (instrument : string) (a : addr) (tr : MLModelTrainer) :
  models Fixtures.full_engine !! instrument = Some a ->
  heap Fixtures.full_engine !! a = Some tr ->
  exists sc names,
    scaler tr = Some (Fitted sc) /\ feature_names_in_ sc = Some names /\
    "sma_50" ∈ names.
Proof.
  unfold Fixtures.full_engine, engine_load_model, PredictionEngine_init.
  cbn [heap trainer]. rewrite lookup_singleton_eq. cbn [heap trainer models fst].
  intros Ha Htr.
  apply lookup_insert_Some in Ha as [[_ <-]|[_ Ha]]; [|by rewrite lookup_empty in Ha].
  rewrite lookup_insert_eq in Htr. injection Htr as <-.
  exists Fixtures.full_scaler, feature_schema.
  split; [vm_compute; reflexivity|]. split; [reflexivity|].
  unfold feature_schema. set_solver.
Qed.

(** X11: five candles against an artifact trained on the full schema. *)
Lemma short_history_never_predicted_witness :
  exists df,
    length (Candles.rising 5) < 50 /\
    extract_all_features TA.lib (candles_df (Candles.rising 5)) = Some df /\
    models Fixtures.full_engine !! "NIFTY50" = Some 0 /\
    heap Fixtures.full_engine !! 0
    = Some (load_model Fixtures.full_models_dir MLModelTrainer_init
              "nifty50_model").1 /\
    predict_next_day Fixtures.full_engine df "NIFTY50" (6 # 10) = None.
Proof.
  assert (H1 : length (Candles.rising 5) < 50) by (vm_compute; lia).
  destruct (extract_all_features TA.lib (candles_df (Candles.rising 5)))
    as [df|] eqn:E; [|vm_compute in E; discriminate].
  assert (H3 : models Fixtures.full_engine !! "NIFTY50" = Some 0)
    by (vm_compute; reflexivity).
  assert (H4 : heap Fixtures.full_engine !! 0
               = Some (load_model Fixtures.full_models_dir MLModelTrainer_init
                         "nifty50_model").1) by (vm_compute; reflexivity).
  exists df. split; [exact H1|]. split; [reflexivity|].
  split; [exact H3|]. split; [exact H4|].
  apply (short_history_never_predicted TA.lib (Candles.rising 5)
           Fixtures.full_engine "NIFTY50" (6 # 10) 0 _ Fixtures.full_scaler
           feature_schema df H1 E H3 H4).
  - vm_compute; reflexivity.
  - reflexivity.
  - unfold feature_schema. set_solver.
Defined.

(** X12 at a table of one row. *)
Lemma prepare_data_single_row_witness :
  df_len Fixtures.one_row <= 1 /\
  (prepare_data tail_split MLModelTrainer_init Fixtures.one_row TRAIN_TEST_SPLIT).2
  = None /\
  feature_columns
    (prepare_data tail_split MLModelTrainer_init Fixtures.one_row TRAIN_TEST_SPLIT).1
  = Some (feature_cols_of (df_columns Fixtures.one_row)).
Proof.
  assert (H : df_len Fixtures.one_row <= 1) by (vm_compute; lia).
  split; [exact H|].
  exact (prepare_data_single_row tail_split MLModelTrainer_init Fixtures.one_row
           TRAIN_TEST_SPLIT H).
Defined.

(** X13 at the ten-row training table, split by [tail_split]. *)
Lemma prepared_data_shape_witness :
  exists X_train X_test y_train y_test,
    (prepare_data tail_split MLModelTrainer_init Candles.training
       TRAIN_TEST_SPLIT).2 = Some (X_train, X_test, y_train, y_test) /\
    length X_train = length y_train /\ length X_test = length y_test /\
    Forall (fun l => l = 1%Z \/ l = 0%Z) (y_train ++ y_test).
Proof.
  destruct (prepare_data tail_split MLModelTrainer_init Candles.training
              TRAIN_TEST_SPLIT).2 as [[[[X_train X_test] y_train] y_test]|] eqn:E;
    [|vm_compute in E; discriminate].
  exists X_train, X_test, y_train, y_test. split; [reflexivity|].
  destruct (prepared_data_shape tail_split MLModelTrainer_init Candles.training
              TRAIN_TEST_SPLIT X_train X_test y_train y_test E)
    as (H1 & H2 & _ & _ & H5).
  split; [exact H1|]. split; [exact H2|exact H5].
Defined.

(** X15: the NIFTY50 trainer saved under a new name in an empty
    directory. *)
Lemma save_then_load_witness :
  model Fixtures.nifty_trainer
  = Some (Sample.constant_clf 1 [(3 # 10); (7 # 10)]%Q) /\
  scaler Fixtures.nifty_trainer = Some (Fitted Sample.fitted_scaler) /\
  feature_columns Fixtures.nifty_trainer = Some ["sma_20"; "rsi"] /\
  exists fs',
    save_model Fixtures.nifty_trainer ModelsDir_empty "copy" = (fs', true) /\
    (forall tr,
       (load_model fs' tr "copy").2 = true /\
       model (load_model fs' tr "copy").1
       = Some (Sample.constant_clf 1 [(3 # 10); (7 # 10)]%Q) /\
       scaler (load_model fs' tr "copy").1 = Some (Fitted Sample.fitted_scaler)) /\
    (forall other tr,
       other <> "copy" ->
       load_model fs' tr other = load_model ModelsDir_empty tr other).
Proof.
  assert (H1 : model Fixtures.nifty_trainer
               = Some (Sample.constant_clf 1 [(3 # 10); (7 # 10)]%Q))
    by (vm_compute; reflexivity).
  assert (H2 : scaler Fixtures.nifty_trainer = Some (Fitted Sample.fitted_scaler))
    by (vm_compute; reflexivity).
  assert (H3 : feature_columns Fixtures.nifty_trainer = Some ["sma_20"; "rsi"])
    by (vm_compute; reflexivity).
  split; [exact H1|]. split; [exact H2|]. split; [exact H3|].
  exact (save_then_load Fixtures.nifty_trainer ModelsDir_empty "copy" _ _ _ H1 H2 H3).
Defined.

(** X17: training on the ten-row table with the stand-in estimator. *)
Lemma train_from_data_success_witness :
  exists self' fs' res,
    train_from_data tail_split Fixtures.make_estimator Fixtures.fit nat
      Fixtures.metrics_of MLModelTrainer_init ModelsDir_empty Candles.training
      "nifty50_model" = (self', fs', Some res) /\
    tr_status res = "success" /\
    is_Some (model_pkl fs' !! "nifty50_model") /\
    features_txt fs' !! "nifty50_model" = Some ["rsi"].
Proof.
  destruct (train_from_data tail_split Fixtures.make_estimator Fixtures.fit nat
              Fixtures.metrics_of MLModelTrainer_init ModelsDir_empty
              Candles.training "nifty50_model") as [[self' fs'] [res|]] eqn:E;
    [|vm_compute in E; discriminate].
  exists self', fs', res. split; [reflexivity|].
  destruct (train_from_data_success tail_split Fixtures.make_estimator Fixtures.fit
              nat Fixtures.metrics_of MLModelTrainer_init self' ModelsDir_empty fs'
              Candles.training "nifty50_model" res E)
    as (X & y & sc & Xtr & Xte & ytr & yte & kind & m & yp
        & _ & _ & _ & _ & _ & _ & _ & Hst & _ & Hm & _ & Hf & _).
  split; [exact Hst|]. split; [by eexists|exact Hf].
Defined.

Lemma training_last_row_finite :
  Forall (fun c : string * list cell =>
            forall v, last c.2 = Some v -> isinf v = false)
         (df_data Candles.training).
Proof.
  repeat constructor; intros v H; vm_compute in H; injection H as <-; reflexivity.
Qed.

(** X18: the artifact trained on the ten-row table, loaded and asked
    about the same table. *)
Lemma trained_artifact_accepts_table_witness :
  exists self' fs' res,
    train_from_data tail_split Fixtures.make_estimator Fixtures.fit nat
      Fixtures.metrics_of MLModelTrainer_init ModelsDir_empty Candles.training
      "nifty50_model" = (self', fs', Some res) /\
    df_wf Candles.training /\
    exists m sc X X_scaled,
      model_pkl fs' !! "nifty50_model" = Some (Some m) /\
      scaler_pkl fs' !! "nifty50_model" = Some (Some (Fitted sc)) /\
      features_txt fs' !! "nifty50_model" = Some (df_columns X) /\
      predict_features Candles.training = Some X /\
      scaler_transform sc X = Some X_scaled.
Proof.
  destruct (train_from_data tail_split Fixtures.make_estimator Fixtures.fit nat
              Fixtures.metrics_of MLModelTrainer_init ModelsDir_empty
              Candles.training "nifty50_model") as [[self' fs'] [res|]] eqn:E;
    [|vm_compute in E; discriminate].
  assert (Hwf : df_wf Candles.training) by (repeat constructor).
  exists self', fs', res. split; [reflexivity|]. split; [exact Hwf|].
  destruct (trained_artifact_accepts_table tail_split Fixtures.make_estimator
              Fixtures.fit nat Fixtures.metrics_of MLModelTrainer_init self'
              ModelsDir_empty fs' Candles.training "nifty50_model" "NIFTY50" res
              (6 # 10) E Hwf training_last_row_finite)
    as (m & sc & X & Xs & H1 & H2 & H3 & H4 & H5 & _).
  exists m, sc, X, Xs. repeat split; assumption.
Defined.

(** X19 at three backtested rows. *)
Lemma backtest_rates_in_unit_interval_witness :
  length [1; 0; 1]%Z = length [1; 1; 0]%Z /\
  length [1; 1; 0]%Z = length [(8 # 10); (6 # 10); (9 # 10)]%Q /\
  Forall (fun r => 0 <= r /\ r <= 1)%Q
    [win_rate (calculate_backtest_metrics [1; 0; 1]%Z [1; 1; 0]%Z
                 [(8 # 10); (6 # 10); (9 # 10)]%Q);
     bull_precision (calculate_backtest_metrics [1; 0; 1]%Z [1; 1; 0]%Z
                       [(8 # 10); (6 # 10); (9 # 10)]%Q)].
Proof.
  assert (H1 : length [1; 0; 1]%Z = length [1; 1; 0]%Z) by reflexivity.
  assert (H2 : length [1; 1; 0]%Z = length [(8 # 10); (6 # 10); (9 # 10)]%Q)
    by reflexivity.
  split; [exact H1|]. split; [exact H2|].
  pose proof (proj1 (backtest_rates_in_unit_interval [1; 0; 1]%Z [1; 1; 0]%Z
                       [(8 # 10); (6 # 10); (9 # 10)]%Q H1 H2)) as H.
  inversion H as [|? ? Hw H']; subst. inversion H' as [|? ? Hp _]; subst.
  repeat constructor; [apply Hw|apply Hw|apply Hp|apply Hp].
Defined.

(** X20: row 1 of the sample table, backtested with the NIFTY50 trainer
    and predicted by the engine that holds it. *)
Lemma backtest_row_replays_predictor_witness :
  models Sample.engine1 !! "NIFTY50" = Some 0 /\
  heap Sample.engine1 !! 0 = Some Fixtures.nifty_trainer /\
  backtest_row Fixtures.nifty_trainer Sample.features 1 = Some (1%Z, 0%Z, (7 # 10)%Q) /\
  exists p,
    predict_next_day Sample.engine1 (df_take (1 + 1) Sample.features) "NIFTY50" (6 # 10)
    = Some p /\
    p_prediction p = 1%Z /\ p_confidence p = (7 # 10)%Q /\
    p_signal p = (if (1 =? 1)%Z then BULL else BEAR).
Proof.
  assert (H1 : models Sample.engine1 !! "NIFTY50" = Some 0)
    by (vm_compute; reflexivity).
  assert (H2 : heap Sample.engine1 !! 0 = Some Fixtures.nifty_trainer)
    by (vm_compute; reflexivity).
  assert (H3 : backtest_row Fixtures.nifty_trainer Sample.features 1
               = Some (1%Z, 0%Z, (7 # 10)%Q)) by (vm_compute; reflexivity).
  split; [exact H1|]. split; [exact H2|]. split; [exact H3|].
  exact (proj1 (backtest_row_replays_predictor Sample.engine1 "NIFTY50" 0
                  Fixtures.nifty_trainer Sample.features 1 (6 # 10) 1 0 (7 # 10)
                  H1 H2 H3)).
Defined.

(** X21: a backtest over a hundred rising candles. *)
Lemma backtest_report_consistent_witness :
  exists tr' r,
    backtest_model TA.lib Fixtures.full_models_dir MLModelTrainer_init
      (Some (candles_df (Candles.rising 100))) "^NSEI" "nifty50_model" "6m"
    = (tr', Some r) /\
    bull_actuals (bt_metrics r) + bear_actuals (bt_metrics r) = total_backtests r /\
    total_correct (bt_metrics r) <= total_backtests r /\
    bt_ticker r = "^NSEI" /\ bt_period r = "6m".
Proof.
  destruct (backtest_model TA.lib Fixtures.full_models_dir MLModelTrainer_init
              (Some (candles_df (Candles.rising 100))) "^NSEI" "nifty50_model" "6m")
    as [tr' [r|]] eqn:E; [|vm_compute in E; discriminate].
  exists tr', r. split; [reflexivity|].
  destruct (backtest_report_consistent TA.lib Fixtures.full_models_dir
              MLModelTrainer_init tr' (Some (candles_df (Candles.rising 100)))
              "^NSEI" "nifty50_model" "6m" r E)
    as (_ & _ & H3 & _ & H5 & H6 & H7).
  split; [exact H3|]. split; [exact H5|]. split; [exact H6|exact H7].
Defined.

Lemma previous_day_short (name ticker : string) (d : DataFrame) :
  (name, ticker) ∈ Fixtures.instruments ->
  Fixtures.previous_day ticker = Some d ->
  exists cs, d = candles_df cs /\ length cs < 50.
Proof.
  intros _. unfold Fixtures.previous_day.
  destruct (String.eqb ticker "^NSEI"); [|done].
  intros [= <-]. exists (Candles.rising 5). split; [done|]. vm_compute. lia.
Qed.

(** X22: the agent's daily run with five candles for NIFTY50 and nothing
    for BANKNIFTY. *)
Lemma agent_short_day_predicts_nothing_witness :
  analyze_and_predict TA.lib Fixtures.previous_day Fixtures.full_engine
    Fixtures.instruments = Some (mkSummary 0 0 0 0 NaN []) /\
  send_alerts_called
    (analyze_and_predict TA.lib Fixtures.previous_day Fixtures.full_engine
       Fixtures.instruments) = false /\
  total_predictions (mkSummary 0 0 0 0 NaN []) = 0.
Proof.
  assert (H : analyze_and_predict TA.lib Fixtures.previous_day Fixtures.full_engine
                Fixtures.instruments = Some (mkSummary 0 0 0 0 NaN []))
    by (vm_compute; reflexivity).
  split; [exact H|].
  destruct (agent_short_day_predicts_nothing TA.lib Fixtures.previous_day
              Fixtures.full_engine Fixtures.instruments
              previous_day_short full_engine_artifacts) as [Hno Hsum].
  split; [exact Hno|]. exact (proj1 (Hsum _ H)).
Defined.

(** X24 at the sample engine: confidence 0.7 is labelled "High". *)
Lemma prediction_confidence_label_witness :
  predict_next_day Sample.engine1 Sample.features "NIFTY50" (6 # 10)
  = Some (mkPrediction "NIFTY50" BULL 1 (7 # 10) true 3 ["sma_20"; "rsi"]) /\
  get_confidence_interpretation (7 # 10) <> ("Very Low", Red).
Proof.
  assert (H : predict_next_day Sample.engine1 Sample.features "NIFTY50" (6 # 10)
    = Some (mkPrediction "NIFTY50" BULL 1 (7 # 10) true 3 ["sma_20"; "rsi"]))
    by (vm_compute; reflexivity).
  split; [exact H|].
  exact (proj1 (prediction_confidence_label Sample.engine1 Sample.features
                  "NIFTY50" (6 # 10) _ engine1_all_binary_proba H)).
Defined.

(** X25 at fifty rising candles and the reference TA-Lib. *)
Lemma full_history_schema_witness :
  50 <= length (Candles.rising 50) /\
  exists df,
    extract_all_features TA.lib (candles_df (Candles.rising 50)) = Some df /\
    df_columns df = ["open"; "high"; "low"; "close"; "volume"] ++ feature_schema /\
    feature_cols_of (df_columns df) = feature_schema /\
    df_len df <= length (Candles.rising 50) /\
    (forall name col, (name, col) ∈ df_data df ->
       Forall (fun c => isna c = false) col).
Proof.
  assert (H : 50 <= length (Candles.rising 50)) by (vm_compute; lia).
  split; [exact H|].
  exact (full_history_schema TA.lib (Candles.rising 50) TA_lib_lengths H).
Defined.

(** X26 at a fresh trainer and an empty directory: the save fails, and
    the load that follows succeeds. *)
Lemma failed_save_leaves_artifact_witness :
  feature_columns MLModelTrainer_init = None /\
  exists fs',
    save_model MLModelTrainer_init ModelsDir_empty "fresh" = (fs', false) /\
    load_model fs' MLModelTrainer_init "fresh"
    = (mkTrainer MODEL_TYPE None None (Some [""]), true).
Proof.
  assert (H : feature_columns MLModelTrainer_init = None) by reflexivity.
  split; [exact H|].
  destruct (proj2 (failed_save_leaves_artifact MLModelTrainer_init ModelsDir_empty
                     "fresh") H) as (fs' & Hsave & _ & _ & _ & Hload & _).
  exists fs'. split; [exact Hsave|exact (Hload MLModelTrainer_init)].
Defined.
